(** * fsocks: the SOCKS message codec (fsocks/socks.py) and the fuzzing
    codecs (fsocks/fuzzing/codec.py), shallowly embedded.

    Conventions.
    - A byte is a [Z]; a Python [bytes] value is a [list Z] whose elements
      lie in [0, 255].
    - A Python [str] is a [list Z] of Unicode code points.
    - Python exceptions are the constructors of [error]; a computation that
      may raise is a [result].
    - The byte stream's [read_all n] returns exactly [n] bytes or fails. *)

From Stdlib Require Import ZArith List Lia Bool.
From Stdlib Require Import Ascii String.
From Stdlib Require Import List.
Import ListNotations.
Open Scope Z_scope.

(** ** Exceptions and the error monad *)

(** [REP] comes first: [ProxyError] carries one. *)
Inductive REP :=
| SUCCEEDED
| GENERAL_SOCKS_SERVER_FAILURE
| CONNECTION_NOT_ALLOWED_BY_RULESET
| NETWORK_UNREACHABLE
| HOST_UNREACHABLE
| CONNECTION_REFUSED
| TTL_EXPIRED
| COMMAND_NOT_SUPPORTED
| ADDRESS_TYPE_NOT_SUPPORTED.

(** The exceptions the modelled code can raise.  [ProxyError] keeps its
    reply code; its human-readable text is not modelled. *)
Inductive error :=
| ProxyError (code : REP)
| ValueError            (* Enum(value) on an undefined value *)
| AttributeError        (* attribute lookup on an object without it *)
| AssertionError
| StructError           (* struct.pack out of range *)
| StreamError           (* read_all on a stream with too few bytes *)
| UnicodeEncodeError
| UnicodeDecodeError
| AddressValueError     (* ipaddress parsing *)
| BinasciiError         (* binascii.Error, base64 decoding *)
| IndexError.

Inductive result (A : Type) :=
| Ok (a : A)
| Err (e : error).
Arguments Ok {A} a.
Arguments Err {A} e.

Definition bind {A B} (m : result A) (k : A -> result B) : result B :=
  match m with
  | Ok a => k a
  | Err e => Err e
  end.

Notation "x <- m ;; k" := (bind m (fun x => k))
  (at level 61, m at next level, right associativity).
Notation "' p <- m ;; k" := (bind m (fun x => match x with p => k end))
  (at level 61, p pattern, m at next level, right associativity).

Definition raise {A} (e : error) : result A := Err e.

(** ** Enumerations (socks.py, lines 13-51)

    [value] is [.value]; [of_value] is the call [Enum(v)], which raises
    [ValueError] on an undefined value. *)

Inductive VERSION := SOCKS4 | SOCKS5.

Definition VERSION_value (v : VERSION) : Z :=
  match v with SOCKS4 => 4 | SOCKS5 => 5 end.

Definition VERSION_of (z : Z) : result VERSION :=
  if z =? 4 then Ok SOCKS4
  else if z =? 5 then Ok SOCKS5
  else raise ValueError.

Inductive METHOD :=
| NO_AUTHENTICATION_REQUIRED
| GSSAPI
| USERNAME_PASSWORD
| NO_ACCEPTABLE_METHODS.

Definition METHOD_value (m : METHOD) : Z :=
  match m with
  | NO_AUTHENTICATION_REQUIRED => 0
  | GSSAPI => 1
  | USERNAME_PASSWORD => 2
  | NO_ACCEPTABLE_METHODS => 255
  end.

Definition METHOD_of (z : Z) : result METHOD :=
  if z =? 0 then Ok NO_AUTHENTICATION_REQUIRED
  else if z =? 1 then Ok GSSAPI
  else if z =? 2 then Ok USERNAME_PASSWORD
  else if z =? 255 then Ok NO_ACCEPTABLE_METHODS
  else raise ValueError.

Inductive CMD := CONNECT | BIND | UDP.

Definition CMD_value (c : CMD) : Z :=
  match c with CONNECT => 1 | BIND => 2 | UDP => 3 end.

Definition CMD_of (z : Z) : result CMD :=
  if z =? 1 then Ok CONNECT
  else if z =? 2 then Ok BIND
  else if z =? 3 then Ok UDP
  else raise ValueError.

Inductive ATYPE := IPV4 | DOMAINNAME | IPV6.

Definition ATYPE_value (a : ATYPE) : Z :=
  match a with IPV4 => 1 | DOMAINNAME => 3 | IPV6 => 4 end.

Definition ATYPE_of (z : Z) : result ATYPE :=
  if z =? 1 then Ok IPV4
  else if z =? 3 then Ok DOMAINNAME
  else if z =? 4 then Ok IPV6
  else raise ValueError.

Definition REP_value (r : REP) : Z :=
  match r with
  | SUCCEEDED => 0
  | GENERAL_SOCKS_SERVER_FAILURE => 1
  | CONNECTION_NOT_ALLOWED_BY_RULESET => 2
  | NETWORK_UNREACHABLE => 3
  | HOST_UNREACHABLE => 4
  | CONNECTION_REFUSED => 5
  | TTL_EXPIRED => 6
  | COMMAND_NOT_SUPPORTED => 7
  | ADDRESS_TYPE_NOT_SUPPORTED => 8
  end.

Definition REP_of (z : Z) : result REP :=
  if z =? 0 then Ok SUCCEEDED
  else if z =? 1 then Ok GENERAL_SOCKS_SERVER_FAILURE
  else if z =? 2 then Ok CONNECTION_NOT_ALLOWED_BY_RULESET
  else if z =? 3 then Ok NETWORK_UNREACHABLE
  else if z =? 4 then Ok HOST_UNREACHABLE
  else if z =? 5 then Ok CONNECTION_REFUSED
  else if z =? 6 then Ok TTL_EXPIRED
  else if z =? 7 then Ok COMMAND_NOT_SUPPORTED
  else if z =? 8 then Ok ADDRESS_TYPE_NOT_SUPPORTED
  else raise ValueError.

(** ** struct *)

(** [struct.pack('!B', z)]: one byte, [struct.error] out of range. *)
Definition pack_B (z : Z) : result (list Z) :=
  if (0 <=? z) && (z <=? 255) then Ok [z] else raise StructError.

(** [struct.pack('!H', z)]: two bytes, big-endian. *)
Definition pack_H (z : Z) : result (list Z) :=
  if (0 <=? z) && (z <=? 65535)
  then Ok [Z.shiftr z 8; Z.land z 255]
  else raise StructError.

(** [struct.unpack('!H', b)] on two bytes. *)
Definition unpack_H (b0 b1 : Z) : Z := Z.lor (Z.shiftl b0 8) b1.

(** ** The byte stream *)

(** The state of a stream is the list of bytes still to be read. *)
Definition stream := list Z.

(** Modelled from the spec: the stream's [read_all] (the spec's
    [read_exact(n)]), which is not in the sources; it returns exactly [n]
    bytes and fails when the stream ends before [n] bytes arrive. *)
Definition read_all (n : nat) (s : stream) : result (list Z * stream) :=
  if Nat.leb n (length s) then Ok (firstn n s, skipn n s)
  else raise StreamError.

(** ** Python [str] helpers *)

(** A Python [str]: its code points. *)
Definition pystr := list Z.

(** The code points of an ASCII literal. *)
Definition s_ (x : String.string) : pystr :=
  map (fun a => Z.of_nat (Ascii.nat_of_ascii a)) (String.list_ascii_of_string x).
Arguments s_ x%_string_scope.

Definition pystr_eqb (a b : pystr) : bool :=
  if list_eq_dec Z.eq_dec a b then true else false.

(** [c in s] for a one-character [c]. *)
Definition contains (c : Z) (s : pystr) : bool := existsb (Z.eqb c) s.

(** [s.split(sep)] for a one-character separator. *)
Fixpoint split_on (sep : Z) (s : pystr) : list pystr :=
  match s with
  | [] => [[]]
  | c :: r =>
      if c =? sep then [] :: split_on sep r
      else match split_on sep r with
           | p :: ps => (c :: p) :: ps
           | [] => [[c]]
           end
  end.

(** [sep.join(parts)]. *)
Fixpoint join (sep : Z) (parts : list pystr) : pystr :=
  match parts with
  | [] => []
  | [p] => p
  | p :: ps => p ++ sep :: join sep ps
  end.

(** [s.partition(sep)]: [(before, found, after)]. *)
Fixpoint partition (sep : Z) (s : pystr) : pystr * bool * pystr :=
  match s with
  | [] => ([], false, [])
  | c :: r =>
      if c =? sep then ([], true, r)
      else let '(b, f, a) := partition sep r in (c :: b, f, a)
  end.

(** ** Integers as text: [str(n)], ['%x' % n], [int(s, base)] *)

(** The digit values of [n >= 0] in [base], most significant first; the
    fuel bounds the number of digits. *)
Fixpoint digits_aux (base : Z) (fuel : nat) (n : Z) (acc : list Z) : list Z :=
  match fuel with
  | O => n mod base :: acc
  | S f =>
      if n <? base then n :: acc
      else digits_aux base f (n / base) (n mod base :: acc)
  end.

Definition digits (base n : Z) : list Z :=
  digits_aux base (Pos.size_nat (Z.to_pos n)) n [].

(** The character of a digit value: ['0'..'9'], then lowercase ['a'..]. *)
Definition digit_char (d : Z) : Z := if d <? 10 then 48 + d else 87 + d.

(** [str(n)] for [n >= 0]. *)
Definition str_of_int (n : Z) : pystr := map digit_char (digits 10 n).

(** ['%x' % n] for [n >= 0]. *)
Definition hex_of_int (n : Z) : pystr := map digit_char (digits 16 n).

(** The value of a digit character in [base] (at most 16), any case. *)
Definition digit_value (base c : Z) : option Z :=
  let d :=
    if (48 <=? c) && (c <=? 57) then c - 48
    else if (97 <=? c) && (c <=? 122) then c - 87
    else if (65 <=? c) && (c <=? 90) then c - 55
    else base in
  if d <? base then Some d else None.

(** [int(s, base)] on a string of digit characters (callers have checked
    the characters; [int('')] raises). *)
Definition int_of_digits (base : Z) (s : pystr) : result Z :=
  match s with
  | [] => raise ValueError
  | _ =>
      fold_left
        (fun acc c =>
           a <- acc ;;
           match digit_value base c with
           | Some d => Ok (a * base + d)
           | None => raise ValueError
           end)
        s (Ok 0)
  end.

(** ** UTF-8 ([str.encode()], [bytes.decode()], strict) *)

Definition utf8_encode_char (c : Z) : result (list Z) :=
  if c <? 0 then raise UnicodeEncodeError
  else if c <? 128 then Ok [c]
  else if c <? 2048 then
    Ok [Z.lor 192 (Z.shiftr c 6); Z.lor 128 (Z.land c 63)]
  else if c <? 65536 then
    if (55296 <=? c) && (c <=? 57343) then raise UnicodeEncodeError
    else Ok [Z.lor 224 (Z.shiftr c 12);
             Z.lor 128 (Z.land (Z.shiftr c 6) 63);
             Z.lor 128 (Z.land c 63)]
  else if c <? 1114112 then
    Ok [Z.lor 240 (Z.shiftr c 18);
        Z.lor 128 (Z.land (Z.shiftr c 12) 63);
        Z.lor 128 (Z.land (Z.shiftr c 6) 63);
        Z.lor 128 (Z.land c 63)]
  else raise UnicodeEncodeError.

Fixpoint utf8_encode (s : pystr) : result (list Z) :=
  match s with
  | [] => Ok []
  | c :: r => b <- utf8_encode_char c ;; bs <- utf8_encode r ;; Ok (b ++ bs)
  end.

Definition is_cont (b : Z) : bool := (128 <=? b) && (b <=? 191).

(** Strict decoding: continuation bytes in [0x80, 0xBF], no overlong form,
    no surrogate, nothing above U+10FFFF. *)
Fixpoint utf8_decode (bs : list Z) : result pystr :=
  match bs with
  | [] => Ok []
  | b0 :: r =>
      if b0 <? 128 then
        s <- utf8_decode r ;; Ok (b0 :: s)
      else if (192 <=? b0) && (b0 <=? 223) then
        match r with
        | b1 :: r1 =>
            let c := Z.lor (Z.shiftl (Z.land b0 31) 6) (Z.land b1 63) in
            if is_cont b1 && (128 <=? c) then
              s <- utf8_decode r1 ;; Ok (c :: s)
            else raise UnicodeDecodeError
        | _ => raise UnicodeDecodeError
        end
      else if (224 <=? b0) && (b0 <=? 239) then
        match r with
        | b1 :: b2 :: r2 =>
            let c := Z.lor (Z.shiftl (Z.land b0 15) 12)
                       (Z.lor (Z.shiftl (Z.land b1 63) 6) (Z.land b2 63)) in
            if is_cont b1 && is_cont b2 && (2048 <=? c)
               && negb ((55296 <=? c) && (c <=? 57343)) then
              s <- utf8_decode r2 ;; Ok (c :: s)
            else raise UnicodeDecodeError
        | _ => raise UnicodeDecodeError
        end
      else if (240 <=? b0) && (b0 <=? 244) then
        match r with
        | b1 :: b2 :: b3 :: r3 =>
            let c := Z.lor (Z.shiftl (Z.land b0 7) 18)
                       (Z.lor (Z.shiftl (Z.land b1 63) 12)
                          (Z.lor (Z.shiftl (Z.land b2 63) 6) (Z.land b3 63))) in
            if is_cont b1 && is_cont b2 && is_cont b3
               && (65536 <=? c) && (c <=? 1114111) then
              s <- utf8_decode r3 ;; Ok (c :: s)
            else raise UnicodeDecodeError
        | _ => raise UnicodeDecodeError
        end
      else raise UnicodeDecodeError
  end.

Fixpoint mapM {A B} (f : A -> result B) (l : list A) : result (list B) :=
  match l with
  | [] => Ok []
  | x :: r => y <- f x ;; ys <- mapM f r ;; Ok (y :: ys)
  end.

(** ** ipaddress (Python standard library)

    Only what socks.py uses: [IPv4Address(b).compressed] and
    [IPv6Address(b).compressed] on raw bytes, [IPv4Address(s).packed] and
    [IPv6Address(s).packed] on text.  Every [ValueError] raised while
    parsing surfaces as [AddressValueError]. *)

Definition is_ascii_digit (c : Z) : bool := (48 <=? c) && (c <=? 57).

(** [IPv4Address._parse_octet]. *)
Definition ipv4_parse_octet (o : pystr) : result Z :=
  match o with
  | [] => raise AddressValueError
  | c0 :: _ =>
      if negb (forallb is_ascii_digit o) then raise AddressValueError
      else if (3 <? Z.of_nat (length o)) then raise AddressValueError
      else if negb (pystr_eqb o (s_ "0")) && (c0 =? 48) then
        raise AddressValueError
      else match int_of_digits 10 o with
           | Ok n => if 255 <? n then raise AddressValueError else Ok n
           | Err _ => raise AddressValueError
           end
  end.

(** [IPv4Address(s)] then [.packed]: [_ip_int_from_string] and
    [int.to_bytes(4, 'big')], i.e. the four octets. *)
Definition ipv4_packed_of_str (s : pystr) : result (list Z) :=
  if contains 47 s then raise AddressValueError          (* '/' *)
  else match s with
       | [] => raise AddressValueError
       | _ =>
           let octets := split_on 46 s in                  (* '.' *)
           if negb (Nat.eqb (length octets) 4) then raise AddressValueError
           else mapM ipv4_parse_octet octets
       end.

(** [IPv4Address(b).compressed] for four bytes [b]:
    ['.'.join(map(str, b))]. *)
Definition ipv4_str_of_packed (b : list Z) : pystr :=
  join 46 (map str_of_int b).

Definition is_hex_digit (c : Z) : bool :=
  is_ascii_digit c || ((97 <=? c) && (c <=? 102)) || ((65 <=? c) && (c <=? 70)).

(** [IPv6Address._parse_hextet]. *)
Definition ipv6_parse_hextet (h : pystr) : result Z :=
  if negb (forallb is_hex_digit h) then raise AddressValueError
  else if 4 <? Z.of_nat (length h) then raise AddressValueError
  else match int_of_digits 16 h with
       | Ok n => Ok n
       | Err _ => raise AddressValueError
       end.

(** The [skip_index] loop: the index of the only empty part among
    [parts[1:-1]]; two empty parts raise. *)
Fixpoint find_skip (inner : list pystr) (i : Z) (skip : option Z)
  : result (option Z) :=
  match inner with
  | [] => Ok skip
  | p :: r =>
      match p with
      | [] => match skip with
              | Some _ => raise AddressValueError
              | None => find_skip r (i + 1) (Some i)
              end
      | _ => find_skip r (i + 1) skip
      end
  end.

Definition is_empty (p : pystr) : bool :=
  match p with [] => true | _ => false end.

(** [IPv6Address._ip_int_from_string], returning the eight 16-bit fields
    of the address (the source accumulates them into one 128-bit integer
    by [ip_int <<= 16; ip_int |= hextet], i.e. it concatenates them). *)
Definition ipv6_hextets_of_str (ip_str : pystr) : result (list Z) :=
  match ip_str with
  | [] => raise AddressValueError
  | _ =>
    let parts0 := split_on 58 ip_str in                    (* ':' *)
    if Z.of_nat (length parts0) <? 3 then raise AddressValueError else
    parts <-
      (let lastp := last parts0 [] in
       if contains 46 lastp then                            (* '.' *)
         b <- ipv4_packed_of_str lastp ;;
         match b with
         | [b0; b1; b2; b3] =>
             Ok (removelast parts0
                 ++ [hex_of_int (Z.lor (Z.shiftl b0 8) b1);
                     hex_of_int (Z.lor (Z.shiftl b2 8) b3)])
         | _ => raise AddressValueError
         end
       else Ok parts0) ;;
    let n := Z.of_nat (length parts) in
    if 9 <? n then raise AddressValueError else
    skip <- find_skip (firstn (length parts - 2) (tl parts)) 1 None ;;
    let first_empty := is_empty (hd [] parts) in
    let last_empty := is_empty (last parts []) in
    '(hi, lo, skipped) <-
      (match skip with
       | Some k =>
           let hi := if first_empty then k - 1 else k in
           let lo := if last_empty then n - k - 2 else n - k - 1 in
           if first_empty && negb (hi =? 0) then raise AddressValueError
           else if last_empty && negb (lo =? 0) then raise AddressValueError
           else if 8 - (hi + lo) <? 1 then raise AddressValueError
           else Ok (hi, lo, 8 - (hi + lo))
       | None =>
           if negb (n =? 8) then raise AddressValueError
           else if first_empty then raise AddressValueError
           else if last_empty then raise AddressValueError
           else Ok (n, 0, 0)
       end) ;;
    his <- mapM ipv6_parse_hextet (firstn (Z.to_nat hi) parts) ;;
    los <- mapM ipv6_parse_hextet (skipn (length parts - Z.to_nat lo) parts) ;;
    Ok (his ++ repeat 0 (Z.to_nat skipped) ++ los)
  end.

(** [IPv6Address._split_scope_id]: the text before a ['%scope'] suffix. *)
Definition ipv6_split_scope_id (s : pystr) : result pystr :=
  let '(addr, sep, scope) := partition 37 s in              (* '%' *)
  if negb sep then Ok addr
  else if is_empty scope || contains 37 scope then raise AddressValueError
  else Ok addr.

(** The bytes of a 16-bit field, big-endian. *)
Definition hextet_bytes (h : Z) : list Z := [Z.shiftr h 8; Z.land h 255].

(** [IPv6Address(s).packed]. *)
Definition ipv6_packed_of_str (s : pystr) : result (list Z) :=
  if contains 47 s then raise AddressValueError            (* '/' *)
  else a <- ipv6_split_scope_id s ;;
       hs <- ipv6_hextets_of_str a ;;
       Ok (flat_map hextet_bytes hs).

(** The longest-run scan of [_compress_hextets]: returns
    [(best_doublecolon_start, best_doublecolon_len)]. *)
Fixpoint compress_scan (hextets : list pystr) (index ds dl bs bl : Z) : Z * Z :=
  match hextets with
  | [] => (bs, bl)
  | h :: r =>
      if pystr_eqb h (s_ "0") then
        let dl := dl + 1 in
        let ds := if ds =? -1 then index else ds in
        if bl <? dl then compress_scan r (index + 1) ds dl ds dl
        else compress_scan r (index + 1) ds dl bs bl
      else compress_scan r (index + 1) (-1) 0 bs bl
  end.

(** [IPv6Address._compress_hextets]. *)
Definition compress_hextets (hextets : list pystr) : list pystr :=
  let '(bs, bl) := compress_scan hextets 0 (-1) 0 (-1) 0 in
  if 1 <? bl then
    let be := bs + bl in
    let hextets := if be =? Z.of_nat (length hextets) then hextets ++ [[]]
                   else hextets in
    let hextets := firstn (Z.to_nat bs) hextets ++ [[]]
                   ++ skipn (Z.to_nat be) hextets in
    if bs =? 0 then [] :: hextets else hextets
  else hextets.

(** The eight 16-bit fields of sixteen bytes. *)
Fixpoint hextets_of_bytes (b : list Z) : list Z :=
  match b with
  | b0 :: b1 :: r => Z.lor (Z.shiftl b0 8) b1 :: hextets_of_bytes r
  | _ => []
  end.

(** [IPv6Address(b).compressed] for sixteen bytes [b]
    ([_string_from_ip_int]). *)
Definition ipv6_str_of_packed (b : list Z) : pystr :=
  join 58 (compress_hextets (map hex_of_int (hextets_of_bytes b))).

(** ** socks.py: [Message] (lines 68-139) *)

(** The [msg] field holds a [CMD] member in a request and a [REP] member in
    a reply. *)
Inductive Msg := Cmd (c : CMD) | Rep (r : REP).

Definition Msg_value (m : Msg) : Z :=
  match m with Cmd c => CMD_value c | Rep r => REP_value r end.

Record Message := mkMessage {
  ver : VERSION;
  msg : Msg;
  atype : ATYPE;
  addr : pystr * Z
}.

(** [Message.rsv]. *)
Definition rsv : Z := 0.

(** [Message.is_request]: [self.msg in CMD]. *)
Definition is_request (m : Message) : bool :=
  match msg m with Cmd _ => true | Rep _ => false end.

(** The handler [except ValueError as e: raise ProxyError(..., e.message)]:
    Python 3 exceptions have no [message] attribute, so evaluating the
    argument raises [AttributeError] before [ProxyError] is built. *)
Definition except_value_error {A} (r : result A) : result A :=
  match r with
  | Err ValueError => raise AttributeError
  | _ => r
  end.

(** [Message.from_stream(stream, request)]: the message and the rest of
    the stream. *)
Definition Message_from_stream (s : stream) (request : bool)
  : result (Message * stream) :=
  '(hdr, s) <- read_all 4 s ;;
  match hdr with
  | [v; m; r; a] =>
      if negb (r =? rsv) then raise (ProxyError GENERAL_SOCKS_SERVER_FAILURE)
      else
      '(v, m, a) <- except_value_error
                      (v <- VERSION_of v ;;
                       m <- (if request then c <- CMD_of m ;; Ok (Cmd c)
                             else r <- REP_of m ;; Ok (Rep r)) ;;
                       a <- ATYPE_of a ;;
                       Ok (v, m, a)) ;;
      '(host, s) <-
        (match a with
         | DOMAINNAME =>
             '(l, s) <- read_all 1 s ;;
             let alen := hd 0 l in
             '(b, s) <- read_all (Z.to_nat alen) s ;;
             host <- utf8_decode b ;;
             Ok (host, s)
         | IPV4 =>
             '(b, s) <- read_all 4 s ;; Ok (ipv4_str_of_packed b, s)
         | IPV6 =>
             '(b, s) <- read_all 16 s ;; Ok (ipv6_str_of_packed b, s)
         end) ;;
      '(p, s) <- read_all 2 s ;;
      let port := unpack_H (hd 0 p) (hd 0 (tl p)) in
      Ok (mkMessage v m a (host, port), s)
  | _ => raise StreamError
  end.

(** [Message.to_bytes()]. *)
Definition Message_to_bytes (m : Message) : result (list Z) :=
  let data := [VERSION_value (ver m); Msg_value (msg m); rsv;
               ATYPE_value (atype m)] in
  let '(host, port) := addr m in
  tail <-
    (match atype m with
     | DOMAINNAME =>
         e <- utf8_encode host ;;
         let alen := Z.of_nat (length e) in
         l <- pack_B alen ;;
         Ok (l ++ e)
     | IPV4 => ipv4_packed_of_str host
     | IPV6 => ipv6_packed_of_str host
     end) ;;
  p <- pack_H port ;;
  Ok (data ++ tail ++ p).

(** ** socks.py: [ClientGreeting] (lines 142-167) *)

Record ClientGreeting := mkClientGreeting {
  cg_ver : VERSION;
  nmethods : Z;
  methods : list METHOD
}.

Definition ClientGreeting_from_stream (s : stream)
  : result (ClientGreeting * stream) :=
  '(hdr, s) <- read_all 2 s ;;
  match hdr with
  | [v; n] =>
      '(ms, s) <- read_all (Z.to_nat n) s ;;
      v <- VERSION_of v ;;
      ms <- mapM METHOD_of ms ;;
      Ok (mkClientGreeting v n ms, s)
  | _ => raise StreamError
  end.

Definition ClientGreeting_to_bytes (g : ClientGreeting) : result (list Z) :=
  if negb (nmethods g =? Z.of_nat (length (methods g)))
  then raise AssertionError
  else
    v <- pack_B (VERSION_value (cg_ver g)) ;;
    n <- pack_B (nmethods g) ;;
    ms <- mapM (fun m => pack_B (METHOD_value m)) (methods g) ;;
    Ok (v ++ n ++ concat ms).

(** ** socks.py: [ServerGreeting] (lines 170-188) *)

Record ServerGreeting := mkServerGreeting {
  sg_ver : VERSION;
  sg_method : METHOD
}.

Definition ServerGreeting_from_stream (s : stream)
  : result (ServerGreeting * stream) :=
  '(hdr, s) <- read_all 2 s ;;
  match hdr with
  | [v; m] =>
      v <- VERSION_of v ;;
      m <- METHOD_of m ;;
      Ok (mkServerGreeting v m, s)
  | _ => raise StreamError
  end.

Definition ServerGreeting_to_bytes (g : ServerGreeting) : result (list Z) :=
  Ok [VERSION_value (sg_ver g); METHOD_value (sg_method g)].

(** ** fuzzing/codec.py *)

(** [bin(v)[2:]]: for [v < 0], [bin(v)] is ['-0b...'], so the slice keeps
    ['b...']. *)
Definition bin_tail (v : Z) : pystr :=
  if v <? 0 then 98 :: map digit_char (digits 2 (- v))
  else map digit_char (digits 2 v).

(** [s.zfill(w)] for a string without a sign. *)
Definition zfill (w : nat) (s : pystr) : pystr :=
  repeat 48 (w - length s) ++ s.

(** [byte2bit(value)] (lines 73-74). *)
Definition byte2bit (v : Z) : pystr := zfill 8 (bin_tail v).

(** [bit2byte(bits)] (lines 77-78): [int(bits, base=2)]. *)
Definition bit2byte (bits : pystr) : result Z := int_of_digits 2 bits.

(** [bytearray.find(b)]: the first index of [b], or [-1]. *)
Fixpoint find (t : list Z) (b : Z) : Z :=
  match t with
  | [] => -1
  | x :: r => if x =? b then 0 else
              let i := find r b in if i =? -1 then -1 else i + 1
  end.

(** [table[nb]]. *)
Definition index (t : list Z) (i : Z) : result Z :=
  if i <? 0 then raise IndexError
  else match nth_error t (Z.to_nat i) with
       | Some x => Ok x
       | None => raise IndexError
       end.

(** [XXencode.table] and [UUencode.table]. *)
Definition xx_table : list Z :=
  s_ "+-0123456789ABCDEFGHIJKLMNOPQRSTUVWXYZabcdefghijklmnopqrstuvwxyz".
Definition uu_table : list Z := map Z.of_nat (seq 32 64).

(** The loop [for i in range(0, len(data), 3)] of [XXencode.encode]. *)
Fixpoint xx_encode_groups (table data : list Z) : result (list Z) :=
  match data with
  | [] => Ok []
  | a :: b :: c :: r =>
      let bits := byte2bit a ++ byte2bit b ++ byte2bit c in
      if negb (Nat.eqb (length bits) 24) then raise AssertionError else
      c0 <- (nb <- bit2byte (firstn 6 bits) ;; index table nb) ;;
      c1 <- (nb <- bit2byte (firstn 6 (skipn 6 bits)) ;; index table nb) ;;
      c2 <- (nb <- bit2byte (firstn 6 (skipn 12 bits)) ;; index table nb) ;;
      c3 <- (nb <- bit2byte (firstn 6 (skipn 18 bits)) ;; index table nb) ;;
      rest <- xx_encode_groups table r ;;
      Ok (c0 :: c1 :: c2 :: c3 :: rest)
  | _ => raise IndexError
  end.

(** [XXencode.encode] (lines 89-105); [UUencode] inherits it. *)
Definition xx_encode (table data : list Z) : result (list Z) :=
  let remains := Z.of_nat (length data) mod 3 in
  let paddings := if remains =? 0 then 0 else 3 - remains in
  let data := data ++ repeat 0 (Z.to_nat paddings) in
  groups <- xx_encode_groups table data ;;
  Ok (paddings :: groups).

(** [bits[i: i + 8]] for [i] in [range(0, len(bits), 8)]. *)
Fixpoint chunks8 (l : pystr) : list pystr :=
  match l with
  | [] => []
  | a :: b :: c :: d :: e :: f :: g :: h :: r =>
      [a; b; c; d; e; f; g; h] :: chunks8 r
  | r => [r]
  end.

(** [XXencode.decode] (lines 107-121). *)
Definition xx_decode (table data : list Z) : result (list Z) :=
  match data with
  | [] => raise IndexError
  | paddings :: data =>
      let bits := flat_map (fun b => skipn 2 (byte2bit (find table b))) data in
      if negb (Nat.eqb (length bits mod 8) 0) then raise AssertionError else
      result <- mapM bit2byte (chunks8 bits) ;;
      if negb (paddings =? 0)
      then Ok (firstn (length result - Z.to_nat paddings) result)
      else Ok result
  end.

(** [AtBash.encode] (lines 130-134); [decode] calls [encrypt], which is
    [encode]. *)
Definition atbash_encode (data : list Z) : result (list Z) :=
  Ok (map (fun b => Z.abs (255 - b)) data).

(** ** base64 and binascii (Python standard library), as the codecs
    [Base16], [Base64], [Base32] and [Base85] call them. *)

(** [t[i]] on an alphabet, with [i] known to be in range. *)
Definition at_ (t : list Z) (i : Z) : Z := nth (Z.to_nat i) t 0.

(** Base16: [b16encode] is [binascii.hexlify(s).upper()]. *)
Definition b16_alphabet : list Z := s_ "0123456789ABCDEF".
Definition hexlify_lower : list Z := s_ "0123456789abcdef".

Definition ascii_upper (c : Z) : Z :=
  if (97 <=? c) && (c <=? 122) then c - 32 else c.

Definition b16encode (s : list Z) : list Z :=
  map ascii_upper
    (flat_map (fun b => [at_ hexlify_lower (Z.shiftr b 4);
                         at_ hexlify_lower (Z.land b 15)]) s).

(** [binascii.unhexlify]: pairs of hex digits, either case. *)
Fixpoint unhexlify (s : list Z) : result (list Z) :=
  match s with
  | [] => Ok []
  | [_] => raise BinasciiError
  | a :: b :: r =>
      match digit_value 16 a, digit_value 16 b with
      | Some x, Some y =>
          rest <- unhexlify r ;; Ok (Z.lor (Z.shiftl x 4) y :: rest)
      | _, _ => raise BinasciiError
      end
  end.

(** [b16decode(s)]: [re.search(b'[^0-9A-F]', s)] rejects, then
    [unhexlify]. *)
Definition b16decode (s : list Z) : result (list Z) :=
  if existsb (fun c => negb (contains c b16_alphabet)) s
  then raise BinasciiError
  else unhexlify s.

(** Base64: [b64encode] is [binascii.b2a_base64(s, newline=False)]. *)
Definition b64_alphabet : list Z :=
  s_ "ABCDEFGHIJKLMNOPQRSTUVWXYZabcdefghijklmnopqrstuvwxyz0123456789+/".

Fixpoint b64encode (s : list Z) : list Z :=
  let t := at_ b64_alphabet in
  match s with
  | [] => []
  | [a] => [t (Z.shiftr a 2); t (Z.shiftl (Z.land a 3) 4); 61; 61]
  | [a; b] =>
      [t (Z.shiftr a 2); t (Z.lor (Z.shiftl (Z.land a 3) 4) (Z.shiftr b 4));
       t (Z.shiftl (Z.land b 15) 2); 61]
  | a :: b :: c :: r =>
      t (Z.shiftr a 2) :: t (Z.lor (Z.shiftl (Z.land a 3) 4) (Z.shiftr b 4))
        :: t (Z.lor (Z.shiftl (Z.land b 15) 2) (Z.shiftr c 6))
        :: t (Z.land c 63) :: b64encode r
  end.

(** [table_a2b_base64]: the value of a base64 character, 255 otherwise. *)
Definition a2b_value (c : Z) : Z :=
  let i := find b64_alphabet c in if i =? -1 then 255 else i.

(** The loop of [binascii.a2b_base64] in its non-strict mode: characters
    outside the alphabet are skipped, ['='] after two or three data
    characters of a quad ends the input, a quad left incomplete raises. *)
Fixpoint a2b_base64_loop (s : list Z) (quad_pos leftchar pads : Z)
  : result (list Z) :=
  match s with
  | [] => if quad_pos =? 0 then Ok [] else raise BinasciiError
  | ch :: r =>
      if ch =? 61 then
        if 2 <=? quad_pos then
          let pads := pads + 1 in
          if 4 <=? quad_pos + pads then Ok []
          else a2b_base64_loop r quad_pos leftchar pads
        else a2b_base64_loop r quad_pos leftchar pads
      else
        let v := a2b_value ch in
        if 64 <=? v then a2b_base64_loop r quad_pos leftchar pads
        else if quad_pos =? 0 then a2b_base64_loop r 1 v 0
        else if quad_pos =? 1 then
          rest <- a2b_base64_loop r 2 (Z.land v 15) 0 ;;
          Ok (Z.land (Z.lor (Z.shiftl leftchar 2) (Z.shiftr v 4)) 255 :: rest)
        else if quad_pos =? 2 then
          rest <- a2b_base64_loop r 3 (Z.land v 3) 0 ;;
          Ok (Z.land (Z.lor (Z.shiftl leftchar 4) (Z.shiftr v 2)) 255 :: rest)
        else
          rest <- a2b_base64_loop r 0 0 0 ;;
          Ok (Z.land (Z.lor (Z.shiftl leftchar 6) v) 255 :: rest)
  end.

Definition b64decode (s : list Z) : result (list Z) := a2b_base64_loop s 0 0 0.

(** Base32 ([_b32encode], [_b32decode] with the RFC 4648 alphabet). *)
Definition b32_alphabet : list Z := s_ "ABCDEFGHIJKLMNOPQRSTUVWXYZ234567".

(** [b32tab2[x]]: the two characters of a 10-bit value. *)
Definition b32tab2 (x : Z) : list Z :=
  [at_ b32_alphabet (Z.shiftr x 5); at_ b32_alphabet (Z.land x 31)].

(** [int.from_bytes(s[i: i + 5])], big-endian. *)
Definition from_bytes (b : list Z) : Z :=
  fold_left (fun acc x => Z.lor (Z.shiftl acc 8) x) b 0.

Fixpoint b32_quanta (s : list Z) : list Z :=
  match s with
  | a :: b :: c :: d :: e :: r =>
      let c := from_bytes [a; b; c; d; e] in
      b32tab2 (Z.shiftr c 30) ++ b32tab2 (Z.land (Z.shiftr c 20) 1023)
      ++ b32tab2 (Z.land (Z.shiftr c 10) 1023) ++ b32tab2 (Z.land c 1023)
      ++ b32_quanta r
  | _ => []
  end.

(** [encoded[-k:] = b'=' * k]. *)
Definition pad_tail (k : nat) (e : list Z) : list Z :=
  firstn (length e - k) e ++ repeat 61 k.

Definition b32encode (s : list Z) : list Z :=
  let leftover := Z.of_nat (length s) mod 5 in
  let s := if leftover =? 0 then s
           else s ++ repeat 0 (Z.to_nat (5 - leftover)) in
  let encoded := b32_quanta s in
  if leftover =? 1 then pad_tail 6 encoded
  else if leftover =? 2 then pad_tail 4 encoded
  else if leftover =? 3 then pad_tail 3 encoded
  else if leftover =? 4 then pad_tail 1 encoded
  else encoded.

Fixpoint skip_while (f : Z -> bool) (l : list Z) : list Z :=
  match l with [] => [] | x :: r => if f x then skip_while f r else l end.

(** [s.rstrip(b'=')]. *)
Definition rstrip_pad (s : list Z) : list Z :=
  rev (skip_while (fun c => c =? 61) (rev s)).

(** [acc.to_bytes(5)], big-endian. *)
Definition to_bytes5 (acc : Z) : list Z :=
  [Z.land (Z.shiftr acc 32) 255; Z.land (Z.shiftr acc 24) 255;
   Z.land (Z.shiftr acc 16) 255; Z.land (Z.shiftr acc 8) 255;
   Z.land acc 255].

(** The quanta loop of [_b32decode]: the decoded bytes, and [acc] as the
    last quantum left it. *)
Fixpoint b32_decode_quanta (qs : list (list Z)) (acc : Z)
  : result (list Z * Z) :=
  match qs with
  | [] => Ok ([], acc)
  | q :: r =>
      a <- fold_left
             (fun acc c =>
                a <- acc ;;
                let v := find b32_alphabet c in
                if v =? -1 then raise BinasciiError
                else Ok (Z.shiftl a 5 + v))
             q (Ok 0) ;;
      '(d, last) <- b32_decode_quanta r a ;;
      Ok (to_bytes5 a ++ d, last)
  end.

Definition b32decode (s0 : list Z) : result (list Z) :=
  if negb (Z.of_nat (length s0) mod 8 =? 0) then raise BinasciiError else
  let l := length s0 in
  let s := rstrip_pad s0 in
  let padchars := Z.of_nat (l - length s) in
  '(decoded, acc) <- b32_decode_quanta (chunks8 s) 0 ;;
  if negb (Z.of_nat l mod 8 =? 0)
     || negb (existsb (Z.eqb padchars) [0; 1; 3; 4; 6])
  then raise BinasciiError
  else if negb (padchars =? 0) && negb (is_empty decoded) then
    let acc := Z.shiftl acc (5 * padchars) in
    let last := to_bytes5 acc in
    let leftover := (43 - 5 * padchars) / 8 in
    Ok (firstn (length decoded - 5) decoded ++ firstn (Z.to_nat leftover) last)
  else Ok decoded.

(** Base85 ([b85encode] through [_85encode], [b85decode]). *)
Definition b85_alphabet : list Z :=
  s_ "0123456789ABCDEFGHIJKLMNOPQRSTUVWXYZabcdefghijklmnopqrstuvwxyz!#$%&()*+-;<=>?@^_`{|}~".

(** [_b85chars2[i]]: the two characters of [i < 85 * 85]. *)
Definition b85chars2 (i : Z) : list Z :=
  [at_ b85_alphabet (i / 85); at_ b85_alphabet (i mod 85)].

(** The chunks of [_85encode] ([foldnuls] and [foldspaces] are off). *)
Fixpoint b85_chunks (s : list Z) : list (list Z) :=
  match s with
  | a :: b :: c :: d :: r =>
      let word := from_bytes [a; b; c; d] in
      (b85chars2 (word / 614125) ++ b85chars2 (word / 85 mod 7225)
       ++ [at_ b85_alphabet (word mod 85)]) :: b85_chunks r
  | _ => []
  end.

Definition b85encode (s : list Z) : list Z :=
  let padding := (- Z.of_nat (length s)) mod 4 in
  let s := s ++ repeat 0 (Z.to_nat padding) in
  let chunks := b85_chunks s in
  let chunks :=
    if negb (padding =? 0) then
      let lastc := last chunks [] in
      removelast chunks ++ [firstn (length lastc - Z.to_nat padding) lastc]
    else chunks in
  concat chunks.

(** [b[i:i + 5]] for [i] in [range(0, len(b), 5)]. *)
Fixpoint chunks5 (l : list Z) : list (list Z) :=
  match l with
  | [] => []
  | a :: b :: c :: d :: e :: r => [a; b; c; d; e] :: chunks5 r
  | r => [r]
  end.

(** One chunk of [b85decode]: [acc = acc * 85 + _b85dec[c]], then
    [struct.pack('!I', acc)]. *)
Definition b85_decode_chunk (chunk : list Z) : result (list Z) :=
  acc <- fold_left
           (fun acc c =>
              a <- acc ;;
              let v := find b85_alphabet c in
              if v =? -1 then raise ValueError else Ok (a * 85 + v))
           chunk (Ok 0) ;;
  if 4294967295 <? acc then raise ValueError
  else Ok [Z.land (Z.shiftr acc 24) 255; Z.land (Z.shiftr acc 16) 255;
           Z.land (Z.shiftr acc 8) 255; Z.land acc 255].

Definition b85decode (b : list Z) : result (list Z) :=
  let padding := (- Z.of_nat (length b)) mod 5 in
  let b := b ++ repeat 126 (Z.to_nat padding) in
  out <- mapM b85_decode_chunk (chunks5 b) ;;
  let result := concat out in
  if negb (padding =? 0)
  then Ok (firstn (length result - Z.to_nat padding) result)
  else Ok result.

(** ** The codec classes (fuzzing/codec.py, lines 31-137) *)

Inductive Codec :=
| Plain | Base64 | Base32 | Base16 | Base85 | XXencode | UUencode | AtBash.

Definition codec_encode (c : Codec) (data : list Z) : result (list Z) :=
  match c with
  | Plain => Ok data
  | Base64 => Ok (b64encode data)
  | Base32 => Ok (b32encode data)
  | Base16 => Ok (b16encode data)
  | Base85 => Ok (b85encode data)
  | XXencode => xx_encode xx_table data
  | UUencode => xx_encode uu_table data
  | AtBash => atbash_encode data
  end.

Definition codec_decode (c : Codec) (data : list Z) : result (list Z) :=
  match c with
  | Plain => Ok data
  | Base64 => b64decode data
  | Base32 => b32decode data
  | Base16 => b16decode data
  | Base85 => b85decode data
  | XXencode => xx_decode xx_table data
  | UUencode => xx_decode uu_table data
  | AtBash => atbash_encode data
  end.

(** ** Auxiliary definitions for the proofs *)

(** Checking a property of every integer in [0, n). *)
Fixpoint all_from (f : Z -> bool) (fuel : nat) (z : Z) : bool :=
  match fuel with
  | O => true
  | S k => f z && all_from f k (z + 1)
  end.

Definition all_upto (f : Z -> bool) (n : Z) : bool := all_from f (Z.to_nat n) 0.

Definition octet_text_ok (z : Z) : bool :=
  let s := str_of_int z in
  negb (is_empty s) && negb (contains 46 s) && negb (contains 47 s)
  && match ipv4_parse_octet s with Ok y => y =? z | Err _ => false end.

Definition hextet_text_ok (z : Z) : bool :=
  let h := hex_of_int z in
  negb (is_empty h) && negb (contains 58 h) && negb (contains 46 h)
  && negb (contains 47 h) && negb (contains 37 h)
  && match ipv6_parse_hextet h with Ok y => y =? z | Err _ => false end
  && Bool.eqb (pystr_eqb h (s_ "0")) (z =? 0).

(** The scan of [_compress_hextets] looks at a field only through the
    test [hextet == '0']. *)
Fixpoint compress_scan_zeros (zs : list bool) (index ds dl bs bl : Z) : Z * Z :=
  match zs with
  | [] => (bs, bl)
  | z :: r =>
      if z then
        let dl := dl + 1 in
        let ds := if ds =? -1 then index else ds in
        if bl <? dl then compress_scan_zeros r (index + 1) ds dl ds dl
        else compress_scan_zeros r (index + 1) ds dl bs bl
      else compress_scan_zeros r (index + 1) (-1) 0 bs bl
  end.

(** The data-model invariants of the spec: the host of an IPv4 or IPv6
    message is the canonical text of its address, the UTF-8 encoding of a
    domain name fits the length byte, the port is a 16-bit value, and a
    client greeting stores the number of its (at most 255) methods. *)
Definition host_valid (a : ATYPE) (host : pystr) : Prop :=
  match a with
  | IPV4 => exists b, length b = 4%nat /\ Forall (fun x => 0 <= x <= 255) b
                      /\ host = ipv4_str_of_packed b
  | IPV6 => exists b, length b = 16%nat /\ Forall (fun x => 0 <= x <= 255) b
                      /\ host = ipv6_str_of_packed b
  | DOMAINNAME => exists e, utf8_encode host = Ok e /\ (length e <= 255)%nat
  end.

Definition Message_valid (m : Message) : Prop :=
  host_valid (atype m) (fst (addr m)) /\ 0 <= snd (addr m) <= 65535.

Definition ClientGreeting_valid (g : ClientGreeting) : Prop :=
  nmethods g = Z.of_nat (length (methods g)) /\ (length (methods g) <= 255)%nat.

(** Sample messages. *)
Definition ipv6_loopback_request : Message :=
  mkMessage SOCKS5 (Cmd CONNECT) IPV6 (s_ "::1", 443).

Definition www_request : Message :=
  mkMessage SOCKS5 (Cmd CONNECT) DOMAINNAME (s_ "www.example.com", 80).

(** ** Auxiliary definitions for the codec proofs *)

(** Checks run on every byte or character index by [all_upto]: a byte
    written by [b16encode] is read back by [unhexlify]; a base64 character
    is not the pad and has its index as value. *)
Definition b16_byte_ok (b : Z) : bool :=
  let x := ascii_upper (at_ hexlify_lower (Z.shiftr b 4)) in
  let y := ascii_upper (at_ hexlify_lower (Z.land b 15)) in
  contains x b16_alphabet && contains y b16_alphabet &&
  match digit_value 16 x, digit_value 16 y with
  | Some p, Some q => Z.lor (Z.shiftl p 4) q =? b
  | _, _ => false
  end.

Definition b64_char_ok (i : Z) : bool :=
  negb (at_ b64_alphabet i =? 61) && (a2b_value (at_ b64_alphabet i) =? i).

(** Strings of binary digits; the bits of a byte; the six-bit groups of
    the XX/UU tables. *)
Definition is_bit (c : Z) : bool := (c =? 48) || (c =? 49).

(** All strings of [k] binary digits. *)
Fixpoint words (k : nat) : list pystr :=
  match k with
  | O => [[]]
  | S k => flat_map (fun w => [48 :: w; 49 :: w]) (words k)
  end.

Definition byte_bits_ok (b : Z) : bool :=
  let w := byte2bit b in
  Nat.eqb (length w) 8 && forallb is_bit w
  && match bit2byte w with Ok y => y =? b | Err _ => false end.

(** A group of six bits becomes a character of [table], and the decoder
    reads the same six bits back from it. *)
Definition xx_word_ok (table : list Z) (w : pystr) : bool :=
  match (nb <- bit2byte w ;; index table nb) with
  | Ok ch => pystr_eqb (skipn 2 (byte2bit (find table ch))) w
  | Err _ => false
  end.

(** The eight characters of a 40-bit quantum are its base-32 digits. *)
Definition b32_digits (c : Z) : list Z :=
  [c / 34359738368 mod 32; c / 1073741824 mod 32; c / 33554432 mod 32;
   c / 1048576 mod 32; c / 32768 mod 32; c / 1024 mod 32; c / 32 mod 32;
   c mod 32].

(** ** Auxiliary definitions for the further properties *)

(** What reading a packet from a longer stream gives: a successful read
    leaves the extra bytes [e] behind its own rest, and a failed read either
    ran out of bytes or fails the same way on the longer stream. *)
Definition ext_rel {A} (e : stream) (r1 r2 : result (A * stream)) : Prop :=
  match r1 with
  | Ok (x, r) => r2 = Ok (x, r ++ e)
  | Err err => err = StreamError \/ r2 = Err err
  end.

(** All strings of [k] ASCII decimal digits. *)
Fixpoint digit_words (k : nat) : list pystr :=
  match k with
  | O => [[]]
  | S k => flat_map (fun w => map (fun d => d :: w) (map Z.of_nat (seq 48 10)))
             (digit_words k)
  end.

(** An IPv4 octet text that parses is the canonical text of a byte. *)
Definition octet_parse_ok (o : pystr) : bool :=
  match ipv4_parse_octet o with
  | Ok n => (0 <=? n) && (n <=? 255) && pystr_eqb (str_of_int n) o
  | Err _ => true
  end.

(** A group of five Base85 characters. *)
Definition chunk5_ok (ch : list Z) : Prop :=
  length ch = 5%nat /\ Forall (fun c => In c b85_alphabet) ch.

(** * Properties *)

(** ** Generic facts *)

Lemma read_all_app (n : nat) (l s : list Z) :
  length l = n -> read_all n (l ++ s) = Ok (l, s).
Proof.
  intros <-. unfold read_all.
  rewrite length_app, (proj2 (Nat.leb_le _ _)) by lia.
  rewrite firstn_app, skipn_app, firstn_all, Nat.sub_diag, skipn_all.
  simpl. now rewrite app_nil_r.
Qed.

Lemma read_all_ok (n : nat) (s l s' : list Z) :
  read_all n s = Ok (l, s') -> s = l ++ s' /\ length l = n.
Proof.
  unfold read_all. destruct (Nat.leb_spec n (length s)) as [Hn|Hn];
    intros Hr; inversion Hr.
  split; [now rewrite firstn_skipn | now rewrite length_firstn; lia].
Qed.

(** Break up a hypothesis [bind m k = Ok _]: name the value of [m] and
    split the pairs it holds. *)
Ltac bind_inv H :=
  repeat match type of H with
  | bind ?m _ = Ok _ =>
      let x := fresh "x" in
      let E := fresh "E" in
      destruct m as [x|] eqn:E; cbn [bind] in H; [|discriminate H];
      repeat match goal with y : prod _ _ |- _ => destruct y end;
      cbn beta iota in H
  end.

(** ** C7: the example vectors *)

(** C7: [05 01 00 01 7F 00 00 01 00 50] decodes as a request to
    (SOCKS5, CONNECT, IPV4, ("127.0.0.1", 80)); [05 03 00 03 09 "localhost"
    01 BB] decodes as a request to (SOCKS5, UDP, DOMAINNAME,
    ("localhost", 443)); and every stream starting [05 01 01 01] fails to
    decode, as a request or as a reply. *)
Theorem example_vectors :
  Message_from_stream [5; 1; 0; 1; 127; 0; 0; 1; 0; 80] true
    = Ok (mkMessage SOCKS5 (Cmd CONNECT) IPV4 (s_ "127.0.0.1", 80), [])
  /\ Message_from_stream
       ([5; 3; 0; 3; 9] ++ s_ "localhost" ++ [1; 187]) true
    = Ok (mkMessage SOCKS5 (Cmd UDP) DOMAINNAME (s_ "localhost", 443), [])
  /\ (forall rest request,
        Message_from_stream ([5; 1; 1; 1] ++ rest) request
          = Err (ProxyError GENERAL_SOCKS_SERVER_FAILURE)).
Proof.
  split; [vm_compute; reflexivity|].
  split; [vm_compute; reflexivity|].
  intros rest request. unfold Message_from_stream.
  rewrite read_all_app by reflexivity. reflexivity.
Qed.

(** ** C4: the reserved byte *)

(** C4: a relay message whose reserved (third) header byte is not [0x00]
    fails to decode with [ProxyError(GENERAL_SOCKS_SERVER_FAILURE)],
    whatever the other bytes and the request flag. *)
Theorem reserved_byte_rejected (v m r a : Z) (rest : list Z) (request : bool) :
  r <> 0 ->
  Message_from_stream (v :: m :: r :: a :: rest) request
    = Err (ProxyError GENERAL_SOCKS_SERVER_FAILURE).
Proof.
  intros Hr. unfold Message_from_stream.
  change (v :: m :: r :: a :: rest) with ([v; m; r; a] ++ rest).
  rewrite (read_all_app 4 [v; m; r; a] rest) by reflexivity. cbn [bind].
  unfold rsv. destruct (Z.eqb_spec r 0); [contradiction|reflexivity].
Qed.

Lemma reserved_byte_rejected_witness :
  Message_from_stream [5; 1; 1; 1; 127; 0; 0; 1; 0; 80] false
    = Err (ProxyError GENERAL_SOCKS_SERVER_FAILURE).
Proof. apply (reserved_byte_rejected 5 1 1 1 _ false). discriminate. Defined.

(** ** C10: [is_request] follows the request flag *)

(** C10: a message decoded with [request] reports [is_request = request];
    in particular a reply whose code byte is [0x01] (the value of both
    [CONNECT] and [GENERAL_SOCKS_SERVER_FAILURE]) reports [False]. *)
Theorem is_request_decoded (s : stream) (request : bool) (m : Message)
    (s' : stream) :
  Message_from_stream s request = Ok (m, s') -> is_request m = request.
Proof.
  unfold Message_from_stream. intros H.
  destruct (read_all 4 s) as [[hdr s1]|]; cbn [bind] in H; [|discriminate].
  destruct hdr as [|v [|c [|r [|a [|]]]]]; try discriminate.
  destruct (negb (r =? rsv)); [discriminate|].
  destruct (except_value_error _) as [[[v' m'] a']|] eqn:EX;
    cbn [bind] in H; [|discriminate].
  destruct a'; bind_inv H; inversion H; subst; clear H; cbn.
  all: unfold except_value_error in EX.
  all: destruct (VERSION_of v); cbn [bind] in EX;
    [|destruct e; discriminate].
  all: destruct request.
  all: try (destruct (CMD_of c); cbn [bind] in EX; [|destruct e; discriminate]).
  all: try (destruct (REP_of c); cbn [bind] in EX; [|destruct e; discriminate]).
  all: destruct (ATYPE_of a); cbn [bind] in EX; [|destruct e; discriminate].
  all: now inversion EX.
Qed.

Lemma is_request_decoded_witness :
  Message_from_stream [5; 1; 0; 1; 127; 0; 0; 1; 0; 80] false
    = Ok (mkMessage SOCKS5 (Rep GENERAL_SOCKS_SERVER_FAILURE) IPV4
            (s_ "127.0.0.1", 80), [])
  /\ is_request (mkMessage SOCKS5 (Rep GENERAL_SOCKS_SERVER_FAILURE) IPV4
                   (s_ "127.0.0.1", 80)) = false.
Proof.
  split; [vm_compute; reflexivity|].
  apply (is_request_decoded [5; 1; 0; 1; 127; 0; 0; 1; 0; 80] false _ []).
  vm_compute. reflexivity.
Defined.

(** ** C3: undefined enumeration bytes *)

(** C3 (code_bug): with the version byte [0x06] decoding fails for all three
    message types, but never with a [ProxyError]: [Message.from_stream]
    raises [AttributeError] (its handler reads [e.message], which Python 3
    exceptions lack) and the two greetings let the [ValueError] of
    [VERSION(ver)] escape unwrapped. *)
Theorem undefined_version_errors (m a n : Z) (rest : list Z) (request : bool) :
  Message_from_stream (6 :: m :: 0 :: a :: rest) request = Err AttributeError
  /\ ClientGreeting_from_stream (6 :: 0 :: rest) = Err ValueError
  /\ ServerGreeting_from_stream (6 :: n :: rest) = Err ValueError.
Proof.
  split; [|split].
  - unfold Message_from_stream.
    change (6 :: m :: 0 :: a :: rest) with ([6; m; 0; a] ++ rest).
    rewrite read_all_app by reflexivity. reflexivity.
  - unfold ClientGreeting_from_stream.
    change (6 :: 0 :: rest) with ([6; 0] ++ rest).
    rewrite read_all_app by reflexivity. cbn [bind].
    reflexivity.
  - unfold ServerGreeting_from_stream.
    change (6 :: n :: rest) with ([6; n] ++ rest).
    rewrite read_all_app by reflexivity. reflexivity.
Qed.

(** ** C2: the method count of a [ClientGreeting] *)

(** C2, counterexample: a greeting built with [nmethods = 2] and a single
    method does not encode at all; the [assert] of [to_bytes] fires, so no
    count byte equal to the number of methods is emitted. *)
Lemma method_count_not_derived :
  ClientGreeting_to_bytes
    (mkClientGreeting SOCKS5 2 [NO_AUTHENTICATION_REQUIRED]) = Err AssertionError
  /\ ~ (forall g, exists bs, ClientGreeting_to_bytes g = Ok bs
          /\ nth_error bs 1 = Some (Z.of_nat (length (methods g)))).
Proof.
  split; [reflexivity|].
  intros H.
  destruct (H (mkClientGreeting SOCKS5 2 [NO_AUTHENTICATION_REQUIRED]))
    as [bs [E _]].
  discriminate E.
Qed.

Lemma mapM_pack_methods (ms : list METHOD) :
  mapM (fun m => pack_B (METHOD_value m)) ms = Ok (map (fun m => [METHOD_value m]) ms).
Proof.
  induction ms as [|m ms IH]; [reflexivity|].
  cbn [mapM]. replace (pack_B (METHOD_value m)) with (Ok [METHOD_value m])
    by (destruct m; reflexivity).
  cbn [bind]. now rewrite IH.
Qed.

(** C2, amended: [ClientGreeting.to_bytes] writes the stored [nmethods],
    after asserting that it equals [len(methods)]: when they differ it
    raises [AssertionError]; when they agree the count byte is the number
    of methods, followed by one byte per method (a count above 255 makes
    [struct.pack] raise). *)
Theorem method_count_checked (g : ClientGreeting) :
  ClientGreeting_to_bytes g =
    if negb (nmethods g =? Z.of_nat (length (methods g))) then Err AssertionError
    else if Z.of_nat (length (methods g)) <=? 255 then
      Ok (VERSION_value (cg_ver g) :: Z.of_nat (length (methods g))
          :: map METHOD_value (methods g))
    else Err StructError.
Proof.
  destruct g as [v n ms]. unfold ClientGreeting_to_bytes. cbn [nmethods methods cg_ver].
  destruct (Z.eqb_spec n (Z.of_nat (length ms))) as [->|Hn]; [|reflexivity].
  cbn [negb]. replace (pack_B (VERSION_value v)) with (Ok [VERSION_value v])
    by (destruct v; reflexivity).
  cbn [bind]. unfold pack_B at 1.
  destruct (Z.leb_spec (Z.of_nat (length ms)) 255) as [Hl|Hl].
  - rewrite (proj2 (Z.leb_le 0 _)) by lia. cbn [andb bind].
    rewrite mapM_pack_methods. cbn [bind].
    f_equal. cbn. f_equal. f_equal.
    induction ms as [|m ms IH]; [reflexivity|]. cbn. f_equal. apply IH.
    cbn [length] in Hl. lia.
  - rewrite andb_false_r. reflexivity.
Qed.

(** ** C5: the bytes a relay message consumes *)

Lemma ATYPE_of_ok (z : Z) (t : ATYPE) : ATYPE_of z = Ok t -> z = ATYPE_value t.
Proof.
  unfold ATYPE_of.
  destruct (Z.eqb_spec z 1); [intros H; inversion H; subst; reflexivity|].
  destruct (Z.eqb_spec z 3); [intros H; inversion H; subst; reflexivity|].
  destruct (Z.eqb_spec z 4); [intros H; inversion H; subst; reflexivity|].
  discriminate.
Qed.

(** Every [read_all] that succeeded splits the stream it read. *)
Ltac reads_split :=
  repeat match goal with
  | E : read_all _ _ = Ok (_, _) |- _ =>
      let Hs := fresh "Hs" in let Hl := fresh "Hl" in
      apply read_all_ok in E; destruct E as [Hs Hl]; subst
  end.

Ltac inv_all :=
  repeat match goal with
  | E : bind _ _ = Ok _ |- _ => bind_inv E
  | E : Ok _ = Ok _ |- _ => injection E; clear E; intros; subst
  end.

Lemma skipn_length_app {A} (n : nat) (p q : list A) :
  n = length p -> skipn n (p ++ q) = q.
Proof. intros ->. now rewrite skipn_app, skipn_all, Nat.sub_diag. Qed.

(** C5: a successful decode of a relay message consumes the 4 header bytes
    and then exactly 4 + 2 bytes for [ATYP = 0x01], 16 + 2 for [0x04], and
    1 + L + 2 for [0x03], where L is the first byte after the header. *)
Theorem relay_bytes_consumed (s : stream) (request : bool) (m : Message)
    (s' : stream) :
  Message_from_stream s request = Ok (m, s') ->
  exists n : nat,
    s' = skipn (4 + n) s /\ (4 + n <= length s)%nat /\
    ((nth 3 s 0 = 1 /\ n = 6%nat)
     \/ (nth 3 s 0 = 4 /\ n = 18%nat)
     \/ (nth 3 s 0 = 3 /\ n = (1 + Z.to_nat (nth 4 s 0%Z) + 2)%nat)).
Proof.
  unfold Message_from_stream. intros H.
  destruct (read_all 4 s) as [[hdr s1]|] eqn:E4; cbn [bind] in H;
    [|discriminate].
  destruct hdr as [|v [|c [|r [|a [|]]]]]; try discriminate.
  destruct (negb (r =? rsv)); [discriminate|].
  destruct (except_value_error _) as [[[v' m'] a']|] eqn:EX;
    cbn [bind] in H; [|discriminate].
  assert (Ha : ATYPE_of a = Ok a').
  { unfold except_value_error in EX.
    destruct (VERSION_of v); cbn [bind] in EX; [|destruct e; discriminate].
    destruct request;
      [destruct (CMD_of c)|destruct (REP_of c)]; cbn [bind] in EX;
      try (destruct e; discriminate);
      destruct (ATYPE_of a); cbn [bind] in EX;
      try (destruct e; discriminate); inversion EX; reflexivity. }
  destruct a'; bind_inv H; inversion H; subst; clear H.
  all: apply ATYPE_of_ok in Ha; subst a.
  all: inv_all; reads_split.
  - exists 6%nat. split; [|split].
    + rewrite !app_assoc, skipn_length_app; [reflexivity|].
      rewrite !length_app. cbn [length] in *. lia.
    + rewrite !length_app. cbn [length] in *. lia.
    + left. split; reflexivity.
  - destruct l0 as [|L [|]]; cbn [length hd] in *; try discriminate.
    exists (1 + Z.to_nat L + 2)%nat. split; [|split].
    + rewrite !app_assoc, skipn_length_app; [reflexivity|].
      rewrite !length_app. cbn [length] in *. lia.
    + rewrite !length_app. cbn [length] in *. lia.
    + right. right. split; reflexivity.
  - exists 18%nat. split; [|split].
    + rewrite !app_assoc, skipn_length_app; [reflexivity|].
      rewrite !length_app. cbn [length] in *. lia.
    + rewrite !length_app. cbn [length] in *. lia.
    + right. left. split; reflexivity.
Qed.

Lemma relay_bytes_consumed_witness :
  let v := [5; 3; 0; 3; 9] ++ s_ "localhost" ++ [1; 187; 42] in
  Message_from_stream v true
    = Ok (mkMessage SOCKS5 (Cmd UDP) DOMAINNAME (s_ "localhost", 443), [42])
  /\ exists n : nat,
    [42] = skipn (4 + n) v /\ (4 + n <= length v)%nat
    /\ ((nth 3 v 0 = 1 /\ n = 6%nat) \/ (nth 3 v 0 = 4 /\ n = 18%nat)
        \/ (nth 3 v 0 = 3 /\ n = (1 + Z.to_nat (nth 4 v 0%Z) + 2)%nat)).
Proof.
  intros v. split; [vm_compute; reflexivity|].
  apply (relay_bytes_consumed v true
           (mkMessage SOCKS5 (Cmd UDP) DOMAINNAME (s_ "localhost", 443))).
  vm_compute. reflexivity.
Defined.

(** ** C6: the domain-name length byte *)

(** C6: for a [DOMAINNAME] message whose host encodes to the UTF-8 bytes
    [e], [to_bytes] writes the length of [e] as the length byte, followed
    by exactly [e]; when that length exceeds 255 it does not wrap the byte
    but raises [struct.error]. *)
Theorem domain_length_byte (m : Message) (e : list Z) :
  atype m = DOMAINNAME ->
  utf8_encode (fst (addr m)) = Ok e ->
  (Z.of_nat (length e) <= 255 -> 0 <= snd (addr m) <= 65535 ->
   Message_to_bytes m =
     Ok ([VERSION_value (ver m); Msg_value (msg m); 0; 3]
         ++ Z.of_nat (length e) :: e
         ++ [Z.shiftr (snd (addr m)) 8; Z.land (snd (addr m)) 255]))
  /\ (255 < Z.of_nat (length e) -> Message_to_bytes m = Err StructError).
Proof.
  destruct m as [v c a [host port]]; cbn [atype addr fst snd ver msg].
  intros -> He. unfold Message_to_bytes. cbn [atype addr]. rewrite He.
  cbn [bind]. unfold pack_B, pack_H. split.
  - intros Hl Hp.
    rewrite (proj2 (Z.leb_le 0 _)), (proj2 (Z.leb_le _ 255)) by lia.
    rewrite (proj2 (Z.leb_le 0 port)), (proj2 (Z.leb_le port 65535)) by lia.
    reflexivity.
  - intros Hl. rewrite (proj2 (Z.leb_gt _ 255)) by lia.
    rewrite andb_false_r. reflexivity.
Qed.

Lemma domain_length_byte_witness :
  let m := mkMessage SOCKS5 (Cmd CONNECT) DOMAINNAME (s_ "localhost", 443) in
  Message_to_bytes m =
    Ok ([5; 1; 0; 3] ++ 9 :: s_ "localhost" ++ [1; 187]).
Proof.
  intros m.
  refine (proj1 (domain_length_byte m (s_ "localhost") eq_refl eq_refl) _ _).
  - vm_compute. discriminate.
  - cbn. lia.
Defined.

(** ** Bit operations as arithmetic *)

Lemma land_mask (x m k : Z) : 0 <= k -> m = 2 ^ k - 1 -> Z.land x m = x mod 2 ^ k.
Proof.
  intros Hk ->. replace (2 ^ k - 1) with (Z.ones k) by (rewrite Z.ones_equiv; lia).
  now apply Z.land_ones.
Qed.

Lemma lor_add (x y p k : Z) :
  0 <= k -> p = 2 ^ k -> 0 <= y < p -> x mod p = 0 -> Z.lor x y = x + y.
Proof.
  intros Hk -> Hy Hx.
  assert (H0 : Z.land x y = 0).
  { rewrite <- (Z.mod_small y (2 ^ k)) by lia.
    rewrite <- Z.land_ones by lia.
    rewrite (Z.land_comm y), Z.land_assoc, Z.land_ones, Hx by lia.
    now rewrite Z.land_0_l. }
  rewrite <- Z.lxor_lor, <- Z.add_nocarry_lxor by exact H0. reflexivity.
Qed.

(** [lia] after turning [/] and [mod] by constants into equations. *)
Ltac zlia := first [lia | (Z.div_mod_to_equations; lia)].

(** Replace [2 ^ k] by its value. *)
Ltac eval_pow2 :=
  repeat match goal with
  | |- context [2 ^ ?k] =>
      let v := eval vm_compute in (2 ^ k) in change (2 ^ k) with v
  end.

(** Turn shifts and masks by constants into [/], [*] and [mod], then the
    disjoint [Z.lor]s, innermost first, into [+]. *)
Ltac bits_to_arith :=
  repeat match goal with
  | |- context [Z.shiftr ?x ?n] => rewrite (Z.shiftr_div_pow2 x n) by zlia
  | |- context [Z.shiftl ?x ?n] => rewrite (Z.shiftl_mul_pow2 x n) by zlia
  | |- context [Z.land ?x ?m] =>
      let k := eval vm_compute in (Z.log2 (m + 1)) in
      rewrite (land_mask x m k) by (first [zlia | reflexivity])
  end;
  eval_pow2;
  repeat match goal with
  | |- context [Z.lor ?x ?y] =>
      lazymatch x with context [Z.lor _ _] => fail | _ => idtac end;
      lazymatch y with context [Z.lor _ _] => fail | _ => idtac end;
      first
        [ rewrite (lor_add x y 4 2) by (first [zlia | reflexivity])
        | rewrite (lor_add x y 16 4) by (first [zlia | reflexivity])
        | rewrite (lor_add x y 64 6) by (first [zlia | reflexivity])
        | rewrite (lor_add x y 256 8) by (first [zlia | reflexivity])
        | rewrite (lor_add x y 4096 12) by (first [zlia | reflexivity])
        | rewrite (lor_add x y 65536 16) by (first [zlia | reflexivity])
        | rewrite (lor_add x y 262144 18) by (first [zlia | reflexivity])
        | rewrite (lor_add x y 16777216 24) by (first [zlia | reflexivity])
        | rewrite (lor_add x y 4294967296 32) by (first [zlia | reflexivity]) ]
  end.

(** Decide the comparisons of the goal with [lia]. *)
Ltac decide_cmp :=
  repeat match goal with
  | |- context [?a <? ?b] =>
      first [ rewrite (proj2 (Z.ltb_lt a b)) by zlia
            | rewrite (proj2 (Z.ltb_ge a b)) by zlia ]
  | |- context [?a <=? ?b] =>
      first [ rewrite (proj2 (Z.leb_le a b)) by zlia
            | rewrite (proj2 (Z.leb_gt a b)) by zlia ]
  | |- context [?a =? ?b] =>
      first [ rewrite (proj2 (Z.eqb_eq a b)) by zlia
            | rewrite (proj2 (Z.eqb_neq a b)) by zlia ]
  end; cbn [andb orb negb].

(** ** UTF-8 round trip *)

Lemma Ok_inj {A : Type} (a b : A) : Ok a = Ok b -> a = b.
Proof. now intros [=]. Qed.

(** Name the encoded bytes before unfolding the decoder, so that it only
    sees variables, then put their values back as arithmetic. *)
Ltac utf8_step c :=
  let Henc := fresh "Henc" in
  intros Henc; apply Ok_inj in Henc;
  match type of Henc with ?l = ?b => subst b end;
  repeat match goal with
  | |- context [utf8_decode (?x :: _)] =>
      lazymatch x with
      | Z.lor _ _ => let b := fresh "b" in let E := fresh "E" in
                     remember x as b eqn:E
      end
  | |- context [?x :: _] =>
      lazymatch x with
      | Z.lor _ _ => let b := fresh "b" in let E := fresh "E" in
                     remember x as b eqn:E
      end
  end;
  cbn [app utf8_decode is_cont];
  repeat match goal with E : ?b = Z.lor _ _ |- _ => subst b end;
  unfold is_cont; bits_to_arith; decide_cmp;
  try match goal with
  | |- context [Ok (?e :: _)] => replace e with c by zlia
  end.

Lemma utf8_char_roundtrip (c : Z) (b r : list Z) :
  utf8_encode_char c = Ok b ->
  utf8_decode (b ++ r) = bind (utf8_decode r) (fun s => Ok (c :: s)).
Proof.
  unfold utf8_encode_char.
  destruct (Z.ltb_spec c 0); [discriminate|].
  destruct (Z.ltb_spec c 128).
  { utf8_step c. reflexivity. }
  destruct (Z.ltb_spec c 2048).
  { utf8_step c. reflexivity. }
  destruct (Z.ltb_spec c 65536).
  { destruct ((55296 <=? c) && (c <=? 57343)) eqn:Hs; [discriminate|].
    apply andb_false_iff in Hs.
    utf8_step c.
    assert (Hs' : ((55296 <=? c) && (c <=? 57343)) = false)
      by (apply andb_false_iff; exact Hs).
    rewrite Hs'. reflexivity. }
  destruct (Z.ltb_spec c 1114112); [|discriminate].
  utf8_step c. reflexivity.
Qed.

Lemma utf8_roundtrip (h : pystr) (e : list Z) :
  utf8_encode h = Ok e -> utf8_decode e = Ok h.
Proof.
  revert e. induction h as [|c h IH]; intros e He.
  - cbn in He. injection He as <-. reflexivity.
  - cbn in He.
    destruct (utf8_encode_char c) as [b|] eqn:Hb; [|discriminate]. cbn in He.
    destruct (utf8_encode h) as [bs|] eqn:Hbs; [|discriminate]. cbn in He.
    injection He as <-.
    rewrite (utf8_char_roundtrip c b bs Hb), (IH bs eq_refl). reflexivity.
Qed.

Lemma utf8_encode_app (h1 h2 : pystr) :
  utf8_encode (h1 ++ h2) =
  (e1 <- utf8_encode h1 ;; e2 <- utf8_encode h2 ;; Ok (e1 ++ e2)).
Proof.
  induction h1 as [|c h1 IH]; cbn.
  - destruct (utf8_encode h2); reflexivity.
  - destruct (utf8_encode_char c); [|reflexivity]. cbn. rewrite IH.
    destruct (utf8_encode h1); [|reflexivity]. cbn.
    destruct (utf8_encode h2); [|reflexivity]. cbn. now rewrite app_assoc.
Qed.

Lemma utf8_encode_char_bytes (c : Z) (b : list Z) :
  utf8_encode_char c = Ok b -> Forall (fun x => 0 <= x <= 255) b.
Proof.
  unfold utf8_encode_char.
  destruct (Z.ltb_spec c 0); [discriminate|].
  destruct (Z.ltb_spec c 128).
  { intros Hc; apply Ok_inj in Hc; subst b. repeat constructor; lia. }
  destruct (Z.ltb_spec c 2048).
  { intros Hc; apply Ok_inj in Hc; subst b.
    bits_to_arith. repeat constructor; zlia. }
  destruct (Z.ltb_spec c 65536).
  { destruct ((55296 <=? c) && (c <=? 57343)); [discriminate|].
    intros Hc; apply Ok_inj in Hc; subst b.
    bits_to_arith. repeat constructor; zlia. }
  destruct (Z.ltb_spec c 1114112); [|discriminate].
  intros Hc; apply Ok_inj in Hc; subst b.
  bits_to_arith. repeat constructor; zlia.
Qed.

Lemma utf8_encode_bytes (h : pystr) (e : list Z) :
  utf8_encode h = Ok e -> Forall (fun x => 0 <= x <= 255) e.
Proof.
  revert e. induction h as [|c h IH]; intros e He; cbn in He.
  - injection He as <-. constructor.
  - destruct (utf8_encode_char c) as [b|] eqn:Hb; [|discriminate]. cbn in He.
    destruct (utf8_encode h) as [bs|] eqn:Hbs; [|discriminate]. cbn in He.
    injection He as <-. apply Forall_app.
    split; [exact (utf8_encode_char_bytes c b Hb) | exact (IH bs eq_refl)].
Qed.

(** ** Checking a property of every integer below a bound *)

Lemma all_from_sound (f : Z -> bool) (fuel : nat) (z : Z) :
  all_from f fuel z = true -> forall y, z <= y < z + Z.of_nat fuel -> f y = true.
Proof.
  revert z. induction fuel as [|k IH]; intros z Hall y Hy; [lia|].
  cbn in Hall. apply andb_prop in Hall as [Hz Hk].
  destruct (Z.eq_dec y z) as [->|Hne]; [exact Hz|].
  apply (IH (z + 1) Hk). lia.
Qed.

Lemma all_upto_sound (f : Z -> bool) (n : Z) :
  all_upto f n = true -> forall z, 0 <= z < n -> f z = true.
Proof.
  unfold all_upto. intros Hall z Hz.
  apply (all_from_sound f _ 0 Hall). lia.
Qed.

(** ** Splitting and joining *)

Lemma contains_cons (c x : Z) (s : pystr) :
  contains c (x :: s) = (c =? x) || contains c s.
Proof. reflexivity. Qed.

Lemma split_on_app_sep (sep : Z) (p r : pystr) :
  contains sep p = false ->
  split_on sep (p ++ sep :: r) = p :: split_on sep r.
Proof.
  induction p as [|c p IH]; intros Hp; cbn.
  - now rewrite Z.eqb_refl.
  - rewrite contains_cons in Hp. apply orb_false_iff in Hp as [Hc Hp].
    rewrite Z.eqb_sym, Hc, (IH Hp). reflexivity.
Qed.

Lemma split_on_no_sep (sep : Z) (p : pystr) :
  contains sep p = false -> split_on sep p = [p].
Proof.
  induction p as [|c p IH]; intros Hp; cbn; [reflexivity|].
  rewrite contains_cons in Hp. apply orb_false_iff in Hp as [Hc Hp].
  rewrite Z.eqb_sym, Hc, (IH Hp). reflexivity.
Qed.

Lemma split_on_join (sep : Z) (parts : list pystr) :
  parts <> [] -> Forall (fun p => contains sep p = false) parts ->
  split_on sep (join sep parts) = parts.
Proof.
  induction parts as [|p ps IH]; intros Hne Hall; [congruence|].
  inversion Hall as [|? ? Hp Hps]; subst.
  destruct ps as [|q qs].
  - cbn. now apply split_on_no_sep.
  - change (join sep (p :: q :: qs)) with (p ++ sep :: join sep (q :: qs)).
    rewrite (split_on_app_sep sep p _ Hp), IH; [reflexivity|discriminate|exact Hps].
Qed.

Lemma contains_app (c : Z) (s t : pystr) :
  contains c (s ++ t) = contains c s || contains c t.
Proof. unfold contains. apply existsb_app. Qed.

Lemma contains_join (c sep : Z) (parts : list pystr) :
  c <> sep -> Forall (fun p => contains c p = false) parts ->
  contains c (join sep parts) = false.
Proof.
  intros Hc. induction parts as [|p ps IH]; intros Hall; [reflexivity|].
  inversion Hall as [|? ? Hp Hps]; subst.
  destruct ps as [|q qs]; [exact Hp|].
  change (join sep (p :: q :: qs)) with (p ++ sep :: join sep (q :: qs)).
  rewrite contains_app, contains_cons, Hp, (IH Hps).
  rewrite (proj2 (Z.eqb_neq c sep) Hc). reflexivity.
Qed.

Lemma partition_absent (sep : Z) (s : pystr) :
  contains sep s = false -> partition sep s = (s, false, []).
Proof.
  induction s as [|c s IH]; intros Hs; [reflexivity|].
  rewrite contains_cons in Hs. apply orb_false_iff in Hs as [Hc Hs].
  cbn. rewrite Z.eqb_sym, Hc, (IH Hs). reflexivity.
Qed.

(** ** The text of an octet *)

Lemma octet_text_ok_all : all_upto octet_text_ok 256 = true.
Proof. vm_compute. reflexivity. Qed.

Lemma octet_text (z : Z) :
  0 <= z <= 255 ->
  is_empty (str_of_int z) = false /\ contains 46 (str_of_int z) = false /\
  contains 47 (str_of_int z) = false /\ ipv4_parse_octet (str_of_int z) = Ok z.
Proof.
  intros Hz.
  pose proof (all_upto_sound _ _ octet_text_ok_all z ltac:(lia)) as H.
  unfold octet_text_ok in H.
  destruct (is_empty (str_of_int z)), (contains 46 (str_of_int z)),
    (contains 47 (str_of_int z)); try discriminate.
  destruct (ipv4_parse_octet (str_of_int z)) as [y|]; [|discriminate].
  cbn in H. apply Z.eqb_eq in H. subst. auto.
Qed.

Lemma is_empty_false (p : pystr) : is_empty p = false -> p <> [].
Proof. destruct p; cbn; congruence. Qed.

Lemma join_cons_nonempty (sep : Z) (p : pystr) (ps : list pystr) :
  p <> [] -> join sep (p :: ps) <> [].
Proof.
  intros Hp. destruct ps as [|q qs]; [exact Hp|].
  change (join sep (p :: q :: qs)) with (p ++ sep :: join sep (q :: qs)).
  intros H. apply app_eq_nil in H. tauto.
Qed.

(** A match on a string that is known not to be empty. *)
Lemma match_nonempty {A : Type} (s : pystr) (a : A) (f : Z -> pystr -> A) (b : A) :
  s <> [] -> (forall c r, f c r = b) ->
  match s with [] => a | c :: r => f c r end = b.
Proof. intros Hs Hf. destruct s; [congruence|apply Hf]. Qed.

(** [IPv4Address] parses the text it prints. *)
Lemma ipv4_roundtrip (b0 b1 b2 b3 : Z) :
  0 <= b0 <= 255 -> 0 <= b1 <= 255 -> 0 <= b2 <= 255 -> 0 <= b3 <= 255 ->
  ipv4_packed_of_str (ipv4_str_of_packed [b0; b1; b2; b3]) = Ok [b0; b1; b2; b3].
Proof.
  intros H0 H1 H2 H3.
  destruct (octet_text b0 H0) as (E0 & D0 & S0 & P0).
  destruct (octet_text b1 H1) as (E1 & D1 & S1 & P1).
  destruct (octet_text b2 H2) as (E2 & D2 & S2 & P2).
  destruct (octet_text b3 H3) as (E3 & D3 & S3 & P3).
  unfold ipv4_packed_of_str, ipv4_str_of_packed. cbn [map].
  rewrite contains_join by first [lia | repeat constructor; assumption].
  rewrite split_on_join by first [discriminate | repeat constructor; assumption].
  apply match_nonempty.
  - apply join_cons_nonempty, is_empty_false, E0.
  - intros _ _. cbn [length Nat.eqb negb mapM].
    rewrite P0, P1, P2, P3. reflexivity.
Qed.

(** ** The text of a 16-bit field *)

Lemma hextet_text_ok_all : all_upto hextet_text_ok 65536 = true.
Proof. vm_compute. reflexivity. Qed.

Lemma hextet_text (z : Z) :
  0 <= z <= 65535 ->
  is_empty (hex_of_int z) = false /\ contains 58 (hex_of_int z) = false /\
  contains 46 (hex_of_int z) = false /\ contains 47 (hex_of_int z) = false /\
  contains 37 (hex_of_int z) = false /\
  ipv6_parse_hextet (hex_of_int z) = Ok z /\
  pystr_eqb (hex_of_int z) (s_ "0") = (z =? 0).
Proof.
  intros Hz.
  pose proof (all_upto_sound _ _ hextet_text_ok_all z ltac:(lia)) as H.
  unfold hextet_text_ok in H.
  destruct (is_empty (hex_of_int z)), (contains 58 (hex_of_int z)),
    (contains 46 (hex_of_int z)), (contains 47 (hex_of_int z)),
    (contains 37 (hex_of_int z)); try discriminate.
  destruct (ipv6_parse_hextet (hex_of_int z)) as [y|]; [|discriminate].
  cbn [negb andb] in H. apply andb_prop in H as [Hy Hb].
  apply Z.eqb_eq in Hy. subst y. apply Bool.eqb_prop in Hb.
  repeat split; auto.
Qed.

(** ** IPv6 text round trip *)

Lemma compress_scan_zeros_eq (hs : list pystr) :
  forall index ds dl bs bl,
  compress_scan hs index ds dl bs bl =
  compress_scan_zeros (map (fun h => pystr_eqb h (s_ "0")) hs) index ds dl bs bl.
Proof.
  induction hs as [|h hs IH]; intros; cbn [compress_scan compress_scan_zeros map];
    [reflexivity|].
  destruct (pystr_eqb h (s_ "0")); rewrite ?IH; reflexivity.
Qed.

Section Ipv6_text.

#[local] Arguments hex_of_int : simpl never.
#[local] Arguments ipv6_parse_hextet : simpl never.
#[local] Arguments contains : simpl never.
#[local] Arguments pystr_eqb : simpl never.
#[local] Arguments ipv4_packed_of_str : simpl never.

Ltac field_facts x H :=
  let E := fresh "E" in let N58 := fresh "N" in let N46 := fresh "D" in
  let N47 := fresh "S" in let N37 := fresh "C" in let P := fresh "P" in
  let Zr := fresh "Z" in
  destruct (hextet_text x H) as (E & N58 & N46 & N47 & N37 & P & Zr);
  let h := fresh "h" in
  set (h := hex_of_int x) in *; clearbody h;
  let c := fresh "c" in let t := fresh "t" in
  destruct h as [|c t]; [discriminate E|];
  let X := fresh "X" in
  destruct (Z.eqb x 0) eqn:X; [apply Z.eqb_eq in X; subst x|].

Lemma ipv6_hextets_roundtrip (x0 x1 x2 x3 x4 x5 x6 x7 : Z) :
  0 <= x0 <= 65535 -> 0 <= x1 <= 65535 -> 0 <= x2 <= 65535 ->
  0 <= x3 <= 65535 -> 0 <= x4 <= 65535 -> 0 <= x5 <= 65535 ->
  0 <= x6 <= 65535 -> 0 <= x7 <= 65535 ->
  ipv6_hextets_of_str
    (join 58 (compress_hextets (map hex_of_int [x0; x1; x2; x3; x4; x5; x6; x7])))
  = Ok [x0; x1; x2; x3; x4; x5; x6; x7].
Proof.
  intros H0 H1 H2 H3 H4 H5 H6 H7. cbn [map].
  (* One goal per choice of the fields that are zero. *)
  field_facts x0 H0; field_facts x1 H1; field_facts x2 H2; field_facts x3 H3;
  field_facts x4 H4; field_facts x5 H5; field_facts x6 H6; field_facts x7 H7.
  (* Compute the compressed list of parts. *)
  all: match goal with
       | |- ipv6_hextets_of_str (join 58 (compress_hextets ?l)) = _ =>
           let parts := fresh "parts" in let Hp := fresh "Hp" in
           remember (compress_hextets l) as parts eqn:Hp;
           unfold compress_hextets in Hp; rewrite compress_scan_zeros_eq in Hp;
           cbn [map] in Hp;
           repeat match type of Hp with
           | context [pystr_eqb ?h (s_ "0")] =>
               match goal with Zr : pystr_eqb h (s_ "0") = _ |- _ =>
                 rewrite Zr in Hp end
           end;
           simpl in Hp; subst parts
       end.
  (* Splitting the joined text gives the parts back. *)
  all: unfold ipv6_hextets_of_str;
       rewrite split_on_join
         by first [discriminate
                  | repeat constructor; first [assumption | reflexivity]];
       apply match_nonempty; [cbn [join app]; discriminate | intros _ _].
  (* Run the parser on the parts. *)
  all: simpl;
       repeat match goal with
       | |- context [contains ?c []] => change (contains c []) with false
       | D : contains 46 ?h = false |- context [contains 46 ?h] => rewrite D
       end;
       simpl;
       repeat match goal with
       | P : ipv6_parse_hextet ?h = Ok _ |- context [ipv6_parse_hextet ?h] =>
           rewrite P
       end;
       simpl; reflexivity.
Qed.
End Ipv6_text.

Lemma in_firstn_in {A : Type} (n : nat) (l : list A) (x : A) :
  In x (firstn n l) -> In x l.
Proof. intros H. rewrite <- (firstn_skipn n l). apply in_or_app. now left. Qed.

Lemma in_skipn_in {A : Type} (n : nat) (l : list A) (x : A) :
  In x (skipn n l) -> In x l.
Proof. intros H. rewrite <- (firstn_skipn n l). apply in_or_app. now right. Qed.

(** Every part of [_compress_hextets]'s result is a field or empty. *)
Lemma compress_hextets_parts (hs : list pystr) (p : pystr) :
  In p (compress_hextets hs) -> In p hs \/ p = [].
Proof.
  unfold compress_hextets.
  destruct (compress_scan hs 0 (-1) 0 (-1) 0) as [bs bl].
  destruct (1 <? bl); [|auto].
  set (hs' := if bs + bl =? Z.of_nat (length hs) then hs ++ [[]] else hs).
  assert (Hs : forall q, In q hs' -> In q hs \/ q = []).
  { subst hs'. destruct (bs + bl =? Z.of_nat (length hs)); [|auto].
    intros q Hq. apply in_app_or in Hq as [Hq|[Hq|[]]]; auto. }
  assert (Hm : forall q, In q (firstn (Z.to_nat bs) hs' ++ [[]] ++ skipn (Z.to_nat (bs + bl)) hs')
               -> In q hs \/ q = []).
  { intros q Hq. apply in_app_or in Hq as [Hq|Hq].
    - apply Hs, (in_firstn_in _ _ _ Hq).
    - apply in_app_or in Hq as [[Hq|[]]|Hq]; [auto|].
      apply Hs, (in_skipn_in _ _ _ Hq). }
  destruct (bs =? 0); [|exact (Hm p)].
  intros [<-|Hp]; [auto|exact (Hm p Hp)].
Qed.

Lemma compress_hextets_Forall (P : pystr -> Prop) (hs : list pystr) :
  Forall P hs -> P [] -> Forall P (compress_hextets hs).
Proof.
  intros Hall Hnil. apply Forall_forall. intros p Hp.
  destruct (compress_hextets_parts hs p Hp) as [Hin| ->]; [|exact Hnil].
  exact (proj1 (Forall_forall P hs) Hall p Hin).
Qed.

Lemma hextet_of_pair (b0 b1 : Z) :
  0 <= b0 <= 255 -> 0 <= b1 <= 255 ->
  0 <= Z.lor (Z.shiftl b0 8) b1 <= 65535 /\
  hextet_bytes (Z.lor (Z.shiftl b0 8) b1) = [b0; b1].
Proof.
  intros H0 H1. unfold hextet_bytes.
  assert (E : Z.lor (Z.shiftl b0 8) b1 = b0 * 256 + b1) by (bits_to_arith; lia).
  rewrite E. split; [lia|]. bits_to_arith. f_equal; [|f_equal]; zlia.
Qed.

(** [IPv6Address] parses the text it prints. *)
Lemma ipv6_roundtrip (b : list Z) :
  length b = 16%nat -> Forall (fun x => 0 <= x <= 255) b ->
  ipv6_packed_of_str (ipv6_str_of_packed b) = Ok b.
Proof.
  intros Hl Hb.
  do 16 (destruct b as [|? b]; [discriminate|]).
  destruct b; [|discriminate]. clear Hl.
  repeat match goal with
  | H : Forall _ (_ :: _) |- _ => inversion H; clear H; subst
  end.
  unfold ipv6_str_of_packed. cbn [hextets_of_bytes].
  repeat match goal with
  | |- context [Z.lor (Z.shiftl ?b0 8) ?b1] =>
      lazymatch goal with
      | _ : 0 <= Z.lor (Z.shiftl b0 8) b1 <= 65535 |- _ => fail
      | _ => idtac
      end;
      let R := fresh "R" in let B := fresh "B" in
      destruct (hextet_of_pair b0 b1 ltac:(assumption) ltac:(assumption))
        as [R B]
  end.
  match goal with
  | |- context [map hex_of_int ?xs] =>
      assert (Hx : Forall (fun x => 0 <= x <= 65535) xs)
        by (repeat (apply Forall_cons; [assumption|]); apply Forall_nil);
      assert (Ht : Forall (fun h => contains 47 h = false /\ contains 37 h = false)
                     (map hex_of_int xs))
  end.
  { apply Forall_map. eapply Forall_impl; [|exact Hx].
    intros x Hr. destruct (hextet_text x Hr) as (_ & _ & _ & ? & ? & _). auto. }
  unfold ipv6_packed_of_str.
  rewrite contains_join
    by (lia || (apply compress_hextets_Forall; [|reflexivity];
                eapply Forall_impl; [|exact Ht]; intros ? []; assumption)).
  unfold ipv6_split_scope_id.
  rewrite partition_absent
    by (apply contains_join;
        [lia | apply compress_hextets_Forall; [|reflexivity];
               eapply Forall_impl; [|exact Ht]; intros ? []; assumption]).
  cbn [negb bind].
  rewrite ipv6_hextets_roundtrip by assumption.
  cbn [bind flat_map].
  repeat match goal with B : hextet_bytes _ = _ |- _ => rewrite B end.
  reflexivity.
Qed.

(** ** Encoding then decoding *)

Lemma VERSION_of_value (v : VERSION) : VERSION_of (VERSION_value v) = Ok v.
Proof. destruct v; reflexivity. Qed.
Lemma METHOD_of_value (m : METHOD) : METHOD_of (METHOD_value m) = Ok m.
Proof. destruct m; reflexivity. Qed.
Lemma CMD_of_value (c : CMD) : CMD_of (CMD_value c) = Ok c.
Proof. destruct c; reflexivity. Qed.
Lemma REP_of_value (r : REP) : REP_of (REP_value r) = Ok r.
Proof. destruct r; reflexivity. Qed.
Lemma ATYPE_of_value (a : ATYPE) : ATYPE_of (ATYPE_value a) = Ok a.
Proof. destruct a; reflexivity. Qed.

Lemma pack_H_unpack (p : Z) :
  0 <= p <= 65535 ->
  pack_H p = Ok [Z.shiftr p 8; Z.land p 255] /\
  unpack_H (Z.shiftr p 8) (Z.land p 255) = p.
Proof.
  intros Hp. unfold pack_H, unpack_H.
  rewrite (proj2 (Z.leb_le 0 p)), (proj2 (Z.leb_le p 65535)) by lia.
  split; [reflexivity|]. bits_to_arith. zlia.
Qed.

Lemma msg_of_value (m : Msg) :
  (if (match m with Cmd _ => true | Rep _ => false end)
   then c <- CMD_of (Msg_value m) ;; Ok (Cmd c)
   else r <- REP_of (Msg_value m) ;; Ok (Rep r)) = Ok m.
Proof. destruct m as [c|r]; cbn [Msg_value]; [rewrite CMD_of_value|rewrite REP_of_value]; reflexivity. Qed.

Lemma mapM_METHOD_of (ms : list METHOD) :
  mapM METHOD_of (map METHOD_value ms) = Ok ms.
Proof.
  induction ms as [|m ms IH]; [reflexivity|].
  cbn [map mapM]. rewrite METHOD_of_value, IH. reflexivity.
Qed.

Lemma ClientGreeting_roundtrip (g : ClientGreeting) (rest : stream) :
  ClientGreeting_valid g ->
  exists bs, ClientGreeting_to_bytes g = Ok bs /\
             ClientGreeting_from_stream (bs ++ rest) = Ok (g, rest).
Proof.
  destruct g as [v n ms]. unfold ClientGreeting_valid. cbn [nmethods methods].
  intros [-> Hl].
  exists (VERSION_value v :: Z.of_nat (length ms) :: map METHOD_value ms). split.
  - unfold ClientGreeting_to_bytes. cbn [nmethods methods cg_ver].
    rewrite Z.eqb_refl. cbn [negb].
    replace (pack_B (VERSION_value v)) with (Ok [VERSION_value v])
      by (destruct v; reflexivity).
    unfold pack_B at 1.
    rewrite (proj2 (Z.leb_le 0 _)), (proj2 (Z.leb_le _ 255)) by lia.
    cbn [andb bind]. rewrite mapM_pack_methods. cbn [bind app].
    f_equal. f_equal. f_equal.
    induction ms as [|m ms IH]; [reflexivity|].
    cbn [map concat app]. f_equal. apply IH. cbn [length] in Hl. lia.
  - unfold ClientGreeting_from_stream.
    change ((VERSION_value v :: Z.of_nat (length ms) :: map METHOD_value ms) ++ rest)
      with ([VERSION_value v; Z.of_nat (length ms)] ++ (map METHOD_value ms ++ rest)).
    rewrite read_all_app by reflexivity. cbn [bind].
    rewrite Nat2Z.id, read_all_app by apply length_map. cbn [bind].
    rewrite VERSION_of_value, mapM_METHOD_of. reflexivity.
Qed.

Lemma ServerGreeting_roundtrip (g : ServerGreeting) (rest : stream) :
  exists bs, ServerGreeting_to_bytes g = Ok bs /\
             ServerGreeting_from_stream (bs ++ rest) = Ok (g, rest).
Proof.
  destruct g as [v m].
  exists [VERSION_value v; METHOD_value m]. split; [reflexivity|].
  unfold ServerGreeting_from_stream.
  rewrite read_all_app by reflexivity. cbn [bind].
  rewrite VERSION_of_value, METHOD_of_value. reflexivity.
Qed.

Lemma Message_roundtrip (m : Message) (request : bool) (rest : stream) :
  Message_valid m -> is_request m = request ->
  exists bs, Message_to_bytes m = Ok bs /\
             Message_from_stream (bs ++ rest) request = Ok (m, rest).
Proof.
  destruct m as [v mg a [host port]]. unfold Message_valid, is_request.
  cbn [atype addr fst snd msg]. intros [Hh Hp] <-.
  destruct (pack_H_unpack port Hp) as [PH UH].
  destruct a; cbn [host_valid] in Hh.
  - destruct Hh as (b & Hl & Hb & ->).
    do 4 (destruct b as [|? b]; [discriminate|]). destruct b; [|discriminate].
    repeat match goal with
    | H : Forall _ (_ :: _) |- _ => inversion H; clear H; subst
    end.
    eexists. split.
    + unfold Message_to_bytes. cbn [atype addr ver msg].
      rewrite ipv4_roundtrip, PH by assumption. reflexivity.
    + unfold Message_from_stream.
      rewrite <- !app_assoc, read_all_app by reflexivity. cbn [bind].
      unfold rsv. rewrite Z.eqb_refl. cbn [negb].
      rewrite VERSION_of_value, msg_of_value, ATYPE_of_value.
      cbn [bind except_value_error].
      rewrite read_all_app by reflexivity. cbn [bind].
      rewrite read_all_app by reflexivity. cbn [bind hd tl].
      rewrite UH. reflexivity.
  - destruct Hh as (e & He & Hl).
    eexists. split.
    + unfold Message_to_bytes. cbn [atype addr ver msg].
      rewrite He. cbn [bind]. unfold pack_B at 1.
      rewrite (proj2 (Z.leb_le 0 _)), (proj2 (Z.leb_le _ 255)) by lia.
      cbn [andb bind]. rewrite PH. reflexivity.
    + unfold Message_from_stream.
      rewrite <- !app_assoc, read_all_app by reflexivity. cbn [bind].
      unfold rsv. rewrite Z.eqb_refl. cbn [negb].
      rewrite VERSION_of_value, msg_of_value, ATYPE_of_value.
      cbn [bind except_value_error].
      rewrite read_all_app by reflexivity. cbn [bind hd].
      rewrite Nat2Z.id, read_all_app by reflexivity. cbn [bind].
      rewrite (utf8_roundtrip host e He). cbn [bind].
      rewrite read_all_app by reflexivity. cbn [bind hd tl].
      rewrite UH. reflexivity.
  - destruct Hh as (b & Hl & Hb & ->).
    eexists. split.
    + unfold Message_to_bytes. cbn [atype addr ver msg].
      rewrite ipv6_roundtrip, PH by assumption. reflexivity.
    + unfold Message_from_stream.
      rewrite <- !app_assoc, read_all_app by reflexivity. cbn [bind].
      unfold rsv. rewrite Z.eqb_refl. cbn [negb].
      rewrite VERSION_of_value, msg_of_value, ATYPE_of_value.
      cbn [bind except_value_error].
      rewrite read_all_app by assumption. cbn [bind].
      rewrite read_all_app by reflexivity. cbn [bind hd tl].
      rewrite UH. reflexivity.
Qed.

(** ** C1: decoding the encoding gives the value back *)

(** C1: for every valid [ClientGreeting], [ServerGreeting] and relay
    [Message] (any address type; a request or a reply, decoded with the
    matching [request] flag), [to_bytes] succeeds and [from_stream] on its
    bytes, followed by any further bytes, returns an equal value and leaves
    the further bytes unread. *)
Theorem encode_decode_roundtrip :
  (forall (g : ClientGreeting) (rest : stream),
     ClientGreeting_valid g ->
     exists bs, ClientGreeting_to_bytes g = Ok bs /\
                ClientGreeting_from_stream (bs ++ rest) = Ok (g, rest)) /\
  (forall (g : ServerGreeting) (rest : stream),
     exists bs, ServerGreeting_to_bytes g = Ok bs /\
                ServerGreeting_from_stream (bs ++ rest) = Ok (g, rest)) /\
  (forall (m : Message) (request : bool) (rest : stream),
     Message_valid m -> is_request m = request ->
     exists bs, Message_to_bytes m = Ok bs /\
                Message_from_stream (bs ++ rest) request = Ok (m, rest)).
Proof.
  split; [|split].
  - exact ClientGreeting_roundtrip.
  - exact ServerGreeting_roundtrip.
  - exact Message_roundtrip.
Qed.

Lemma encode_decode_roundtrip_witness :
  Message_valid ipv6_loopback_request /\ is_request ipv6_loopback_request = true /\
  exists bs, Message_to_bytes ipv6_loopback_request = Ok bs /\
             Message_from_stream (bs ++ [42]) true = Ok (ipv6_loopback_request, [42]).
Proof.
  assert (Hv : Message_valid ipv6_loopback_request).
  { split; [|cbn; lia].
    exists [0; 0; 0; 0; 0; 0; 0; 0; 0; 0; 0; 0; 0; 0; 0; 1].
    split; [reflexivity|]. split; [repeat constructor; lia|]. vm_compute. reflexivity. }
  split; [exact Hv|]. split; [reflexivity|].
  exact (proj2 (proj2 encode_decode_roundtrip) ipv6_loopback_request true [42] Hv eq_refl).
Defined.

(** ** C8: encoding cannot fail on valid values *)

(** C8: [to_bytes] never fails on a value that satisfies the data-model
    invariants: a [ClientGreeting] whose stored count is the number of its
    methods (at most 255, so the [assert] holds and [struct.pack] accepts
    every byte), any [ServerGreeting], and a relay [Message] whose host is
    the canonical text of its IPv4 or IPv6 address, or a domain name whose
    UTF-8 encoding has at most 255 bytes, and whose port is a 16-bit
    value. *)
Theorem encode_total :
  (forall g : ClientGreeting,
     ClientGreeting_valid g -> exists bs, ClientGreeting_to_bytes g = Ok bs) /\
  (forall g : ServerGreeting, exists bs, ServerGreeting_to_bytes g = Ok bs) /\
  (forall m : Message, Message_valid m -> exists bs, Message_to_bytes m = Ok bs).
Proof.
  split; [|split].
  - intros g Hg. destruct (ClientGreeting_roundtrip g [] Hg) as (bs & Hbs & _).
    now exists bs.
  - intros g. destruct (ServerGreeting_roundtrip g []) as (bs & Hbs & _).
    now exists bs.
  - intros m Hm.
    destruct (Message_roundtrip m (is_request m) [] Hm eq_refl) as (bs & Hbs & _).
    now exists bs.
Qed.

Lemma encode_total_witness :
  Message_valid www_request /\ exists bs, Message_to_bytes www_request = Ok bs.
Proof.
  assert (Hv : Message_valid www_request).
  { split; [|cbn; lia]. eexists. split; [reflexivity|]. cbn. lia. }
  split; [exact Hv|].
  exact (proj2 (proj2 encode_total) www_request Hv).
Defined.


(** ** Codec round trips *)

(** *** AtBash and Base16 *)

Lemma atbash_roundtrip (d : list Z) :
  Forall (fun b => 0 <= b <= 255) d ->
  exists e, atbash_encode d = Ok e /\ atbash_encode e = Ok d.
Proof.
  intros Hd. eexists. split; [reflexivity|].
  unfold atbash_encode. f_equal. rewrite map_map.
  induction Hd as [|b d Hb Hd IH]; [reflexivity|].
  cbn [map]. rewrite IH. f_equal. lia.
Qed.

Lemma b16_byte_ok_all : all_upto b16_byte_ok 256 = true.
Proof. vm_compute. reflexivity. Qed.

Lemma b16_byte (b : Z) :
  0 <= b <= 255 ->
  contains (ascii_upper (at_ hexlify_lower (Z.shiftr b 4))) b16_alphabet = true /\
  contains (ascii_upper (at_ hexlify_lower (Z.land b 15))) b16_alphabet = true /\
  exists p q,
    digit_value 16 (ascii_upper (at_ hexlify_lower (Z.shiftr b 4))) = Some p /\
    digit_value 16 (ascii_upper (at_ hexlify_lower (Z.land b 15))) = Some q /\
    Z.lor (Z.shiftl p 4) q = b.
Proof.
  intros Hb. pose proof (all_upto_sound _ _ b16_byte_ok_all b ltac:(lia)) as H.
  unfold b16_byte_ok in H.
  destruct (contains (ascii_upper (at_ hexlify_lower (Z.shiftr b 4))) b16_alphabet),
    (contains (ascii_upper (at_ hexlify_lower (Z.land b 15))) b16_alphabet);
    try discriminate.
  destruct (digit_value 16 (ascii_upper (at_ hexlify_lower (Z.shiftr b 4)))) as [p|],
    (digit_value 16 (ascii_upper (at_ hexlify_lower (Z.land b 15)))) as [q|];
    try discriminate.
  apply Z.eqb_eq in H. eauto 8.
Qed.

Lemma b16_roundtrip (d : list Z) :
  Forall (fun b => 0 <= b <= 255) d -> b16decode (b16encode d) = Ok d.
Proof.
  intros Hd. unfold b16decode, b16encode.
  induction Hd as [|b d Hb Hd IH]; [reflexivity|].
  destruct (b16_byte b Hb) as (Cx & Cy & p & q & Dp & Dq & E).
  cbn [flat_map app map existsb unhexlify].
  rewrite Cx, Cy. cbn [negb orb].
  destruct (existsb _ _) eqn:Hex; [discriminate|].
  rewrite Dp, Dq, IH, E. reflexivity.
Qed.

(** *** Base64 *)

Lemma b64_char_ok_all : all_upto b64_char_ok 64 = true.
Proof. vm_compute. reflexivity. Qed.

Lemma b64_char (i : Z) :
  0 <= i < 64 ->
  (at_ b64_alphabet i =? 61) = false /\ a2b_value (at_ b64_alphabet i) = i.
Proof.
  intros Hi. pose proof (all_upto_sound _ _ b64_char_ok_all i Hi) as H.
  unfold b64_char_ok in H. apply andb_prop in H as [H1 H2].
  apply negb_true_iff in H1. apply Z.eqb_eq in H2. auto.
Qed.

(** One step of the decoding loop on a character of the alphabet. *)
Ltac a2b_step :=
  match goal with
  | |- context [a2b_base64_loop (at_ b64_alphabet ?i :: ?r) ?q ?l ?p] =>
      let T := fresh "T" in let ET := fresh "ET" in
      remember r as T eqn:ET;
      destruct (b64_char i ltac:(zlia)) as [Hn Hv];
      cbn [a2b_base64_loop]; rewrite Hn, Hv; clear Hn Hv;
      decide_cmp; subst T
  end.

Ltac a2b_pad :=
  match goal with
  | |- context [a2b_base64_loop (61 :: ?r) ?q ?l ?p] =>
      let T := fresh "T" in let ET := fresh "ET" in
      remember r as T eqn:ET;
      cbn [a2b_base64_loop]; rewrite Z.eqb_refl; decide_cmp; subst T
  end.

Lemma b64_group (a b c : Z) (r : list Z) :
  0 <= a <= 255 -> 0 <= b <= 255 -> 0 <= c <= 255 ->
  a2b_base64_loop (b64encode (a :: b :: c :: r)) 0 0 0 =
  (rest <- a2b_base64_loop (b64encode r) 0 0 0 ;; Ok (a :: b :: c :: rest)).
Proof.
  intros Ha Hb Hc. cbn [b64encode]. bits_to_arith.
  a2b_step. a2b_step. a2b_step. a2b_step.
  destruct (a2b_base64_loop (b64encode r) 0 0 0); cbn [bind]; [|reflexivity].
  bits_to_arith. f_equal. f_equal; [zlia|f_equal; [zlia|f_equal; zlia]].
Qed.

Lemma b64_roundtrip (d : list Z) :
  Forall (fun b => 0 <= b <= 255) d -> b64decode (b64encode d) = Ok d.
Proof.
  unfold b64decode. intros Hd.
  remember (length d) as n eqn:Hn.
  revert d Hd Hn. induction n as [n IH] using (well_founded_induction lt_wf).
  intros d Hd Hn.
  destruct d as [|a [|b [|c r]]].
  - reflexivity.
  - inversion Hd as [|? ? Ha]; subst. cbn [b64encode]. bits_to_arith.
    a2b_step. a2b_step. a2b_pad. a2b_pad. cbn [bind].
    bits_to_arith. f_equal. f_equal. zlia.
  - inversion Hd as [|? ? Ha Hd']; subst. inversion Hd' as [|? ? Hb]; subst.
    cbn [b64encode]. bits_to_arith.
    a2b_step. a2b_step. a2b_step. a2b_pad. cbn [bind].
    bits_to_arith. f_equal. f_equal; [zlia|f_equal; zlia].
  - inversion Hd as [|? ? Ha Hd1]; subst. inversion Hd1 as [|? ? Hb Hd2]; subst.
    inversion Hd2 as [|? ? Hc Hr]; subst.
    rewrite b64_group by assumption.
    rewrite (IH (length r)) with (d := r) by (cbn; lia || reflexivity || assumption).
    reflexivity.
Qed.

(** *** XXencode and UUencode *)

Lemma words_complete (k : nat) (w : pystr) :
  length w = k -> forallb is_bit w = true -> In w (words k).
Proof.
  revert w. induction k as [|k IH]; intros w Hl Hb.
  - destruct w; [now left|discriminate].
  - destruct w as [|c w]; [discriminate|].
    cbn in Hl, Hb. apply andb_prop in Hb as [Hc Hb].
    cbn [words]. apply in_flat_map. exists w. split; [apply IH; auto|].
    unfold is_bit in Hc. apply orb_prop in Hc as [Hc|Hc]; apply Z.eqb_eq in Hc; subst;
      cbn; auto.
Qed.

Lemma byte_bits_ok_all : all_upto byte_bits_ok 256 = true.
Proof. vm_compute. reflexivity. Qed.

Lemma byte_bits (b : Z) :
  0 <= b <= 255 ->
  length (byte2bit b) = 8%nat /\ forallb is_bit (byte2bit b) = true /\
  bit2byte (byte2bit b) = Ok b.
Proof.
  intros Hb. pose proof (all_upto_sound _ _ byte_bits_ok_all b ltac:(lia)) as H.
  unfold byte_bits_ok in H.
  apply andb_prop in H as [H H3]. apply andb_prop in H as [H1 H2].
  apply Nat.eqb_eq in H1.
  destruct (bit2byte (byte2bit b)) as [y|]; [|discriminate].
  apply Z.eqb_eq in H3. subst. auto.
Qed.

Lemma xx_word (table : list Z) (w : pystr) :
  forallb (xx_word_ok table) (words 6) = true ->
  length w = 6%nat -> forallb is_bit w = true ->
  exists ch, (nb <- bit2byte w ;; index table nb) = Ok ch /\
             skipn 2 (byte2bit (find table ch)) = w.
Proof.
  intros Hall Hl Hb.
  pose proof (proj1 (forallb_forall _ _) Hall w (words_complete 6 w Hl Hb)) as H.
  unfold xx_word_ok in H.
  destruct (nb <- bit2byte w ;; index table nb) as [ch|]; [|discriminate].
  exists ch. split; [reflexivity|].
  unfold pystr_eqb in H. destruct (list_eq_dec _ _ _); [assumption|discriminate].
Qed.

Lemma xx_table_ok : forallb (xx_word_ok xx_table) (words 6) = true.
Proof. vm_compute. reflexivity. Qed.

Lemma uu_table_ok : forallb (xx_word_ok uu_table) (words 6) = true.
Proof. vm_compute. reflexivity. Qed.

Lemma split_24 (l : list Z) :
  length l = 24%nat ->
  firstn 6 l ++ firstn 6 (skipn 6 l) ++ firstn 6 (skipn 12 l) ++ firstn 6 (skipn 18 l)
  = l.
Proof.
  intros Hl. do 24 (destruct l as [|? l]; [discriminate|]).
  destruct l; [reflexivity|discriminate].
Qed.

Lemma forallb_firstn {A : Type} (f : A -> bool) (n : nat) (l : list A) :
  forallb f l = true -> forallb f (firstn n l) = true.
Proof.
  intros H. rewrite <- (firstn_skipn n l) in H. rewrite forallb_app in H.
  now apply andb_prop in H as [H _].
Qed.

Lemma forallb_skipn {A : Type} (f : A -> bool) (n : nat) (l : list A) :
  forallb f l = true -> forallb f (skipn n l) = true.
Proof.
  intros H. rewrite <- (firstn_skipn n l) in H. rewrite forallb_app in H.
  now apply andb_prop in H as [_ H].
Qed.

Section Xx.

Variable table : list Z.
Hypothesis Htable : forallb (xx_word_ok table) (words 6) = true.

Lemma xx_groups (data : list Z) :
  (length data mod 3 = 0)%nat -> Forall (fun b => 0 <= b <= 255) data ->
  exists chars, xx_encode_groups table data = Ok chars /\
    flat_map (fun ch => skipn 2 (byte2bit (find table ch))) chars
    = flat_map byte2bit data.
Proof.
  remember (length data) as n eqn:Hn.
  revert data Hn. induction n as [n IH] using (well_founded_induction lt_wf).
  intros data Hn Hmod Hd.
  destruct data as [|a [|b [|c r]]].
  - exists []. split; reflexivity.
  - cbn in Hn. subst. discriminate.
  - cbn in Hn. subst. discriminate.
  - inversion Hd as [|? ? Ha Hd1]; subst. inversion Hd1 as [|? ? Hb Hd2]; subst.
    inversion Hd2 as [|? ? Hc Hr]; subst.
    destruct (byte_bits a Ha) as (La & Ba & _).
    destruct (byte_bits b Hb) as (Lb & Bb & _).
    destruct (byte_bits c Hc) as (Lc & Bc & _).
    set (bits := byte2bit a ++ byte2bit b ++ byte2bit c).
    assert (Lbits : length bits = 24%nat)
      by (unfold bits; rewrite !length_app; lia).
    assert (Bbits : forallb is_bit bits = true)
      by (unfold bits; rewrite !forallb_app, Ba, Bb, Bc; reflexivity).
    destruct (xx_word table (firstn 6 bits) Htable) as (c0 & E0 & W0).
    { rewrite length_firstn. lia. } { now apply forallb_firstn. }
    destruct (xx_word table (firstn 6 (skipn 6 bits)) Htable) as (c1 & E1 & W1).
    { rewrite length_firstn, length_skipn. lia. }
    { now apply forallb_firstn, forallb_skipn. }
    destruct (xx_word table (firstn 6 (skipn 12 bits)) Htable) as (c2 & E2 & W2).
    { rewrite length_firstn, length_skipn. lia. }
    { now apply forallb_firstn, forallb_skipn. }
    destruct (xx_word table (firstn 6 (skipn 18 bits)) Htable) as (c3 & E3 & W3).
    { rewrite length_firstn, length_skipn. lia. }
    { now apply forallb_firstn, forallb_skipn. }
    assert (Hmod' : (length r mod 3 = 0)%nat).
    { replace (length (a :: b :: c :: r)) with (length r + 1 * 3)%nat in Hmod
        by (cbn; lia).
      now rewrite Nat.Div0.mod_add in Hmod. }
    destruct (IH (length r)) with (data := r) as (rest & Er & Fr);
      [cbn; lia | reflexivity | exact Hmod' | assumption |].
    exists (c0 :: c1 :: c2 :: c3 :: rest). split.
    + cbn [xx_encode_groups]. fold bits. rewrite Lbits. cbn [Nat.eqb negb].
      rewrite E0, E1, E2, E3, Er. reflexivity.
    + cbn [flat_map]. rewrite W0, W1, W2, W3, Fr.
      transitivity ((firstn 6 bits ++ firstn 6 (skipn 6 bits) ++
                     firstn 6 (skipn 12 bits) ++ firstn 6 (skipn 18 bits))
                    ++ flat_map byte2bit r);
        [now rewrite <- !app_assoc|].
      rewrite split_24 by exact Lbits. unfold bits. now rewrite <- !app_assoc.
Qed.

End Xx.

Lemma chunks8_app (l r : pystr) :
  length l = 8%nat -> chunks8 (l ++ r) = l :: chunks8 r.
Proof.
  intros Hl. do 8 (destruct l as [|? l]; [discriminate|]).
  destruct l; [reflexivity|discriminate].
Qed.

Lemma xx_bits_decode (data : list Z) :
  Forall (fun b => 0 <= b <= 255) data ->
  length (flat_map byte2bit data) = (8 * length data)%nat /\
  mapM bit2byte (chunks8 (flat_map byte2bit data)) = Ok data.
Proof.
  induction 1 as [|b data Hb Hd IH]; [split; reflexivity|].
  destruct (byte_bits b Hb) as (Lb & _ & Eb). destruct IH as [IHl IHm].
  cbn [flat_map]. rewrite length_app, Lb, IHl, chunks8_app by exact Lb.
  split; [cbn [length]; lia|].
  cbn [mapM]. rewrite Eb, IHm. reflexivity.
Qed.

Section Xx2.

Variable table : list Z.
Hypothesis Htable : forallb (xx_word_ok table) (words 6) = true.

Lemma xx_roundtrip (d : list Z) :
  Forall (fun b => 0 <= b <= 255) d ->
  exists e, xx_encode table d = Ok e /\ xx_decode table e = Ok d.
Proof.
  intros Hd. unfold xx_encode.
  set (p := if Z.of_nat (length d) mod 3 =? 0 then 0
            else 3 - Z.of_nat (length d) mod 3).
  assert (Hp : 0 <= p <= 2 /\ (Z.of_nat (length d) + p) mod 3 = 0).
  { unfold p. destruct (Z.eqb_spec (Z.of_nat (length d) mod 3) 0); zlia. }
  set (data := d ++ repeat 0 (Z.to_nat p)).
  assert (Hdata : Forall (fun b => 0 <= b <= 255) data).
  { apply Forall_app. split; [exact Hd|]. apply Forall_forall.
    intros x Hx. apply repeat_spec in Hx. lia. }
  assert (Hlen : length data = (length d + Z.to_nat p)%nat).
  { unfold data. now rewrite length_app, repeat_length. }
  assert (Hmod : (length data mod 3 = 0)%nat).
  { apply Nat2Z.inj. rewrite Nat2Z.inj_mod, Hlen, Nat2Z.inj_add, Z2Nat.id by lia.
    cbn. lia. }
  destruct (xx_groups table Htable data Hmod Hdata) as (chars & Ec & Fc).
  exists (p :: chars). split; [rewrite Ec; reflexivity|].
  destruct (xx_bits_decode data Hdata) as [Lb Mb].
  unfold xx_decode. rewrite Fc, Lb.
  rewrite Nat.mul_comm, Nat.Div0.mod_mul. cbn [Nat.eqb negb].
  rewrite Mb. cbn [bind].
  destruct (Z.eqb_spec p 0) as [Hp0|Hp0]; cbn [negb].
  - unfold data. rewrite Hp0. cbn. now rewrite app_nil_r.
  - rewrite Hlen. replace (length d + Z.to_nat p - Z.to_nat p)%nat with (length d)
      by lia.
    unfold data. now rewrite firstn_app, Nat.sub_diag, firstn_O, app_nil_r, firstn_all.
Qed.

End Xx2.

(** *** Base85 *)

Lemma b85_char_ok_all :
  all_upto (fun i => find b85_alphabet (at_ b85_alphabet i) =? i) 85 = true.
Proof. vm_compute. reflexivity. Qed.

Lemma b85_char (i : Z) : 0 <= i < 85 -> find b85_alphabet (at_ b85_alphabet i) = i.
Proof.
  intros Hi. apply Z.eqb_eq.
  exact (all_upto_sound _ 85 b85_char_ok_all i Hi).
Qed.

Lemma from_bytes4 (a b c d : Z) :
  0 <= a <= 255 -> 0 <= b <= 255 -> 0 <= c <= 255 -> 0 <= d <= 255 ->
  from_bytes [a; b; c; d] = a * 16777216 + b * 65536 + c * 256 + d.
Proof.
  intros. unfold from_bytes. cbn [fold_left].
  rewrite Z.shiftl_0_l, Z.lor_0_l. bits_to_arith. lia.
Qed.

(** The base-85 digits of a word, most significant first, and their prefixes. *)
Lemma b85_prefixes (w : Z) : 0 <= w ->
  let i := w / 614125 in let j := w / 85 mod 7225 in
  i / 85 * 85 + i mod 85 = i /\
  i * 85 + j / 85 = w / 7225 /\
  w / 7225 * 85 + j mod 85 = w / 85 /\
  w / 85 * 85 + w mod 85 = w.
Proof.
  intros Hw i j.
  assert (E : w / 85 = 7225 * i + j).
  { subst i j. rewrite (Z.div_mod (w / 85) 7225) at 1 by lia.
    rewrite Z.div_div by lia. reflexivity. }
  assert (E2 : w / 7225 = (w / 85) / 85).
  { rewrite Z.div_div by lia. reflexivity. }
  assert (Hj : 0 <= j < 7225) by (subst j; apply Z.mod_pos_bound; lia).
  rewrite E2, E. clearbody i j.
  repeat split; zlia.
Qed.

Lemma b85_decode_digits (q4 q3 q2 q1 q0 : Z) :
  0 <= q4 < 85 -> 0 <= q3 < 85 -> 0 <= q2 < 85 -> 0 <= q1 < 85 -> 0 <= q0 < 85 ->
  b85_decode_chunk (map (at_ b85_alphabet) [q4; q3; q2; q1; q0]) =
  (let acc := (((q4 * 85 + q3) * 85 + q2) * 85 + q1) * 85 + q0 in
   if 4294967295 <? acc then raise ValueError
   else Ok [Z.land (Z.shiftr acc 24) 255; Z.land (Z.shiftr acc 16) 255;
            Z.land (Z.shiftr acc 8) 255; Z.land acc 255]).
Proof.
  intros. unfold b85_decode_chunk. cbn [map fold_left bind].
  rewrite !b85_char by assumption.
  decide_cmp. reflexivity.
Qed.

Lemma word_bytes (a b c d : Z) :
  0 <= a <= 255 -> 0 <= b <= 255 -> 0 <= c <= 255 -> 0 <= d <= 255 ->
  let w := a * 16777216 + b * 65536 + c * 256 + d in
  [Z.land (Z.shiftr w 24) 255; Z.land (Z.shiftr w 16) 255;
   Z.land (Z.shiftr w 8) 255; Z.land w 255] = [a; b; c; d].
Proof.
  intros Ha Hb Hc Hd w. subst w. bits_to_arith.
  repeat f_equal; zlia.
Qed.

(** The characters of a chunk, as [_85encode] writes them, are the
    base-85 digits of the word. *)
Lemma b85_chunk_digits (w : Z) :
  b85chars2 (w / 614125) ++ b85chars2 (w / 85 mod 7225)
    ++ [at_ b85_alphabet (w mod 85)] =
  map (at_ b85_alphabet)
    [w / 614125 / 85; w / 614125 mod 85; w / 85 mod 7225 / 85;
     w / 85 mod 7225 mod 85; w mod 85].
Proof. reflexivity. Qed.

Lemma b85_full (a b c d : Z) :
  0 <= a <= 255 -> 0 <= b <= 255 -> 0 <= c <= 255 -> 0 <= d <= 255 ->
  let w := from_bytes [a; b; c; d] in
  b85_decode_chunk (b85chars2 (w / 614125) ++ b85chars2 (w / 85 mod 7225)
                    ++ [at_ b85_alphabet (w mod 85)]) = Ok [a; b; c; d].
Proof.
  intros Ha Hb Hc Hd w. subst w. rewrite from_bytes4 by assumption.
  rewrite <- (word_bytes a b c d) by assumption.
  set (w := a * 16777216 + b * 65536 + c * 256 + d).
  assert (Hw : 0 <= w < 4294967296) by (subst w; lia).
  rewrite b85_chunk_digits, b85_decode_digits by zlia.
  destruct (b85_prefixes w ltac:(lia)) as (P1 & P2 & P3 & P4).
  cbv zeta. rewrite P1, P2, P3, P4. decide_cmp. reflexivity.
Qed.

(** The last chunk, cut to [L + 1] characters by [b85encode] and padded
    with ['~'] (the digit 84) by [b85decode], decodes to a word whose first
    [L] bytes are the data bytes. *)
Lemma b85_tilde : 126 = at_ b85_alphabet 84.
Proof. reflexivity. Qed.

Lemma b85_partial1 (a : Z) : 0 <= a <= 255 ->
  let w := from_bytes [a; 0; 0; 0] in
  exists D,
    b85_decode_chunk
      (firstn 2 (b85chars2 (w / 614125) ++ b85chars2 (w / 85 mod 7225)
                 ++ [at_ b85_alphabet (w mod 85)]) ++ repeat 126 3) = Ok D
    /\ length D = 4%nat /\ firstn 1 D = [a].
Proof.
  intros Ha w0. subst w0. rewrite from_bytes4 by lia.
  set (w := a * 16777216 + 0 * 65536 + 0 * 256 + 0).
  rewrite b85_chunk_digits.
  change (firstn 2 (map (at_ b85_alphabet) [w / 614125 / 85; w / 614125 mod 85;
     w / 85 mod 7225 / 85; w / 85 mod 7225 mod 85; w mod 85]) ++ repeat 126 3)
    with (map (at_ b85_alphabet) [w / 614125 / 85; w / 614125 mod 85; 84; 84; 84]).
  rewrite b85_decode_digits by (subst w; zlia).
  destruct (b85_prefixes w ltac:(subst w; lia)) as (P1 & _ & _ & _).
  cbv zeta. rewrite P1. subst w. decide_cmp.
  eexists; split; [reflexivity|]. split; [reflexivity|].
  cbn [firstn]. bits_to_arith. f_equal. zlia.
Qed.

Lemma b85_partial2 (a b : Z) : 0 <= a <= 255 -> 0 <= b <= 255 ->
  let w := from_bytes [a; b; 0; 0] in
  exists D,
    b85_decode_chunk
      (firstn 3 (b85chars2 (w / 614125) ++ b85chars2 (w / 85 mod 7225)
                 ++ [at_ b85_alphabet (w mod 85)]) ++ repeat 126 2) = Ok D
    /\ length D = 4%nat /\ firstn 2 D = [a; b].
Proof.
  intros Ha Hb w0. subst w0. rewrite from_bytes4 by lia.
  set (w := a * 16777216 + b * 65536 + 0 * 256 + 0).
  rewrite b85_chunk_digits.
  change (firstn 3 (map (at_ b85_alphabet) [w / 614125 / 85; w / 614125 mod 85;
     w / 85 mod 7225 / 85; w / 85 mod 7225 mod 85; w mod 85]) ++ repeat 126 2)
    with (map (at_ b85_alphabet)
            [w / 614125 / 85; w / 614125 mod 85; w / 85 mod 7225 / 85; 84; 84]).
  rewrite b85_decode_digits by (subst w; zlia).
  destruct (b85_prefixes w ltac:(subst w; lia)) as (P1 & P2 & _ & _).
  cbv zeta. rewrite P1, P2. subst w. decide_cmp.
  eexists; split; [reflexivity|]. split; [reflexivity|].
  cbn [firstn]. bits_to_arith. f_equal; [|f_equal]; zlia.
Qed.

Lemma b85_partial3 (a b c : Z) :
  0 <= a <= 255 -> 0 <= b <= 255 -> 0 <= c <= 255 ->
  let w := from_bytes [a; b; c; 0] in
  exists D,
    b85_decode_chunk
      (firstn 4 (b85chars2 (w / 614125) ++ b85chars2 (w / 85 mod 7225)
                 ++ [at_ b85_alphabet (w mod 85)]) ++ repeat 126 1) = Ok D
    /\ length D = 4%nat /\ firstn 3 D = [a; b; c].
Proof.
  intros Ha Hb Hc w0. subst w0. rewrite from_bytes4 by lia.
  set (w := a * 16777216 + b * 65536 + c * 256 + 0).
  rewrite b85_chunk_digits.
  change (firstn 4 (map (at_ b85_alphabet) [w / 614125 / 85; w / 614125 mod 85;
     w / 85 mod 7225 / 85; w / 85 mod 7225 mod 85; w mod 85]) ++ repeat 126 1)
    with (map (at_ b85_alphabet)
            [w / 614125 / 85; w / 614125 mod 85; w / 85 mod 7225 / 85;
             w / 85 mod 7225 mod 85; 84]).
  rewrite b85_decode_digits by (subst w; zlia).
  destruct (b85_prefixes w ltac:(subst w; lia)) as (P1 & P2 & P3 & _).
  cbv zeta. rewrite P1, P2, P3. subst w. decide_cmp.
  eexists; split; [reflexivity|]. split; [reflexivity|].
  cbn [firstn]. bits_to_arith. f_equal; [|f_equal; [|f_equal]]; zlia.
Qed.

Lemma b85_chunks_app (k : nat) (f g : list Z) :
  length f = (4 * k)%nat -> b85_chunks (f ++ g) = b85_chunks f ++ b85_chunks g.
Proof.
  revert f. induction k as [|k IH]; intros f Hf.
  - destruct f; [reflexivity|discriminate].
  - destruct f as [|a [|b [|c [|d f]]]]; try (cbn in Hf; lia).
    cbn [app b85_chunks]. rewrite IH by (cbn in Hf; lia). reflexivity.
Qed.

Lemma chunks5_5 (l : list Z) : length l = 5%nat -> chunks5 l = [l].
Proof.
  intros Hl. do 5 (destruct l as [|? l]; [discriminate|]).
  destruct l; [reflexivity|discriminate].
Qed.

Lemma b85_groups (k : nat) (f tl : list Z) :
  length f = (4 * k)%nat -> Forall (fun x => 0 <= x <= 255) f ->
  exists out,
    mapM b85_decode_chunk (chunks5 (concat (b85_chunks f) ++ tl)) =
      (r <- mapM b85_decode_chunk (chunks5 tl) ;; Ok (out ++ r))
    /\ concat out = f /\ length (concat (b85_chunks f)) = (5 * k)%nat.
Proof.
  revert f. induction k as [|k IH]; intros f Hf Hb.
  - destruct f; [|discriminate]. exists []. cbn.
    split; [|split; reflexivity]. now destruct (mapM b85_decode_chunk (chunks5 tl)).
  - destruct f as [|a [|b [|c [|d f]]]]; try (cbn in Hf; lia).
    apply Forall_cons_iff in Hb as [Ha Hb].
    apply Forall_cons_iff in Hb as [Hb' Hb].
    apply Forall_cons_iff in Hb as [Hc Hb].
    apply Forall_cons_iff in Hb as [Hd Hb].
    destruct (IH f ltac:(cbn in Hf; lia) Hb) as (out & E & Hc' & Hl).
    exists ([a; b; c; d] :: out).
    cbn [b85_chunks concat]. rewrite <- app_assoc.
    pose proof (b85_full a b c d Ha Hb' Hc Hd) as Hfull. cbv zeta in Hfull.
    split; [|split].
    + cbn [b85chars2 app chunks5 mapM]. cbn [b85chars2 app] in Hfull.
      rewrite Hfull. cbn [bind]. rewrite E.
      now destruct (mapM b85_decode_chunk (chunks5 tl)).
    + cbn [concat app]. now rewrite Hc'.
    + rewrite length_app, Hl. cbn [b85chars2 app length]. lia.
Qed.

Lemma b85_roundtrip_aligned (k : nat) (f : list Z) :
  length f = (4 * k)%nat -> Forall (fun x => 0 <= x <= 255) f ->
  b85decode (b85encode f) = Ok f.
Proof.
  intros Hf Hb.
  assert (Hp : (- Z.of_nat (length f)) mod 4 = 0) by (rewrite Hf; zlia).
  unfold b85encode. rewrite Hp. cbv beta zeta. cbn [Z.to_nat repeat Z.eqb negb].
  rewrite app_nil_r.
  destruct (b85_groups k f [] Hf Hb) as (out & E & Hc & Hl).
  unfold b85decode. rewrite Hl.
  replace ((- Z.of_nat (5 * k)) mod 5) with 0 by zlia.
  cbn [Z.to_nat repeat Z.eqb negb]. rewrite app_nil_r.
  rewrite <- (app_nil_r (concat (b85_chunks f))), E. cbn [chunks5 mapM bind].
  rewrite app_nil_r, Hc. reflexivity.
Qed.

Lemma b85_roundtrip_padded (k L : nat) (f t ch D : list Z) :
  length f = (4 * k)%nat -> Forall (fun x => 0 <= x <= 255) f ->
  length t = L -> (1 <= L <= 3)%nat ->
  b85_chunks (t ++ repeat 0 (4 - L)) = [ch] -> length ch = 5%nat ->
  b85_decode_chunk (firstn (L + 1) ch ++ repeat 126 (4 - L)) = Ok D ->
  length D = 4%nat -> firstn L D = t ->
  b85decode (b85encode (f ++ t)) = Ok (f ++ t).
Proof.
  intros Hf Hb Ht HL Hch Hlch HD HlD Hpre.
  assert (Hp : (- Z.of_nat (length (f ++ t))) mod 4 = Z.of_nat (4 - L)).
  { rewrite length_app, Hf, Ht, Nat2Z.inj_add, Nat2Z.inj_mul, Nat2Z.inj_sub by lia.
    zlia. }
  unfold b85encode. rewrite Hp. cbv beta zeta. rewrite Nat2Z.id.
  decide_cmp.
  rewrite <- app_assoc, (b85_chunks_app k) by exact Hf. rewrite Hch.
  rewrite last_last, removelast_last, Hlch, concat_app.
  replace (5 - (4 - L))%nat with (L + 1)%nat by lia.
  cbn [concat]. rewrite app_nil_r.
  destruct (b85_groups k f (firstn (L + 1) ch ++ repeat 126 (4 - L)) Hf Hb)
    as (out & E & Hc & Hl).
  unfold b85decode.
  assert (Hlen : length (concat (b85_chunks f) ++ firstn (L + 1) ch)
                 = (5 * k + (L + 1))%nat).
  { rewrite length_app, Hl, length_firstn, Hlch. lia. }
  rewrite Hlen.
  replace ((- Z.of_nat (5 * k + (L + 1))) mod 5) with (Z.of_nat (4 - L))
    by (rewrite Nat2Z.inj_add, Nat2Z.inj_add, Nat2Z.inj_mul, Nat2Z.inj_sub by lia;
        zlia).
  rewrite Nat2Z.id, <- app_assoc, E.
  rewrite chunks5_5
    by (rewrite length_app, length_firstn, repeat_length, Hlch; lia).
  cbn [mapM]. rewrite HD. cbn [bind].
  decide_cmp.
  rewrite concat_app, Hc. cbn [concat]. rewrite app_nil_r.
  rewrite length_app, HlD, Hf, firstn_app, Hf.
  rewrite firstn_all2 by lia.
  replace (4 * k + 4 - (4 - L) - 4 * k)%nat with L by lia.
  rewrite Hpre. reflexivity.
Qed.

Lemma b85_roundtrip (d : list Z) :
  Forall (fun x => 0 <= x <= 255) d -> b85decode (b85encode d) = Ok d.
Proof.
  intros Hd. set (k := (length d / 4)%nat).
  assert (Hk : (4 * k <= length d /\ length d - 4 * k < 4)%nat).
  { pose proof (Nat.div_mod (length d) 4 ltac:(lia)).
    pose proof (Nat.mod_upper_bound (length d) 4 ltac:(lia)). subst k. lia. }
  rewrite <- (firstn_skipn (4 * k) d) in Hd |- *.
  apply Forall_app in Hd as [Hf Ht].
  assert (Hlf : length (firstn (4 * k) d) = (4 * k)%nat)
    by (rewrite length_firstn; lia).
  assert (Hlt : (length (skipn (4 * k) d) < 4)%nat)
    by (rewrite length_skipn; lia).
  revert Hlf Hlt Hf Ht.
  generalize (firstn (4 * k) d) (skipn (4 * k) d). intros f t Hlf Hlt Hf Ht.
  destruct t as [|a [|b [|c [|e t]]]]; cbn [length] in Hlt; try lia.
  - rewrite app_nil_r. exact (b85_roundtrip_aligned k f Hlf Hf).
  - inversion Ht as [|? ? Ha _]; subst.
    destruct (b85_partial1 a Ha) as (D & HD & HlD & Hpre).
    eapply (b85_roundtrip_padded k 1 f [a] _ D);
      [exact Hlf | exact Hf | reflexivity | lia | reflexivity | reflexivity
      | exact HD | exact HlD | exact Hpre].
  - inversion Ht as [|? ? Ha Ht']; inversion Ht' as [|? ? Hb _]; subst.
    destruct (b85_partial2 a b Ha Hb) as (D & HD & HlD & Hpre).
    eapply (b85_roundtrip_padded k 2 f [a; b] _ D);
      [exact Hlf | exact Hf | reflexivity | lia | reflexivity | reflexivity
      | exact HD | exact HlD | exact Hpre].
  - inversion Ht as [|? ? Ha Ht']; inversion Ht' as [|? ? Hb Ht''];
      inversion Ht'' as [|? ? Hc _]; subst.
    destruct (b85_partial3 a b c Ha Hb Hc) as (D & HD & HlD & Hpre).
    eapply (b85_roundtrip_padded k 3 f [a; b; c] _ D);
      [exact Hlf | exact Hf | reflexivity | lia | reflexivity | reflexivity
      | exact HD | exact HlD | exact Hpre].
Qed.

(** *** Base32 *)

Lemma b32_char_ok_all :
  all_upto (fun i => find b32_alphabet (at_ b32_alphabet i) =? i) 32 = true.
Proof. vm_compute. reflexivity. Qed.

Lemma b32_char (i : Z) : 0 <= i < 32 -> find b32_alphabet (at_ b32_alphabet i) = i.
Proof.
  intros Hi. apply Z.eqb_eq.
  exact (all_upto_sound _ 32 b32_char_ok_all i Hi).
Qed.

Lemma b32_not_pad (i : Z) : at_ b32_alphabet i <> 61.
Proof.
  unfold at_. destruct (nth_in_or_default (Z.to_nat i) b32_alphabet 0) as [H|H].
  - intros E. rewrite E in H. vm_compute in H. intuition discriminate.
  - rewrite H. discriminate.
Qed.

Lemma mod1024_div32 (x : Z) : x mod 1024 / 32 = x / 32 mod 32.
Proof. zlia. Qed.

Lemma mod1024_mod32 (x : Z) : x mod 1024 mod 32 = x mod 32.
Proof. zlia. Qed.

Lemma b32_quantum_digits (c : Z) : 0 <= c < 1099511627776 ->
  b32tab2 (Z.shiftr c 30) ++ b32tab2 (Z.land (Z.shiftr c 20) 1023)
  ++ b32tab2 (Z.land (Z.shiftr c 10) 1023) ++ b32tab2 (Z.land c 1023) =
  map (at_ b32_alphabet) (b32_digits c).
Proof.
  intros Hc. unfold b32tab2, b32_digits. cbn [app map].
  bits_to_arith.
  assert (E1 : c / 1073741824 / 32 = c / 34359738368 mod 32).
  { rewrite Z.div_div, Z.mod_small by zlia. reflexivity. }
  assert (E2 : c / 1048576 mod 1024 / 32 = c / 33554432 mod 32).
  { rewrite mod1024_div32, Z.div_div by lia. reflexivity. }
  assert (E3 : c / 1024 mod 1024 / 32 = c / 32768 mod 32).
  { rewrite mod1024_div32, Z.div_div by lia. reflexivity. }
  rewrite E1, E2, E3, !mod1024_div32, !mod1024_mod32. reflexivity.
Qed.

Section B32_fold.
Variable fnd : Z -> Z.
Hypothesis Hfnd : forall q, 0 <= q < 32 -> fnd (at_ b32_alphabet q) = q.

Lemma b32_fold_gen (qs : list Z) (a : Z) :
  Forall (fun q => 0 <= q < 32) qs ->
  fold_left
    (fun acc c =>
       a <- acc ;;
       let v := fnd c in
       if v =? -1 then raise BinasciiError else Ok (Z.shiftl a 5 + v))
    (map (at_ b32_alphabet) qs) (Ok a) =
  Ok (fold_left (fun a q => a * 32 + q) qs a).
Proof.
  intros H. revert a. induction H as [|q qs Hq Hqs IH]; intros a; [reflexivity|].
  cbn [map fold_left bind]. rewrite Hfnd by exact Hq. decide_cmp.
  rewrite Z.shiftl_mul_pow2 by lia. apply IH.
Qed.
End B32_fold.

Lemma b32_decode_quanta_cons (q : list Z) (r : list (list Z)) (acc : Z) :
  b32_decode_quanta (q :: r) acc =
  (a <- fold_left
          (fun acc c =>
             a <- acc ;;
             let v := find b32_alphabet c in
             if v =? -1 then raise BinasciiError else Ok (Z.shiftl a 5 + v))
          q (Ok 0) ;;
   '(d, last) <- b32_decode_quanta r a ;;
   Ok (to_bytes5 a ++ d, last)).
Proof. reflexivity. Qed.

Lemma b32_fold (qs : list Z) (a : Z) :
  Forall (fun q => 0 <= q < 32) qs ->
  fold_left
    (fun acc c =>
       a <- acc ;;
       let v := find b32_alphabet c in
       if v =? -1 then raise BinasciiError else Ok (Z.shiftl a 5 + v))
    (map (at_ b32_alphabet) qs) (Ok a) =
  Ok (fold_left (fun a q => a * 32 + q) qs a).
Proof. exact (b32_fold_gen (find b32_alphabet) b32_char qs a). Qed.

Lemma digit_split (x p q : Z) : 0 <= x -> 0 < p -> q = p * 32 ->
  x / q * 32 + x / p mod 32 = x / p.
Proof.
  intros Hx Hp ->. rewrite <- Z.div_div by lia.
  pose proof (Z.div_mod (x / p) 32 ltac:(lia)). lia.
Qed.

Lemma b32_prefixes (c : Z) : 0 <= c < 1099511627776 ->
  0 * 32 + c / 34359738368 mod 32 = c / 34359738368 /\
  c / 34359738368 * 32 + c / 1073741824 mod 32 = c / 1073741824 /\
  c / 1073741824 * 32 + c / 33554432 mod 32 = c / 33554432 /\
  c / 33554432 * 32 + c / 1048576 mod 32 = c / 1048576 /\
  c / 1048576 * 32 + c / 32768 mod 32 = c / 32768 /\
  c / 32768 * 32 + c / 1024 mod 32 = c / 1024 /\
  c / 1024 * 32 + c / 32 mod 32 = c / 32 /\
  c / 32 * 32 + c mod 32 = c.
Proof.
  intros Hc.
  split; [rewrite Z.mod_small by zlia; lia|].
  repeat split; try (apply digit_split; lia).
  pose proof (Z.div_mod c 32 ltac:(lia)). lia.
Qed.

Lemma b32_digits_range (c : Z) : Forall (fun q => 0 <= q < 32) (b32_digits c).
Proof.
  unfold b32_digits. repeat constructor; apply Z.mod_pos_bound; lia.
Qed.

Lemma from_bytes5 (a b c d e : Z) :
  0 <= a <= 255 -> 0 <= b <= 255 -> 0 <= c <= 255 -> 0 <= d <= 255 ->
  0 <= e <= 255 ->
  from_bytes [a; b; c; d; e] =
  a * 4294967296 + b * 16777216 + c * 65536 + d * 256 + e.
Proof.
  intros. unfold from_bytes. cbn [fold_left].
  rewrite Z.shiftl_0_l, Z.lor_0_l. bits_to_arith. lia.
Qed.

Lemma to_bytes5_word (a b c d e : Z) :
  0 <= a <= 255 -> 0 <= b <= 255 -> 0 <= c <= 255 -> 0 <= d <= 255 ->
  0 <= e <= 255 ->
  to_bytes5 (a * 4294967296 + b * 16777216 + c * 65536 + d * 256 + e)
  = [a; b; c; d; e].
Proof.
  intros. unfold to_bytes5. bits_to_arith. repeat f_equal; zlia.
Qed.

(** A full quantum decodes to its five bytes. *)
Lemma b32_full (a b c d e : Z) (r : list (list Z)) (acc : Z) :
  0 <= a <= 255 -> 0 <= b <= 255 -> 0 <= c <= 255 -> 0 <= d <= 255 ->
  0 <= e <= 255 ->
  b32_decode_quanta
    (map (at_ b32_alphabet) (b32_digits (from_bytes [a; b; c; d; e])) :: r) acc
  = ('(dd, last) <- b32_decode_quanta r (from_bytes [a; b; c; d; e]) ;;
     Ok ([a; b; c; d; e] ++ dd, last)).
Proof.
  intros Ha Hb Hc Hd He.
  rewrite b32_decode_quanta_cons, b32_fold by apply b32_digits_range.
  rewrite from_bytes5 by assumption.
  set (w := a * 4294967296 + b * 16777216 + c * 65536 + d * 256 + e).
  assert (Hw : 0 <= w < 1099511627776) by (subst w; lia).
  destruct (b32_prefixes w Hw) as (P1 & P2 & P3 & P4 & P5 & P6 & P7 & P8).
  unfold b32_digits. cbn [fold_left].
  rewrite P1, P2, P3, P4, P5, P6, P7, P8. cbn [bind].
  subst w. rewrite to_bytes5_word by assumption. reflexivity.
Qed.

Lemma from_bytes5_range (a b c d e : Z) :
  0 <= a <= 255 -> 0 <= b <= 255 -> 0 <= c <= 255 -> 0 <= d <= 255 ->
  0 <= e <= 255 -> 0 <= from_bytes [a; b; c; d; e] < 1099511627776.
Proof. intros. rewrite from_bytes5 by assumption. lia. Qed.

Lemma b32_quanta_cons (a b c d e : Z) (r : list Z) :
  0 <= a <= 255 -> 0 <= b <= 255 -> 0 <= c <= 255 -> 0 <= d <= 255 ->
  0 <= e <= 255 ->
  b32_quanta (a :: b :: c :: d :: e :: r) =
  map (at_ b32_alphabet) (b32_digits (from_bytes [a; b; c; d; e])) ++ b32_quanta r.
Proof.
  intros. cbn [b32_quanta].
  rewrite <- b32_quantum_digits by (apply from_bytes5_range; assumption).
  rewrite <- !app_assoc. reflexivity.
Qed.

Lemma b32_no_pad (qs : list Z) : Forall (fun x => x <> 61) (map (at_ b32_alphabet) qs).
Proof.
  apply Forall_forall. intros x Hx. apply in_map_iff in Hx as (i & <- & _).
  apply b32_not_pad.
Qed.

Lemma b32_groups (k : nat) (f R : list Z) (acc : Z) :
  length f = (5 * k)%nat -> Forall (fun x => 0 <= x <= 255) f ->
  exists acc',
    b32_decode_quanta (chunks8 (b32_quanta f ++ R)) acc =
      ('(d, last) <- b32_decode_quanta (chunks8 R) acc' ;; Ok (f ++ d, last))
    /\ length (b32_quanta f) = (8 * k)%nat
    /\ Forall (fun x => x <> 61) (b32_quanta f).
Proof.
  revert f acc. induction k as [|k IH]; intros f acc Hf Hb.
  - destruct f; [|discriminate]. exists acc. cbn [b32_quanta app].
    split; [|split; [reflexivity | constructor]].
    destruct (b32_decode_quanta (chunks8 R) acc) as [[d last]|]; reflexivity.
  - destruct f as [|a [|b [|c [|d [|e f]]]]]; try (cbn in Hf; lia).
    apply Forall_cons_iff in Hb as [Ha Hb].
    apply Forall_cons_iff in Hb as [Hb' Hb].
    apply Forall_cons_iff in Hb as [Hc Hb].
    apply Forall_cons_iff in Hb as [Hd Hb].
    apply Forall_cons_iff in Hb as [He Hb].
    destruct (IH f (from_bytes [a; b; c; d; e]) ltac:(cbn in Hf; lia) Hb)
      as (acc' & E & Hl & Hn).
    exists acc'.
    rewrite b32_quanta_cons by assumption. rewrite <- app_assoc.
    rewrite chunks8_app by (rewrite length_map; reflexivity).
    split; [|split].
    + rewrite b32_full by assumption. rewrite E.
      destruct (b32_decode_quanta (chunks8 R) acc') as [[dd last]|]; reflexivity.
    + rewrite length_app, length_map, Hl. cbn. lia.
    + apply Forall_app. split; [apply b32_no_pad | exact Hn].
Qed.

Lemma skip_pads (p : nat) (l : list Z) :
  skip_while (fun c => c =? 61) (repeat 61 p ++ l) = skip_while (fun c => c =? 61) l.
Proof. induction p as [|p IH]; [reflexivity|]. cbn [repeat app skip_while]. exact IH. Qed.

Lemma rstrip_pad_app (x : list Z) (p : nat) :
  Forall (fun c => c <> 61) x -> rstrip_pad (x ++ repeat 61 p) = x.
Proof.
  intros Hx. unfold rstrip_pad. rewrite rev_app_distr, rev_repeat, skip_pads.
  apply Forall_rev in Hx.
  destruct (rev x) as [|y r] eqn:E.
  - cbn. rewrite <- (rev_involutive x), E. reflexivity.
  - cbn [skip_while]. inversion Hx as [|? ? Hy _]; subst.
    rewrite (proj2 (Z.eqb_neq y 61) Hy). rewrite <- E, rev_involutive. reflexivity.
Qed.

Lemma chunks8_short (l : list Z) :
  (1 <= length l <= 8)%nat -> chunks8 l = [l].
Proof.
  intros Hl.
  destruct l as [|a [|b [|c [|d [|e [|f [|g [|h [|i l]]]]]]]]];
    cbn in Hl; try lia; reflexivity.
Qed.

Lemma b32_roundtrip_aligned (k : nat) (f : list Z) :
  length f = (5 * k)%nat -> Forall (fun x => 0 <= x <= 255) f ->
  b32decode (b32encode f) = Ok f.
Proof.
  intros Hf Hb.
  destruct (b32_groups k f [] 0 Hf Hb) as (acc' & E & Hl & Hn).
  unfold b32encode. rewrite Hf.
  replace (Z.of_nat (5 * k) mod 5) with 0 by zlia. cbn [Z.eqb].
  unfold b32decode. rewrite Hl.
  replace (Z.of_nat (8 * k) mod 8) with 0 by zlia. cbn [Z.eqb negb].
  cbv beta zeta.
  assert (Hs : rstrip_pad (b32_quanta f) = b32_quanta f).
  { pose proof (rstrip_pad_app _ 0 Hn) as H. rewrite app_nil_r in H. exact H. }
  rewrite Hs, Hl, Nat.sub_diag.
  rewrite <- (app_nil_r (b32_quanta f)), E. cbn [chunks8 b32_decode_quanta bind].
  rewrite app_nil_r. reflexivity.
Qed.

Lemma b32_quanta_app (k : nat) (f g : list Z) :
  length f = (5 * k)%nat -> b32_quanta (f ++ g) = b32_quanta f ++ b32_quanta g.
Proof.
  revert f. induction k as [|k IH]; intros f Hf.
  - destruct f; [reflexivity|discriminate].
  - destruct f as [|a [|b [|c [|d [|e f]]]]]; try (cbn in Hf; lia).
    cbn [app b32_quanta]. rewrite IH by (cbn in Hf; lia). rewrite !app_assoc.
    reflexivity.
Qed.

Lemma b32_roundtrip_padded (k L p : nat) (f t Q : list Z) (ap : Z) :
  length f = (5 * k)%nat -> Forall (fun x => 0 <= x <= 255) f ->
  length t = L -> (1 <= L <= 4)%nat ->
  b32_quanta (t ++ repeat 0 (5 - L)) = Q -> length Q = 8%nat ->
  Forall (fun x => x <> 61) Q ->
  (forall e : list Z,
     (if Z.of_nat L =? 1 then pad_tail 6 e
      else if Z.of_nat L =? 2 then pad_tail 4 e
      else if Z.of_nat L =? 3 then pad_tail 3 e
      else if Z.of_nat L =? 4 then pad_tail 1 e else e) = pad_tail p e) ->
  (1 <= p <= 6)%nat ->
  existsb (Z.eqb (Z.of_nat p)) [0; 1; 3; 4; 6] = true ->
  (43 - 5 * Z.of_nat p) / 8 = Z.of_nat L ->
  (forall acc, b32_decode_quanta [firstn (8 - p) Q] acc = Ok (to_bytes5 ap, ap)) ->
  firstn L (to_bytes5 (Z.shiftl ap (5 * Z.of_nat p))) = t ->
  b32decode (b32encode (f ++ t)) = Ok (f ++ t).
Proof.
  intros Hf Hb Ht HL HQ HlQ HnQ Hchain Hp Hex Hleft Hdec Hlast.
  destruct (b32_groups k f (firstn (8 - p) Q) 0 Hf Hb) as (acc' & E & Hl & Hn).
  unfold b32encode. cbv beta zeta. rewrite length_app, Hf, Ht.
  replace (Z.of_nat (5 * k + L) mod 5) with (Z.of_nat L)
    by (rewrite Nat2Z.inj_add, Nat2Z.inj_mul; zlia).
  replace (Z.of_nat L =? 0) with false by (symmetry; apply Z.eqb_neq; lia).
  replace (Z.to_nat (5 - Z.of_nat L)) with (5 - L)%nat by lia.
  rewrite Hchain, <- app_assoc, (b32_quanta_app k f) by exact Hf. rewrite HQ.
  assert (Hpad : pad_tail p (b32_quanta f ++ Q)
                 = (b32_quanta f ++ firstn (8 - p) Q) ++ repeat 61 p).
  { unfold pad_tail. rewrite length_app, Hl, HlQ, firstn_app, Hl.
    replace (8 * k + 8 - p - 8 * k)%nat with (8 - p)%nat by lia.
    rewrite firstn_all2 by lia. rewrite <- app_assoc. reflexivity. }
  rewrite Hpad.
  assert (Hlx : length (b32_quanta f ++ firstn (8 - p) Q) = (8 * k + (8 - p))%nat).
  { rewrite length_app, Hl, length_firstn, HlQ. lia. }
  unfold b32decode. cbv beta zeta.
  rewrite length_app, Hlx, repeat_length.
  replace (Z.of_nat (8 * k + (8 - p) + p) mod 8) with 0
    by (rewrite !Nat2Z.inj_add, Nat2Z.inj_mul, Nat2Z.inj_sub by lia; zlia).
  cbn [Z.eqb negb].
  rewrite rstrip_pad_app.
  2:{ apply Forall_app. split; [exact Hn|].
      apply Forall_forall. intros x Hx.
      exact (proj1 (Forall_forall _ _) HnQ x (in_firstn_in _ _ _ Hx)). }
  rewrite Hlx.
  replace (8 * k + (8 - p) + p - (8 * k + (8 - p)))%nat with p by lia.
  rewrite E, chunks8_short by (rewrite length_firstn, HlQ; lia).
  rewrite Hdec. cbn [bind].
  rewrite Hex. cbn [negb orb].
  replace (Z.of_nat p =? 0) with false by (symmetry; apply Z.eqb_neq; lia).
  replace (is_empty (f ++ to_bytes5 ap)) with false
    by (unfold to_bytes5; destruct f; reflexivity).
  cbn [negb andb].
  rewrite Hleft, Nat2Z.id, Hlast.
  rewrite length_app, Hf. cbn [to_bytes5 length].
  replace (5 * k + 5 - 5)%nat with (length f) by lia.
  rewrite firstn_app, firstn_all, Nat.sub_diag. cbn [firstn]. rewrite app_nil_r.
  reflexivity.
Qed.

Lemma b32_partial (w : Z) (m : nat) (ap : Z) :
  fold_left (fun a q => a * 32 + q) (firstn m (b32_digits w)) 0 = ap ->
  forall acc,
    b32_decode_quanta [firstn m (map (at_ b32_alphabet) (b32_digits w))] acc
    = Ok (to_bytes5 ap, ap).
Proof.
  intros H acc. rewrite b32_decode_quanta_cons, firstn_map, b32_fold.
  - cbn [bind b32_decode_quanta]. rewrite H, app_nil_r. reflexivity.
  - apply Forall_forall. intros x Hx.
    exact (proj1 (Forall_forall _ _) (b32_digits_range w) x (in_firstn_in _ _ _ Hx)).
Qed.

Ltac b32_tail_tac k L p f t w ap Hlf Hf :=
  apply (b32_roundtrip_padded k L p f t (map (at_ b32_alphabet) (b32_digits w)) ap);
  [ exact Hlf | exact Hf | reflexivity | lia
  | cbn [app repeat Nat.sub]; rewrite b32_quanta_cons by lia; apply app_nil_r
  | rewrite length_map; reflexivity
  | apply b32_no_pad
  | intros ?; reflexivity
  | lia | reflexivity | reflexivity
  | apply b32_partial;
    let Hw := fresh "Hw" in
    assert (Hw : 0 <= w < 1099511627776) by (apply from_bytes5_range; lia);
    let P := fresh "P" in
    pose proof (b32_prefixes w Hw) as P;
    unfold b32_digits; cbn [firstn fold_left Nat.sub];
    repeat (let P1 := fresh "P" in
            lazymatch type of P with _ /\ _ => destruct P as [P1 P] end;
            try rewrite P1);
    try rewrite P; reflexivity
  | rewrite Z.shiftl_mul_pow2 by lia; cbn [Z.of_nat Z.mul Z.pow];
    unfold w; rewrite from_bytes5 by lia;
    match goal with
    | |- context [?x / ?m * ?m'] =>
        replace (x / m * m') with x by zlia
    end;
    rewrite to_bytes5_word by lia; reflexivity ].

Lemma b32_roundtrip (d : list Z) :
  Forall (fun x => 0 <= x <= 255) d -> b32decode (b32encode d) = Ok d.
Proof.
  intros Hd. set (k := (length d / 5)%nat).
  assert (Hk : (5 * k <= length d /\ length d - 5 * k < 5)%nat).
  { pose proof (Nat.div_mod (length d) 5 ltac:(lia)).
    pose proof (Nat.mod_upper_bound (length d) 5 ltac:(lia)). subst k. lia. }
  rewrite <- (firstn_skipn (5 * k) d) in Hd |- *.
  apply Forall_app in Hd as [Hf Ht].
  assert (Hlf : length (firstn (5 * k) d) = (5 * k)%nat)
    by (rewrite length_firstn; lia).
  assert (Hlt : (length (skipn (5 * k) d) < 5)%nat)
    by (rewrite length_skipn; lia).
  revert Hlf Hlt Hf Ht.
  generalize (firstn (5 * k) d) (skipn (5 * k) d). intros f t Hlf Hlt Hf Ht.
  destruct t as [|a [|b [|c [|e [|g t]]]]]; cbn [length] in Hlt; try lia;
    repeat (let H := fresh "H" in
            inversion Ht as [|? ? H Ht']; clear Ht; rename Ht' into Ht; subst).
  - rewrite app_nil_r. exact (b32_roundtrip_aligned k f Hlf Hf).
  - set (w := from_bytes [a; 0; 0; 0; 0]).
    b32_tail_tac k 1%nat 6%nat f [a] w (w / 1073741824) Hlf Hf.
  - set (w := from_bytes [a; b; 0; 0; 0]).
    b32_tail_tac k 2%nat 4%nat f [a; b] w (w / 1048576) Hlf Hf.
  - set (w := from_bytes [a; b; c; 0; 0]).
    b32_tail_tac k 3%nat 3%nat f [a; b; c] w (w / 32768) Hlf Hf.
  - set (w := from_bytes [a; b; c; e; 0]).
    b32_tail_tac k 4%nat 1%nat f [a; b; c; e] w (w / 32) Hlf Hf.
Qed.

(** C9: for every codec class ([Plain], [Base64], [Base32], [Base16],
    [Base85], [XXencode], [UUencode], [AtBash]) and every byte string [d],
    [encode(d)] returns normally and [decode] of its result is [d]. *)
Theorem codec_roundtrip (c : Codec) (d : list Z) :
  Forall (fun b => 0 <= b <= 255) d ->
  exists e, codec_encode c d = Ok e /\ codec_decode c e = Ok d.
Proof.
  intros Hd. destruct c; cbn [codec_encode codec_decode].
  - exists d. split; reflexivity.
  - eexists. split; [reflexivity | exact (b64_roundtrip d Hd)].
  - eexists. split; [reflexivity | exact (b32_roundtrip d Hd)].
  - eexists. split; [reflexivity | exact (b16_roundtrip d Hd)].
  - eexists. split; [reflexivity | exact (b85_roundtrip d Hd)].
  - exact (xx_roundtrip xx_table xx_table_ok d Hd).
  - exact (xx_roundtrip uu_table uu_table_ok d Hd).
  - exact (atbash_roundtrip d Hd).
Qed.

Lemma codec_roundtrip_witness :
  Forall (fun b => 0 <= b <= 255) [104; 105; 33] /\
  exists e, codec_encode Base32 [104; 105; 33] = Ok e /\
            codec_decode Base32 e = Ok [104; 105; 33].
Proof.
  assert (Hd : Forall (fun b => 0 <= b <= 255) [104; 105; 33]).
  { repeat (apply Forall_cons; [lia|]). apply Forall_nil. }
  split; [exact Hd|].
  exact (codec_roundtrip Base32 [104; 105; 33] Hd).
Defined.

(** * Further properties *)

(** ** Reading a packet from a longer stream *)


Lemma read_all_ext (n : nat) (s e : stream) :
  ext_rel e (read_all n s) (read_all n (s ++ e)).
Proof.
  unfold ext_rel. destruct (read_all n s) as [[l s']|err] eqn:H.
  - apply read_all_ok in H as [-> Hl]. rewrite <- app_assoc. now apply read_all_app.
  - left. unfold read_all, raise in H. destruct (Nat.leb n (length s)); congruence.
Qed.

Lemma ext_bind {A B} (e : stream) (m1 m2 : result (A * stream))
    (k : A * stream -> result (B * stream)) :
  ext_rel e m1 m2 -> (forall x r, ext_rel e (k (x, r)) (k (x, r ++ e))) ->
  ext_rel e (bind m1 k) (bind m2 k).
Proof.
  unfold ext_rel at 1. destruct m1 as [[x r]|err]; intros H Hk.
  - subst m2. exact (Hk x r).
  - destruct H as [H|H]; [now left|]. subst m2. now right.
Qed.

Lemma ext_bind_pure {A B} (e : stream) (m : result A)
    (k1 k2 : A -> result (B * stream)) :
  (forall x, ext_rel e (k1 x) (k2 x)) -> ext_rel e (bind m k1) (bind m k2).
Proof. destruct m as [x|err]; cbn; [auto|now right]. Qed.

Lemma ext_Ok {A} (e r : stream) (x : A) : ext_rel e (Ok (x, r)) (Ok (x, r ++ e)).
Proof. reflexivity. Qed.

Lemma ext_Err {A} (e : stream) (err : error) :
  ext_rel e (@Err (A * stream) err) (Err err).
Proof. now right. Qed.

Ltac ext_solve :=
  repeat first
    [ apply ext_Ok
    | apply ext_Err
    | apply read_all_ext
    | apply ext_bind; [idtac | intros ? ?]
    | apply ext_bind_pure; intros ?
    | progress cbn beta iota
    | match goal with
      | |- ext_rel _ (match ?x with _ => _ end) _ => destruct x
      | |- ext_rel _ (if ?x then _ else _) _ => destruct x
      end ].

Lemma Message_from_stream_ext (s e : stream) (request : bool) :
  ext_rel e (Message_from_stream s request) (Message_from_stream (s ++ e) request).
Proof. unfold Message_from_stream, raise. ext_solve. Qed.

Lemma ClientGreeting_from_stream_ext (s e : stream) :
  ext_rel e (ClientGreeting_from_stream s) (ClientGreeting_from_stream (s ++ e)).
Proof. unfold ClientGreeting_from_stream, raise. ext_solve. Qed.

Lemma ServerGreeting_from_stream_ext (s e : stream) :
  ext_rel e (ServerGreeting_from_stream s) (ServerGreeting_from_stream (s ++ e)).
Proof. unfold ServerGreeting_from_stream, raise. ext_solve. Qed.

Lemma ext_truncated {A} (p t rest : stream) (x : A) (r1 r2 : result (A * stream)) :
  ext_rel (t ++ rest) r1 r2 -> r2 = Ok (x, rest) -> t <> [] -> r1 = Err StreamError.
Proof.
  intros H E Ht. destruct r1 as [[y r]|err]; cbn in H.
  - rewrite E in H. injection H as _ Hr.
    apply (f_equal (@length Z)) in Hr. rewrite !length_app in Hr.
    destruct t; [congruence|]. cbn in Hr. lia.
  - destruct H as [->|H]; [reflexivity|congruence].
Qed.

(** ** Decoding then encoding UTF-8 *)

Lemma utf8_enc2 (b0 b1 : Z) :
  192 <= b0 <= 223 -> 128 <= b1 <= 191 ->
  128 <= Z.lor (Z.shiftl (Z.land b0 31) 6) (Z.land b1 63) ->
  utf8_encode_char (Z.lor (Z.shiftl (Z.land b0 31) 6) (Z.land b1 63)) = Ok [b0; b1].
Proof.
  intros H0 H1.
  assert (Hc : Z.lor (Z.shiftl (Z.land b0 31) 6) (Z.land b1 63)
               = (b0 - 192) * 64 + (b1 - 128)) by (bits_to_arith; zlia).
  rewrite Hc. intros Hlo. unfold utf8_encode_char. decide_cmp.
  bits_to_arith. f_equal. f_equal; [|f_equal]; zlia.
Qed.

Lemma utf8_enc3 (b0 b1 b2 : Z) :
  224 <= b0 <= 239 -> 128 <= b1 <= 191 -> 128 <= b2 <= 191 ->
  let c := Z.lor (Z.shiftl (Z.land b0 15) 12)
             (Z.lor (Z.shiftl (Z.land b1 63) 6) (Z.land b2 63)) in
  2048 <= c -> negb ((55296 <=? c) && (c <=? 57343)) = true ->
  utf8_encode_char c = Ok [b0; b1; b2].
Proof.
  intros H0 H1 H2 c.
  assert (Hc : c = (b0 - 224) * 4096 + (b1 - 128) * 64 + (b2 - 128))
    by (subst c; bits_to_arith; zlia).
  rewrite Hc. intros Hlo Hs. unfold utf8_encode_char.
  rewrite negb_true_iff in Hs. rewrite Hs. decide_cmp.
  bits_to_arith. f_equal. f_equal; [|f_equal; [|f_equal]]; zlia.
Qed.

Lemma utf8_enc4 (b0 b1 b2 b3 : Z) :
  240 <= b0 <= 244 -> 128 <= b1 <= 191 -> 128 <= b2 <= 191 -> 128 <= b3 <= 191 ->
  let c := Z.lor (Z.shiftl (Z.land b0 7) 18)
             (Z.lor (Z.shiftl (Z.land b1 63) 12)
                (Z.lor (Z.shiftl (Z.land b2 63) 6) (Z.land b3 63))) in
  65536 <= c -> c <= 1114111 ->
  utf8_encode_char c = Ok [b0; b1; b2; b3].
Proof.
  intros H0 H1 H2 H3 c.
  assert (Hc : c = (b0 - 240) * 262144 + (b1 - 128) * 4096 + (b2 - 128) * 64
                   + (b3 - 128))
    by (subst c; bits_to_arith; zlia).
  rewrite Hc. intros Hlo Hhi. unfold utf8_encode_char. decide_cmp.
  bits_to_arith. f_equal. f_equal; [|f_equal; [|f_equal; [|f_equal]]]; zlia.
Qed.

Lemma utf8_encode_cons (c : Z) (s : pystr) :
  utf8_encode (c :: s) = (b <- utf8_encode_char c ;; bs <- utf8_encode s ;; Ok (b ++ bs)).
Proof. reflexivity. Qed.

(** Strict decoding only accepts what encoding writes. *)
Lemma utf8_decode_encode (bs : list Z) (h : pystr) :
  Forall (fun x => 0 <= x <= 255) bs -> utf8_decode bs = Ok h ->
  utf8_encode h = Ok bs.
Proof.
  remember (length bs) as n eqn:Hn. revert bs h Hn.
  induction n as [n IH] using lt_wf_ind. intros bs h -> Hb Hd.
  destruct bs as [|b0 r]; [injection Hd as <-; reflexivity|].
  inversion Hb as [|? ? Hb0 Hr]; subst.
  cbn [utf8_decode] in Hd.
  destruct (Z.ltb_spec b0 128).
  { destruct (utf8_decode r) as [s|] eqn:Hs; [|discriminate].
    cbn [bind] in Hd. injection Hd as <-.
    cbn [utf8_encode]. unfold utf8_encode_char. decide_cmp. cbn [bind].
    rewrite (IH (length r) ltac:(cbn; lia) r s eq_refl Hr Hs). reflexivity. }
  destruct ((192 <=? b0) && (b0 <=? 223)) eqn:E2.
  { apply andb_true_iff in E2 as [E2a E2b].
    apply Z.leb_le in E2a, E2b.
    destruct r as [|b1 r1]; [discriminate|].
    inversion Hr as [|? ? Hb1 Hr1]; subst.
    destruct (is_cont b1 && (128 <=? _)) eqn:C; [|discriminate].
    apply andb_true_iff in C as [C1 C2]. unfold is_cont in C1.
    apply andb_true_iff in C1 as [C1a C1b]. apply Z.leb_le in C1a, C1b, C2.
    destruct (utf8_decode r1) as [s|] eqn:Hs; [|discriminate].
    cbn [bind] in Hd. injection Hd as <-.
    rewrite utf8_encode_cons.
    match goal with |- context [utf8_encode_char ?c] =>
      replace c with (Z.lor (Z.shiftl (Z.land b0 31) 6) (Z.land b1 63))
        by reflexivity end.
    rewrite utf8_enc2 by lia. cbn [bind].
    rewrite (IH (length r1) ltac:(cbn; lia) r1 s eq_refl Hr1 Hs). reflexivity. }
  destruct ((224 <=? b0) && (b0 <=? 239)) eqn:E3.
  { apply andb_true_iff in E3 as [E3a E3b].
    apply Z.leb_le in E3a, E3b.
    destruct r as [|b1 [|b2 r2]]; try discriminate.
    inversion Hr as [|? ? Hb1 Hr1]; subst.
    inversion Hr1 as [|? ? Hb2 Hr2]; subst.
    destruct (is_cont b1 && is_cont b2 && (2048 <=? _) && negb _) eqn:C;
      [|discriminate].
    apply andb_true_iff in C as [C C4]. apply andb_true_iff in C as [C C3].
    apply andb_true_iff in C as [C1 C2]. unfold is_cont in C1, C2.
    apply andb_true_iff in C1 as [C1a C1b]. apply andb_true_iff in C2 as [C2a C2b].
    apply Z.leb_le in C1a, C1b, C2a, C2b, C3.
    destruct (utf8_decode r2) as [s|] eqn:Hs; [|discriminate].
    cbn [bind] in Hd. injection Hd as <-.
    rewrite utf8_encode_cons.
    match goal with |- context [utf8_encode_char ?c] =>
      replace c with (Z.lor (Z.shiftl (Z.land b0 15) 12)
             (Z.lor (Z.shiftl (Z.land b1 63) 6) (Z.land b2 63)))
        by reflexivity end.
    rewrite utf8_enc3 by (assumption || lia). cbn [bind].
    rewrite (IH (length r2) ltac:(cbn; lia) r2 s eq_refl Hr2 Hs). reflexivity. }
  destruct ((240 <=? b0) && (b0 <=? 244)) eqn:E4; [|discriminate].
  apply andb_true_iff in E4 as [E4a E4b].
  apply Z.leb_le in E4a, E4b.
  destruct r as [|b1 [|b2 [|b3 r3]]]; try discriminate.
  inversion Hr as [|? ? Hb1 Hr1]; subst.
  inversion Hr1 as [|? ? Hb2 Hr2]; subst.
  inversion Hr2 as [|? ? Hb3 Hr3]; subst.
  destruct (is_cont b1 && is_cont b2 && is_cont b3 && (65536 <=? _) && (_ <=? 1114111))
    eqn:C; [|discriminate].
  apply andb_true_iff in C as [C C5]. apply andb_true_iff in C as [C C4].
  apply andb_true_iff in C as [C C3]. apply andb_true_iff in C as [C1 C2].
  unfold is_cont in C1, C2, C3.
  apply andb_true_iff in C1 as [C1a C1b]. apply andb_true_iff in C2 as [C2a C2b].
  apply andb_true_iff in C3 as [C3a C3b].
  apply Z.leb_le in C1a, C1b, C2a, C2b, C3a, C3b, C4, C5.
  destruct (utf8_decode r3) as [s|] eqn:Hs; [|discriminate].
  cbn [bind] in Hd. injection Hd as <-.
  rewrite utf8_encode_cons.
  match goal with |- context [utf8_encode_char ?c] =>
    replace c with (Z.lor (Z.shiftl (Z.land b0 7) 18)
             (Z.lor (Z.shiftl (Z.land b1 63) 12)
                (Z.lor (Z.shiftl (Z.land b2 63) 6) (Z.land b3 63))))
      by reflexivity end.
  rewrite utf8_enc4 by lia. cbn [bind].
  rewrite (IH (length r3) ltac:(cbn; lia) r3 s eq_refl Hr3 Hs). reflexivity.
Qed.

(** ** Decoded packets encode back to the bytes read *)


Ltac enum_of_ok :=
  repeat match goal with
  | |- context [if ?z =? ?k then _ else _] =>
      destruct (Z.eqb_spec z k); [intros H; inversion H; subst; reflexivity|]
  end; discriminate.

Lemma VERSION_of_ok (z : Z) (v : VERSION) : VERSION_of z = Ok v -> z = VERSION_value v.
Proof. unfold VERSION_of, raise. enum_of_ok. Qed.
Lemma METHOD_of_ok (z : Z) (v : METHOD) : METHOD_of z = Ok v -> z = METHOD_value v.
Proof. unfold METHOD_of, raise. enum_of_ok. Qed.
Lemma CMD_of_ok (z : Z) (v : CMD) : CMD_of z = Ok v -> z = CMD_value v.
Proof. unfold CMD_of, raise. enum_of_ok. Qed.
Lemma REP_of_ok (z : Z) (v : REP) : REP_of z = Ok v -> z = REP_value v.
Proof. unfold REP_of, raise. enum_of_ok. Qed.

Lemma mapM_METHOD_of_ok (l : list Z) (ms : list METHOD) :
  mapM METHOD_of l = Ok ms -> l = map METHOD_value ms.
Proof.
  revert ms. induction l as [|x l IH]; intros ms H.
  - injection H as <-. reflexivity.
  - cbn [mapM] in H. destruct (METHOD_of x) as [m|] eqn:Ex; [|discriminate].
    cbn [bind] in H. destruct (mapM METHOD_of l) as [ms'|]; [|discriminate].
    cbn [bind] in H. injection H as <-. cbn [map].
    rewrite (METHOD_of_ok _ _ Ex), (IH ms' eq_refl). reflexivity.
Qed.

Lemma pack_H_of_unpack (p0 p1 : Z) :
  0 <= p0 <= 255 -> 0 <= p1 <= 255 -> pack_H (unpack_H p0 p1) = Ok [p0; p1].
Proof.
  intros H0 H1. unfold pack_H, unpack_H.
  assert (Hu : Z.lor (Z.shiftl p0 8) p1 = p0 * 256 + p1) by (bits_to_arith; zlia).
  rewrite Hu. decide_cmp. bits_to_arith. f_equal. f_equal; [|f_equal]; zlia.
Qed.

Lemma pack_B_byte (z : Z) : 0 <= z <= 255 -> pack_B z = Ok [z].
Proof. intros Hz. unfold pack_B. decide_cmp. reflexivity. Qed.

Lemma Forall_app_inv {A} (P : A -> Prop) (l r : list A) :
  Forall P (l ++ r) -> Forall P l /\ Forall P r.
Proof. rewrite Forall_app. auto. Qed.

Lemma ClientGreeting_from_stream_to_bytes (s rest : stream) (g : ClientGreeting) :
  Forall (fun x => 0 <= x <= 255) s ->
  ClientGreeting_from_stream s = Ok (g, rest) ->
  exists bs, ClientGreeting_to_bytes g = Ok bs /\ s = bs ++ rest.
Proof.
  intros Hs H. unfold ClientGreeting_from_stream in H.
  destruct (read_all 2 s) as [[hdr s1]|] eqn:E1; [|discriminate]. cbn [bind] in H.
  apply read_all_ok in E1 as [-> Hl1].
  destruct hdr as [|v [|n [|]]]; cbn in Hl1; try discriminate.
  destruct (read_all (Z.to_nat n) s1) as [[l s2]|] eqn:E2; [|discriminate].
  cbn [bind] in H. apply read_all_ok in E2 as [-> Hl2].
  destruct (VERSION_of v) as [v'|] eqn:Ev; [|discriminate]. cbn [bind] in H.
  destruct (mapM METHOD_of l) as [ms|] eqn:Em; [|discriminate]. cbn [bind] in H.
  injection H as <- <-.
  apply VERSION_of_ok in Ev. apply mapM_METHOD_of_ok in Em. subst v l.
  inversion Hs as [|? ? Hv Hs1]; subst. inversion Hs1 as [|? ? Hn Hs2]; subst.
  rewrite length_map in Hl2.
  assert (Hn' : n = Z.of_nat (length ms)) by lia.
  exists (VERSION_value v' :: n :: map METHOD_value ms). split; [|reflexivity].
  unfold ClientGreeting_to_bytes. cbn [nmethods methods cg_ver].
  rewrite <- Hn', Z.eqb_refl. cbn [negb].
  rewrite (pack_B_byte (VERSION_value v')) by (destruct v'; cbn; lia).
  rewrite (pack_B_byte n) by lia. cbn [bind].
  rewrite mapM_pack_methods. cbn [bind]. f_equal.
  cbn [app]. f_equal. f_equal. clear. induction ms as [|m ms IH]; [reflexivity|].
  cbn [map concat app]. f_equal. exact IH.
Qed.

Lemma ServerGreeting_from_stream_to_bytes (s rest : stream) (g : ServerGreeting) :
  ServerGreeting_from_stream s = Ok (g, rest) ->
  exists bs, ServerGreeting_to_bytes g = Ok bs /\ s = bs ++ rest.
Proof.
  intros H. unfold ServerGreeting_from_stream in H.
  destruct (read_all 2 s) as [[hdr s1]|] eqn:E1; [|discriminate]. cbn [bind] in H.
  apply read_all_ok in E1 as [-> Hl1].
  destruct hdr as [|v [|m [|]]]; cbn in Hl1; try discriminate.
  destruct (VERSION_of v) as [v'|] eqn:Ev; [|discriminate]. cbn [bind] in H.
  destruct (METHOD_of m) as [m'|] eqn:Em; [|discriminate]. cbn [bind] in H.
  injection H as <- <-. apply VERSION_of_ok in Ev. apply METHOD_of_ok in Em.
  subst. eexists. split; reflexivity.
Qed.

Lemma except_value_error_ok {A} (r : result A) (x : A) :
  except_value_error r = Ok x -> r = Ok x.
Proof. destruct r as [y|e]; [cbn; congruence|destruct e; cbn; discriminate]. Qed.

Lemma msg_of_ok (request : bool) (z : Z) (mg : Msg) :
  (if request then c <- CMD_of z ;; Ok (Cmd c) else r <- REP_of z ;; Ok (Rep r))
    = Ok mg -> z = Msg_value mg.
Proof.
  destruct request; [destruct (CMD_of z) eqn:E|destruct (REP_of z) eqn:E];
    cbn [bind]; intros H; try discriminate; injection H as <-; cbn [Msg_value].
  - now apply CMD_of_ok.
  - now apply REP_of_ok.
Qed.

Ltac bytes_of_list H :=
  repeat match type of H with
  | Forall _ (_ :: _) =>
      let Hx := fresh "Hx" in let Hr := fresh "Hr" in
      inversion H as [|? ? Hx Hr]; subst; clear H; rename Hr into H
  end.

Lemma Message_from_stream_to_bytes (s rest : stream) (request : bool) (m : Message) :
  Forall (fun x => 0 <= x <= 255) s ->
  Message_from_stream s request = Ok (m, rest) ->
  exists bs, Message_to_bytes m = Ok bs /\ s = bs ++ rest.
Proof.
  intros Hs H. unfold Message_from_stream in H.
  destruct (read_all 4 s) as [[hdr s1]|] eqn:E1; [|discriminate]. cbn [bind] in H.
  apply read_all_ok in E1 as [-> Hl1].
  apply Forall_app_inv in Hs as [Hh Hs1].
  destruct hdr as [|v [|c [|r [|a [|]]]]]; cbn in Hl1; try discriminate.
  destruct (Z.eqb_spec r rsv) as [->|]; [|discriminate]. cbn [negb] in H.
  destruct (except_value_error _) as [[[v' c'] a']|] eqn:EX; cbn [bind] in H;
    [|discriminate].
  apply except_value_error_ok in EX.
  destruct (VERSION_of v) as [v0|] eqn:Ev; cbn [bind] in EX; [|discriminate].
  destruct (if request then _ else _) as [mg|] eqn:Em; cbn [bind] in EX;
    [|discriminate].
  destruct (ATYPE_of a) as [a0|] eqn:Ea; cbn [bind] in EX; [|discriminate].
  injection EX as <- <- <-.
  apply VERSION_of_ok in Ev. apply msg_of_ok in Em. apply ATYPE_of_ok in Ea.
  subst v c a.
  destruct a0; bind_inv H; injection H as <- <-; inv_all; reads_split.
  all: rewrite !Forall_app in Hs1.
  - (* IPV4 *)
    destruct Hs1 as [Hb [Hp Hr]].
    do 4 (destruct l0 as [|? l0]; [discriminate|]). destruct l0; [|discriminate].
    do 2 (destruct l as [|? l]; [discriminate|]). destruct l; [|discriminate].
    bytes_of_list Hb. bytes_of_list Hp.
    eexists. split.
    + unfold Message_to_bytes. cbn [atype addr ver msg hd tl].
      rewrite ipv4_roundtrip, pack_H_of_unpack by assumption. reflexivity.
    + reflexivity.
  - (* DOMAINNAME *)
    destruct Hs1 as [HL [Hb [Hp Hr]]].
    destruct l0 as [|L [|]]; try discriminate.
    do 2 (destruct l as [|? l]; [discriminate|]). destruct l; [|discriminate].
    bytes_of_list HL. bytes_of_list Hp.
    cbn [hd] in *.
    eexists. split.
    + unfold Message_to_bytes. cbn [atype addr ver msg hd tl].
      match goal with E : utf8_decode _ = Ok _ |- _ => rewrite (utf8_decode_encode _ _ Hb E) end. cbn [bind].
      replace (Z.of_nat (length l1)) with L by lia.
      rewrite pack_B_byte by assumption. cbn [bind].
      rewrite pack_H_of_unpack by assumption. reflexivity.
    + now rewrite <- !app_assoc.
  - (* IPV6 *)
    destruct Hs1 as [Hb [Hp Hr]].
    do 2 (destruct l as [|? l]; [discriminate|]). destruct l; [|discriminate].
    bytes_of_list Hp.
    eexists. split.
    + unfold Message_to_bytes. cbn [atype addr ver msg hd tl].
      rewrite ipv6_roundtrip, pack_H_of_unpack by assumption. reflexivity.
    + now rewrite <- !app_assoc.
Qed.

(** ** IPv4 text accepted by [IPv4Address] *)

Lemma octet_parse_ok_all :
  forallb octet_parse_ok (digit_words 1 ++ digit_words 2 ++ digit_words 3) = true.
Proof. vm_compute. reflexivity. Qed.

Lemma digit_words_complete (k : nat) (o : pystr) :
  length o = k -> forallb is_ascii_digit o = true -> In o (digit_words k).
Proof.
  revert o. induction k as [|k IH]; intros o Hl Hd.
  - destruct o; [now left|discriminate].
  - destruct o as [|c o]; [discriminate|]. cbn in Hl, Hd.
    apply andb_true_iff in Hd as [Hc Ho]. cbn [digit_words].
    apply in_flat_map. exists o. split; [apply IH; auto|].
    apply in_map_iff. exists c. split; [reflexivity|].
    unfold is_ascii_digit in Hc. apply andb_true_iff in Hc as [Ha Hb].
    apply Z.leb_le in Ha, Hb.
    apply in_map_iff. exists (Z.to_nat c). split; [lia|]. apply in_seq. lia.
Qed.

Lemma ipv4_parse_octet_ok (o : pystr) (n : Z) :
  ipv4_parse_octet o = Ok n -> 0 <= n <= 255 /\ str_of_int n = o.
Proof.
  intros H.
  assert (Hin : In o (digit_words 1 ++ digit_words 2 ++ digit_words 3)).
  { unfold ipv4_parse_octet in H. destruct o as [|c0 r]; [discriminate|].
    destruct (forallb is_ascii_digit (c0 :: r)) eqn:Hd; [|discriminate].
    destruct (3 <? Z.of_nat (length (c0 :: r))) eqn:Hl; [discriminate|].
    apply Z.ltb_ge in Hl.
    assert (Hk : length (c0 :: r) = 1%nat \/ length (c0 :: r) = 2%nat
                 \/ length (c0 :: r) = 3%nat) by (cbn [length] in *; lia).
    destruct Hk as [Hk|[Hk|Hk]].
    - apply in_or_app. left. apply digit_words_complete; assumption.
    - apply in_or_app. right. apply in_or_app. left.
      apply digit_words_complete; assumption.
    - apply in_or_app. right. apply in_or_app. right.
      apply digit_words_complete; assumption. }
  pose proof (proj1 (forallb_forall _ _) octet_parse_ok_all o Hin) as Hok.
  unfold octet_parse_ok in Hok. rewrite H in Hok.
  apply andb_true_iff in Hok as [Hok Heq]. apply andb_true_iff in Hok as [H0 H1].
  apply Z.leb_le in H0, H1. split; [lia|].
  unfold pystr_eqb in Heq. destruct (list_eq_dec Z.eq_dec _ _); congruence.
Qed.

Lemma mapM_parse_octets (os : list pystr) (b : list Z) :
  mapM ipv4_parse_octet os = Ok b ->
  map str_of_int b = os /\ Forall (fun x => 0 <= x <= 255) b.
Proof.
  revert b. induction os as [|o os IH]; intros b H.
  - injection H as <-. split; [reflexivity|constructor].
  - cbn [mapM] in H. destruct (ipv4_parse_octet o) as [n|] eqn:Ho; [|discriminate].
    cbn [bind] in H. destruct (mapM ipv4_parse_octet os) as [b'|]; [|discriminate].
    cbn [bind] in H. injection H as <-.
    destruct (ipv4_parse_octet_ok o n Ho) as [Hn Hs].
    destruct (IH b' eq_refl) as [Hm Hf].
    split; [cbn [map]; congruence|constructor; assumption].
Qed.

Lemma join_cons (sep c : Z) (p : pystr) (ps : list pystr) :
  join sep ((c :: p) :: ps) = c :: join sep (p :: ps).
Proof. destruct ps; reflexivity. Qed.

Lemma split_on_nonempty (sep : Z) (s : pystr) : split_on sep s <> [].
Proof.
  destruct s as [|c r]; cbn; [discriminate|].
  destruct (c =? sep); [discriminate|]. destruct (split_on sep r); discriminate.
Qed.

Lemma join_split_on (sep : Z) (s : pystr) : join sep (split_on sep s) = s.
Proof.
  induction s as [|c r IH]; [reflexivity|]. cbn [split_on].
  destruct (Z.eqb_spec c sep) as [->|].
  - destruct (split_on sep r) as [|p ps] eqn:E; [now apply split_on_nonempty in E|].
    cbn [join]. rewrite <- IH. reflexivity.
  - destruct (split_on sep r) as [|p ps] eqn:E; [now apply split_on_nonempty in E|].
    rewrite join_cons, IH. reflexivity.
Qed.

Lemma ipv4_packed_canonical (s : pystr) (b : list Z) :
  ipv4_packed_of_str s = Ok b ->
  length b = 4%nat /\ Forall (fun x => 0 <= x <= 255) b /\ ipv4_str_of_packed b = s.
Proof.
  unfold ipv4_packed_of_str. destruct (contains 47 s); [discriminate|].
  destruct s as [|c r]; [discriminate|].
  destruct (Nat.eqb_spec (length (split_on 46 (c :: r))) 4); [|discriminate].
  cbn [negb]. intros H. apply mapM_parse_octets in H as [Hm Hf].
  split; [|split; [exact Hf|]].
  - rewrite <- Hm, length_map in e. exact e.
  - unfold ipv4_str_of_packed. rewrite Hm. apply join_split_on.
Qed.

(** ** IPv6 text accepted by [IPv6Address] *)


Lemma digit_value_range (base c d : Z) :
  digit_value base c = Some d -> 0 <= d < base.
Proof.
  unfold digit_value.
  destruct ((48 <=? c) && (c <=? 57)) eqn:E1;
  [|destruct ((97 <=? c) && (c <=? 122)) eqn:E2;
    [|destruct ((65 <=? c) && (c <=? 90)) eqn:E3]];
  repeat match goal with H : _ && _ = true |- _ =>
    apply andb_true_iff in H as [?%Z.leb_le ?%Z.leb_le] end;
  match goal with |- context [?x <? base] => destruct (Z.ltb_spec x base) end;
  intros Hs; try discriminate; injection Hs as <-; lia.
Qed.

Lemma int_fold_err (base : Z) (l : list Z) (e : error) :
  fold_left
    (fun acc c => a <- acc ;;
       match digit_value base c with
       | Some d => Ok (a * base + d) | None => raise ValueError end)
    l (Err e) = Err e.
Proof. induction l as [|c l IH]; [reflexivity|]. exact IH. Qed.

Lemma int_fold_bound (base : Z) (l : list Z) (a n : Z) :
  0 <= a ->
  fold_left
    (fun acc c => a <- acc ;;
       match digit_value base c with
       | Some d => Ok (a * base + d) | None => raise ValueError end)
    l (Ok a) = Ok n ->
  0 <= n < (a + 1) * base ^ Z.of_nat (length l).
Proof.
  revert a. induction l as [|c l IH]; intros a Ha H.
  - injection H as <-. cbn. lia.
  - cbn [fold_left bind] in H.
    destruct (digit_value base c) as [d|] eqn:Ed.
    + apply digit_value_range in Ed.
      specialize (IH (a * base + d) ltac:(nia) H).
      rewrite length_cons, Nat2Z.inj_succ, Z.pow_succ_r by lia. nia.
    + unfold raise in H. rewrite int_fold_err in H. discriminate.
Qed.

Lemma int_of_digits_bound (base : Z) (s : pystr) (n : Z) :
  int_of_digits base s = Ok n -> 0 <= n < base ^ Z.of_nat (length s).
Proof.
  unfold int_of_digits. destruct s as [|c r]; [discriminate|].
  intros H. apply int_fold_bound in H; lia.
Qed.

Lemma ipv6_parse_hextet_range (h : pystr) (n : Z) :
  ipv6_parse_hextet h = Ok n -> 0 <= n <= 65535.
Proof.
  unfold ipv6_parse_hextet.
  destruct (negb (forallb is_hex_digit h)); [discriminate|].
  destruct (Z.ltb_spec 4 (Z.of_nat (length h))) as [|Hlen]; [discriminate|].
  destruct (int_of_digits 16 h) as [k|] eqn:Hk; [|discriminate].
  intros Hn. injection Hn as <-. apply int_of_digits_bound in Hk.
  assert (16 ^ Z.of_nat (length h) <= 16 ^ 4) by (apply Z.pow_le_mono_r; lia).
  change (16 ^ 4) with 65536 in *. lia.
Qed.

Lemma mapM_hextets (l : list pystr) (hs : list Z) :
  mapM ipv6_parse_hextet l = Ok hs ->
  length hs = length l /\ Forall (fun x => 0 <= x <= 65535) hs.
Proof.
  revert hs. induction l as [|h l IH]; intros hs H.
  - injection H as <-. split; [reflexivity|constructor].
  - cbn [mapM] in H. destruct (ipv6_parse_hextet h) as [n|] eqn:Hn; [|discriminate].
    cbn [bind] in H. destruct (mapM ipv6_parse_hextet l) as [hs'|]; [|discriminate].
    cbn [bind] in H. injection H as <-.
    destruct (IH hs' eq_refl) as [Hl Hf].
    split; [cbn; congruence|constructor; [eapply ipv6_parse_hextet_range; eauto|exact Hf]].
Qed.

Lemma find_skip_range (inner : list pystr) (i k : Z) (skip : option Z) :
  find_skip inner i skip = Ok (Some k) ->
  (exists j, skip = Some j /\ k = j) \/ (i <= k < i + Z.of_nat (length inner)).
Proof.
  revert i skip. induction inner as [|p r IH]; intros i skip H.
  - cbn in H. injection H as ->. left. eauto.
  - cbn [find_skip] in H. destruct p as [|c p].
    + destruct skip as [j|]; [discriminate|].
      destruct (IH _ _ H) as [(j & [=<-] & ->)|Hr]; right; cbn [length]; lia.
    + destruct (IH _ _ H) as [Hl|Hr]; [left; exact Hl|right; cbn [length]; lia].
Qed.

Lemma length_removelast_S {A} (l : list A) :
  length (removelast l) = (length l - 1)%nat.
Proof.
  induction l as [|x l IH]; [reflexivity|].
  destruct l as [|y l]; [reflexivity|].
  change (removelast (x :: y :: l)) with (x :: removelast (y :: l)).
  cbn [length] in *. lia.
Qed.

Lemma hextets_assemble (parts : list pystr) (hi lo sk : Z) (hs : list Z) :
  0 <= hi -> 0 <= lo -> 0 <= sk -> hi + lo + sk = 8 ->
  hi <= Z.of_nat (length parts) -> lo <= Z.of_nat (length parts) ->
  (his <- mapM ipv6_parse_hextet (firstn (Z.to_nat hi) parts) ;;
   los <- mapM ipv6_parse_hextet (skipn (length parts - Z.to_nat lo) parts) ;;
   Ok (his ++ repeat 0 (Z.to_nat sk) ++ los)) = Ok hs ->
  length hs = 8%nat /\ Forall (fun x => 0 <= x <= 65535) hs.
Proof.
  intros H1 H2 H3 H4 H5 H6 H.
  destruct (mapM ipv6_parse_hextet (firstn _ _)) as [his|] eqn:Eh; [|discriminate].
  cbn [bind] in H.
  destruct (mapM ipv6_parse_hextet (skipn _ _)) as [los|] eqn:El; [|discriminate].
  cbn [bind] in H. injection H as <-.
  apply mapM_hextets in Eh as [Lh Fh]. apply mapM_hextets in El as [Ll Fl].
  rewrite length_firstn in Lh. rewrite length_skipn in Ll.
  split.
  - rewrite !length_app, repeat_length. lia.
  - apply Forall_app. split; [exact Fh|]. apply Forall_app. split; [|exact Fl].
    apply Forall_forall. intros x Hx. apply repeat_spec in Hx. lia.
Qed.

Lemma ipv6_hextets_length (a : pystr) (hs : list Z) :
  ipv6_hextets_of_str a = Ok hs ->
  length hs = 8%nat /\ Forall (fun x => 0 <= x <= 65535) hs.
Proof.
  unfold ipv6_hextets_of_str. destruct a as [|c0 r0]; [discriminate|].
  set (parts0 := split_on 58 (c0 :: r0)).
  destruct (Z.ltb_spec (Z.of_nat (length parts0)) 3) as [|H3]; [discriminate|].
  intros H.
  destruct (if contains 46 (last parts0 []) then _ else _) as [parts|] eqn:Ep;
    cbn [bind] in H; [|discriminate].
  assert (Hn3 : (3 <= length parts)%nat).
  { destruct (contains 46 (last parts0 [])).
    - destruct (ipv4_packed_of_str _) as [b|]; cbn [bind] in Ep; [|discriminate].
      destruct b as [|b0 [|b1 [|b2 [|b3 [|]]]]]; try discriminate.
      injection Ep as <-. rewrite length_app, length_removelast_S.
      cbn [length]. lia.
    - injection Ep as <-. lia. }
  destruct (Z.ltb_spec 9 (Z.of_nat (length parts))); [discriminate|].
  destruct (find_skip _ 1 None) as [skip|] eqn:Es; cbn [bind] in H; [|discriminate].
  destruct skip as [k|].
  - apply find_skip_range in Es.
    destruct Es as [(j & [=] & _)|Hk].
    rewrite length_firstn, length_tl in Hk.
    destruct (is_empty (hd [] parts)) eqn:Hf; destruct (is_empty (last parts [])) eqn:Hl;
      cbn [andb negb] in H.
    all: repeat (match type of H with
                 | context [negb (?a =? ?b)] => destruct (Z.eqb_spec a b)
                 | context [?a <? ?b] => destruct (Z.ltb_spec a b)
                 end; cbn [negb bind] in H; unfold raise in H; try discriminate).
    all: eapply hextets_assemble; [..|exact H]; lia.
  - destruct (Z.eqb_spec (Z.of_nat (length parts)) 8); cbn [negb] in H;
      [|discriminate].
    destruct (is_empty (hd [] parts)); [discriminate|].
    destruct (is_empty (last parts [])); [discriminate|].
    cbn [bind] in H.
    eapply hextets_assemble; [..|exact H]; lia.
Qed.

Lemma ipv6_packed_length (s : pystr) (b : list Z) :
  ipv6_packed_of_str s = Ok b ->
  length b = 16%nat /\ Forall (fun x => 0 <= x <= 255) b.
Proof.
  unfold ipv6_packed_of_str. destruct (contains 47 s); [discriminate|].
  destruct (ipv6_split_scope_id s) as [a|]; cbn [bind]; [|discriminate].
  destruct (ipv6_hextets_of_str a) as [hs|] eqn:Eh; cbn [bind]; [|discriminate].
  intros H. injection H as <-. apply ipv6_hextets_length in Eh as [Hl Hf].
  split.
  - assert (E : forall l, length (flat_map hextet_bytes l) = (2 * length l)%nat).
    { induction l as [|h l IH]; [reflexivity|]. cbn [flat_map hextet_bytes app length].
      rewrite IH. lia. }
    rewrite E, Hl. reflexivity.
  - clear Hl. induction Hf as [|h hs Hh Hf IH]; [constructor|].
    cbn [flat_map hextet_bytes]. constructor; [|constructor; [|exact IH]].
    + rewrite Z.shiftr_div_pow2 by lia. change (2 ^ 8) with 256. zlia.
    + rewrite (land_mask h 255 8) by (reflexivity || lia). change (2 ^ 8) with 256. zlia.
Qed.

(** ** What a successful [to_bytes] implies *)

Lemma pack_H_range (p : Z) (x : list Z) : pack_H p = Ok x -> 0 <= p <= 65535.
Proof.
  unfold pack_H. destruct (Z.leb_spec 0 p), (Z.leb_spec p 65535); cbn;
    intros E; try discriminate; lia.
Qed.

Lemma pack_B_range (z : Z) (x : list Z) : pack_B z = Ok x -> 0 <= z <= 255.
Proof.
  unfold pack_B. destruct (Z.leb_spec 0 z), (Z.leb_spec z 255); cbn;
    intros E; try discriminate; lia.
Qed.

Lemma to_bytes_valid (m : Message) (bs : list Z) :
  Message_to_bytes m = Ok bs -> atype m <> IPV6 -> Message_valid m.
Proof.
  destruct m as [v mg a [host port]]. unfold Message_valid, Message_to_bytes.
  cbn [ver msg atype addr fst snd].
  intros H Ha.
  destruct (match a with DOMAINNAME => _ | IPV4 => _ | IPV6 => _ end) as [tl|] eqn:Et;
    cbn [bind] in H; [|discriminate].
  destruct (pack_H port) as [p|] eqn:Ep; cbn [bind] in H; [|discriminate].
  apply pack_H_range in Ep. split; [|exact Ep].
  destruct a; cbn [host_valid]; [| |congruence].
  - apply ipv4_packed_canonical in Et as (Hl & Hb & Hs). exists tl. auto.
  - destruct (utf8_encode host) as [e|]; cbn [bind] in Et; [|discriminate].
    destruct (pack_B _) as [l|] eqn:Eb; cbn [bind] in Et; [|discriminate].
    apply pack_B_range in Eb. exists e. split; [reflexivity|lia].
Qed.

Lemma ClientGreeting_to_bytes_valid (g : ClientGreeting) (bs : list Z) :
  ClientGreeting_to_bytes g = Ok bs -> ClientGreeting_valid g.
Proof.
  unfold ClientGreeting_to_bytes, ClientGreeting_valid, raise.
  destruct (Z.eqb_spec (nmethods g) (Z.of_nat (length (methods g)))) as [Hn|Hn];
    cbn [negb]; [|discriminate].
  intros H. bind_inv H. apply pack_B_range in E0. split; [exact Hn|lia].
Qed.


(** X1: extra input is left unread. When [Message.from_stream],
    [ClientGreeting.from_stream] or [ServerGreeting.from_stream] reads a
    packet from a stream [s], reading from [s] followed by more bytes [e]
    gives the same packet and leaves [e] after the same rest. *)
Theorem from_stream_extra_input :
  (forall (s e r : stream) (request : bool) (m : Message),
     Message_from_stream s request = Ok (m, r) ->
     Message_from_stream (s ++ e) request = Ok (m, r ++ e)) /\
  (forall (s e r : stream) (g : ClientGreeting),
     ClientGreeting_from_stream s = Ok (g, r) ->
     ClientGreeting_from_stream (s ++ e) = Ok (g, r ++ e)) /\
  (forall (s e r : stream) (g : ServerGreeting),
     ServerGreeting_from_stream s = Ok (g, r) ->
     ServerGreeting_from_stream (s ++ e) = Ok (g, r ++ e)).
Proof.
  split; [|split]; intros s e r.
  - intros request m H. pose proof (Message_from_stream_ext s e request) as X.
    rewrite H in X. exact X.
  - intros g H. pose proof (ClientGreeting_from_stream_ext s e) as X.
    rewrite H in X. exact X.
  - intros g H. pose proof (ServerGreeting_from_stream_ext s e) as X.
    rewrite H in X. exact X.
Qed.

Lemma from_stream_extra_input_witness :
  Message_from_stream [5; 1; 0; 1; 127; 0; 0; 1; 0; 80] true
    = Ok (mkMessage SOCKS5 (Cmd CONNECT) IPV4 (s_ "127.0.0.1", 80), []) /\
  Message_from_stream ([5; 1; 0; 1; 127; 0; 0; 1; 0; 80] ++ [5; 1]) true
    = Ok (mkMessage SOCKS5 (Cmd CONNECT) IPV4 (s_ "127.0.0.1", 80), [] ++ [5; 1]).
Proof.
  assert (H : Message_from_stream [5; 1; 0; 1; 127; 0; 0; 1; 0; 80] true
    = Ok (mkMessage SOCKS5 (Cmd CONNECT) IPV4 (s_ "127.0.0.1", 80), [])).
  { vm_compute. reflexivity. }
  split; [exact H|].
  exact (proj1 from_stream_extra_input _ [5; 1] _ true _ H).
Defined.

(** X2: a truncated packet is a stream error. When a [from_stream]
    reads a packet from [p ++ t ++ rest] and leaves exactly [rest], then
    with a non-empty tail [t] cut off, reading from [p] alone fails with
    the stream's error ([read_all] runs out of bytes), never with another
    error or a packet. *)
Theorem from_stream_truncated :
  (forall (p t rest : stream) (request : bool) (m : Message),
     Message_from_stream (p ++ t ++ rest) request = Ok (m, rest) -> t <> [] ->
     Message_from_stream p request = Err StreamError) /\
  (forall (p t rest : stream) (g : ClientGreeting),
     ClientGreeting_from_stream (p ++ t ++ rest) = Ok (g, rest) -> t <> [] ->
     ClientGreeting_from_stream p = Err StreamError) /\
  (forall (p t rest : stream) (g : ServerGreeting),
     ServerGreeting_from_stream (p ++ t ++ rest) = Ok (g, rest) -> t <> [] ->
     ServerGreeting_from_stream p = Err StreamError).
Proof.
  split; [|split]; intros p t rest.
  - intros request m H Ht.
    exact (ext_truncated p t rest m _ _ (Message_from_stream_ext p (t ++ rest) request) H Ht).
  - intros g H Ht.
    exact (ext_truncated p t rest g _ _ (ClientGreeting_from_stream_ext p (t ++ rest)) H Ht).
  - intros g H Ht.
    exact (ext_truncated p t rest g _ _ (ServerGreeting_from_stream_ext p (t ++ rest)) H Ht).
Qed.

Lemma from_stream_truncated_witness :
  Message_from_stream ([5; 1; 0; 1; 127; 0; 0] ++ [1; 0; 80] ++ [42]) true
    = Ok (mkMessage SOCKS5 (Cmd CONNECT) IPV4 (s_ "127.0.0.1", 80), [42]) /\
  Message_from_stream [5; 1; 0; 1; 127; 0; 0] true = Err StreamError.
Proof.
  assert (H : Message_from_stream ([5; 1; 0; 1; 127; 0; 0] ++ [1; 0; 80] ++ [42]) true
    = Ok (mkMessage SOCKS5 (Cmd CONNECT) IPV4 (s_ "127.0.0.1", 80), [42])).
  { vm_compute. reflexivity. }
  split; [exact H|].
  exact (proj1 from_stream_truncated _ _ _ true _ H ltac:(discriminate)).
Defined.


(** X3: decoding then encoding. When [Message.from_stream],
    [ClientGreeting.from_stream] or [ServerGreeting.from_stream] reads a
    packet from a byte stream, [to_bytes] of that packet succeeds and gives
    back exactly the bytes that were read: the stream is those bytes
    followed by the rest left unread. *)
Theorem decoded_packets_reencode :
  (forall (s rest : stream) (request : bool) (m : Message),
     Forall (fun x => 0 <= x <= 255) s ->
     Message_from_stream s request = Ok (m, rest) ->
     exists bs, Message_to_bytes m = Ok bs /\ s = bs ++ rest) /\
  (forall (s rest : stream) (g : ClientGreeting),
     Forall (fun x => 0 <= x <= 255) s ->
     ClientGreeting_from_stream s = Ok (g, rest) ->
     exists bs, ClientGreeting_to_bytes g = Ok bs /\ s = bs ++ rest) /\
  (forall (s rest : stream) (g : ServerGreeting),
     ServerGreeting_from_stream s = Ok (g, rest) ->
     exists bs, ServerGreeting_to_bytes g = Ok bs /\ s = bs ++ rest).
Proof.
  split; [|split].
  - intros s rest request m. apply Message_from_stream_to_bytes.
  - intros s rest g. apply ClientGreeting_from_stream_to_bytes.
  - intros s rest g. apply ServerGreeting_from_stream_to_bytes.
Qed.

Lemma decoded_packets_reencode_witness :
  Message_from_stream [5; 1; 0; 3; 3; 97; 98; 99; 0; 80; 7] true
    = Ok (mkMessage SOCKS5 (Cmd CONNECT) DOMAINNAME (s_ "abc", 80), [7]) /\
  exists bs,
    Message_to_bytes (mkMessage SOCKS5 (Cmd CONNECT) DOMAINNAME (s_ "abc", 80))
      = Ok bs /\
    [5; 1; 0; 3; 3; 97; 98; 99; 0; 80; 7] = bs ++ [7].
Proof.
  assert (Hs : Forall (fun x => 0 <= x <= 255) [5; 1; 0; 3; 3; 97; 98; 99; 0; 80; 7]).
  { repeat (apply Forall_cons; [lia|]). apply Forall_nil. }
  assert (H : Message_from_stream [5; 1; 0; 3; 3; 97; 98; 99; 0; 80; 7] true
    = Ok (mkMessage SOCKS5 (Cmd CONNECT) DOMAINNAME (s_ "abc", 80), [7])).
  { vm_compute. reflexivity. }
  split; [exact H|].
  exact (proj1 decoded_packets_reencode _ _ true _ Hs H).
Defined.

(** X4: encoding then decoding a message. When [Message.to_bytes] succeeds,
    [Message.from_stream] (with the message's own request flag) reads the
    bytes back, leaves the rest of the stream unread, and gives the same
    version, command or reply, address type and port. The host is the
    same string for an IPv4 or domain-name address; for IPv6 it is the
    compressed text of the 16 bytes that [IPv6Address(host).packed]
    gave. *)
Theorem to_bytes_from_stream (m : Message) (bs rest : stream) :
  Message_to_bytes m = Ok bs ->
  exists host,
    Message_from_stream (bs ++ rest) (is_request m)
      = Ok (mkMessage (ver m) (msg m) (atype m) (host, snd (addr m)), rest) /\
    (atype m <> IPV6 -> host = fst (addr m)) /\
    (atype m = IPV6 ->
     exists b, ipv6_packed_of_str (fst (addr m)) = Ok b /\ host = ipv6_str_of_packed b).
Proof.
  intros H. destruct (atype m) eqn:Ea.
  1, 2:
    destruct (Message_roundtrip m (is_request m) rest) as (bs' & H' & Hd);
    [apply (to_bytes_valid m bs H); congruence|reflexivity|];
    rewrite H in H'; injection H' as <-;
    exists (fst (addr m)); split; [|split; [reflexivity|discriminate]];
    rewrite Hd; destruct m as [v mg a [host port]]; cbn in Ea |- *; subst a;
    reflexivity.
  destruct m as [v mg a [host port]]. cbn [ver msg atype addr fst snd] in *. subst a.
  pose proof H as H0. unfold Message_to_bytes in H0. cbn [atype addr ver msg] in H0.
  destruct (ipv6_packed_of_str host) as [b|] eqn:Eb; cbn [bind] in H0; [|discriminate].
  destruct (pack_H port) as [p|] eqn:Ep; cbn [bind] in H0; [|discriminate].
  destruct (ipv6_packed_length host b Eb) as [Hl Hb].
  set (m' := mkMessage v mg IPV6 (ipv6_str_of_packed b, port)).
  destruct (Message_roundtrip m' (is_request m') rest) as (bs' & H' & Hd).
  - split; [|exact (pack_H_range port p Ep)]. cbn. exists b. auto.
  - reflexivity.
  - exists (ipv6_str_of_packed b). split; [|split; [congruence|eauto]].
    replace bs with bs'; [exact Hd|].
    unfold Message_to_bytes in H'. subst m'. cbn [atype addr ver msg] in H'.
    rewrite ipv6_roundtrip, Ep in H' by assumption. cbn [bind] in H'. congruence.
Qed.

Lemma to_bytes_from_stream_witness :
  Message_to_bytes ipv6_loopback_request
    = Ok [5; 1; 0; 4; 0; 0; 0; 0; 0; 0; 0; 0; 0; 0; 0; 0; 0; 0; 0; 1; 1; 187] /\
  exists host,
    Message_from_stream
      ([5; 1; 0; 4; 0; 0; 0; 0; 0; 0; 0; 0; 0; 0; 0; 0; 0; 0; 0; 1; 1; 187] ++ [9])
      (is_request ipv6_loopback_request)
      = Ok (mkMessage (ver ipv6_loopback_request) (msg ipv6_loopback_request)
              (atype ipv6_loopback_request)
              (host, snd (addr ipv6_loopback_request)), [9]) /\
    (atype ipv6_loopback_request <> IPV6 -> host = fst (addr ipv6_loopback_request)) /\
    (atype ipv6_loopback_request = IPV6 ->
     exists b, ipv6_packed_of_str (fst (addr ipv6_loopback_request)) = Ok b /\
               host = ipv6_str_of_packed b).
Proof.
  assert (H : Message_to_bytes ipv6_loopback_request
    = Ok [5; 1; 0; 4; 0; 0; 0; 0; 0; 0; 0; 0; 0; 0; 0; 0; 0; 0; 0; 1; 1; 187]).
  { vm_compute. reflexivity. }
  split; [exact H|].
  exact (to_bytes_from_stream ipv6_loopback_request _ [9] H).
Defined.

(** X5: encoding then decoding a greeting. When [ClientGreeting.to_bytes]
    or [ServerGreeting.to_bytes] succeeds, the matching [from_stream] reads
    the bytes back as the same greeting and leaves the rest of the stream
    unread. *)
Theorem greetings_to_bytes_from_stream :
  (forall (g : ClientGreeting) (bs rest : stream),
     ClientGreeting_to_bytes g = Ok bs ->
     ClientGreeting_from_stream (bs ++ rest) = Ok (g, rest)) /\
  (forall (g : ServerGreeting) (bs rest : stream),
     ServerGreeting_to_bytes g = Ok bs ->
     ServerGreeting_from_stream (bs ++ rest) = Ok (g, rest)).
Proof.
  split; intros g bs rest H.
  - destruct (ClientGreeting_roundtrip g rest (ClientGreeting_to_bytes_valid g bs H))
      as (bs' & H' & Hd).
    rewrite H in H'. injection H' as <-. exact Hd.
  - destruct (ServerGreeting_roundtrip g rest) as (bs' & H' & Hd).
    rewrite H in H'. injection H' as <-. exact Hd.
Qed.

Lemma greetings_to_bytes_from_stream_witness :
  ClientGreeting_to_bytes
    (mkClientGreeting SOCKS5 2 [NO_AUTHENTICATION_REQUIRED; USERNAME_PASSWORD])
    = Ok [5; 2; 0; 2] /\
  ClientGreeting_from_stream ([5; 2; 0; 2] ++ [5; 0])
    = Ok (mkClientGreeting SOCKS5 2 [NO_AUTHENTICATION_REQUIRED; USERNAME_PASSWORD],
          [5; 0]).
Proof.
  assert (H : ClientGreeting_to_bytes
    (mkClientGreeting SOCKS5 2 [NO_AUTHENTICATION_REQUIRED; USERNAME_PASSWORD])
    = Ok [5; 2; 0; 2]) by reflexivity.
  split; [exact H|].
  exact (proj1 greetings_to_bytes_from_stream _ _ [5; 0] H).
Defined.

(** X6: what [Message.to_bytes] checks. When it succeeds, the port fits in
    16 bits, and a message with an IPv4 or domain-name address is valid:
    the IPv4 host is the dotted text of four bytes, and the domain name
    encodes to at most 255 UTF-8 bytes. *)
Theorem Message_to_bytes_checks (m : Message) (bs : list Z) :
  Message_to_bytes m = Ok bs ->
  0 <= snd (addr m) <= 65535 /\ (atype m <> IPV6 -> Message_valid m).
Proof.
  intros H. split; [|intros Ha; exact (to_bytes_valid m bs H Ha)].
  destruct m as [v mg a [host port]]. unfold Message_to_bytes in H.
  cbn [ver msg atype addr fst snd] in *.
  destruct (match a with DOMAINNAME => _ | IPV4 => _ | IPV6 => _ end) as [tl|];
    cbn [bind] in H; [|discriminate].
  destruct (pack_H port) as [p|] eqn:Ep; cbn [bind] in H; [|discriminate].
  exact (pack_H_range port p Ep).
Qed.

Lemma Message_to_bytes_checks_witness :
  Message_to_bytes www_request
    = Ok ([5; 1; 0; 3; 15] ++ s_ "www.example.com" ++ [0; 80]) /\
  0 <= snd (addr www_request) <= 65535 /\
  (atype www_request <> IPV6 -> Message_valid www_request).
Proof.
  assert (H : Message_to_bytes www_request
    = Ok ([5; 1; 0; 3; 15] ++ s_ "www.example.com" ++ [0; 80])).
  { vm_compute. reflexivity. }
  split; [exact H|].
  exact (Message_to_bytes_checks www_request _ H).
Defined.

(** X7: the IPv4 text that [IPv4Address(host).packed] accepts is
    canonical. When it gives bytes [b], these are four bytes, and the
    compressed text of [b] is [host] itself. *)
Theorem ipv4_text_canonical (host : pystr) (b : list Z) :
  ipv4_packed_of_str host = Ok b ->
  length b = 4%nat /\ Forall (fun x => 0 <= x <= 255) b /\
  ipv4_str_of_packed b = host.
Proof. intros H. exact (ipv4_packed_canonical host b H). Qed.

Lemma ipv4_text_canonical_witness :
  ipv4_packed_of_str (s_ "127.0.0.1") = Ok [127; 0; 0; 1] /\
  length [127; 0; 0; 1] = 4%nat /\ Forall (fun x => 0 <= x <= 255) [127; 0; 0; 1] /\
  ipv4_str_of_packed [127; 0; 0; 1] = s_ "127.0.0.1".
Proof.
  assert (H : ipv4_packed_of_str (s_ "127.0.0.1") = Ok [127; 0; 0; 1]).
  { vm_compute. reflexivity. }
  split; [exact H|].
  exact (ipv4_text_canonical (s_ "127.0.0.1") _ H).
Defined.

(** X8: the size of a packed IPv6 address. When [IPv6Address(host).packed]
    succeeds, it gives exactly 16 bytes. *)
Theorem ipv6_text_packed_size (host : pystr) (b : list Z) :
  ipv6_packed_of_str host = Ok b ->
  length b = 16%nat /\ Forall (fun x => 0 <= x <= 255) b.
Proof. intros H. exact (ipv6_packed_length host b H). Qed.

Lemma ipv6_text_packed_size_witness :
  ipv6_packed_of_str (s_ "::1")
    = Ok [0; 0; 0; 0; 0; 0; 0; 0; 0; 0; 0; 0; 0; 0; 0; 1] /\
  length [0; 0; 0; 0; 0; 0; 0; 0; 0; 0; 0; 0; 0; 0; 0; 1] = 16%nat /\
  Forall (fun x => 0 <= x <= 255) [0; 0; 0; 0; 0; 0; 0; 0; 0; 0; 0; 0; 0; 0; 0; 1].
Proof.
  assert (H : ipv6_packed_of_str (s_ "::1")
    = Ok [0; 0; 0; 0; 0; 0; 0; 0; 0; 0; 0; 0; 0; 0; 0; 1]).
  { vm_compute. reflexivity. }
  split; [exact H|].
  exact (ipv6_text_packed_size (s_ "::1") _ H).
Defined.

(** X9: packed bytes to text and back. For four bytes [b], parsing the
    compressed IPv4 text of [b] gives [b] back; for sixteen bytes, parsing
    the compressed IPv6 text gives [b] back. *)
Theorem ip_packed_text_roundtrip (b : list Z) :
  Forall (fun x => 0 <= x <= 255) b ->
  (length b = 4%nat -> ipv4_packed_of_str (ipv4_str_of_packed b) = Ok b) /\
  (length b = 16%nat -> ipv6_packed_of_str (ipv6_str_of_packed b) = Ok b).
Proof.
  intros Hb. split; intros Hl.
  - destruct b as [|b0 [|b1 [|b2 [|b3 [|]]]]]; cbn in Hl; try discriminate.
    bytes_of_list Hb. apply ipv4_roundtrip; assumption.
  - exact (ipv6_roundtrip b Hl Hb).
Qed.

Lemma ip_packed_text_roundtrip_witness :
  Forall (fun x => 0 <= x <= 255) [192; 168; 0; 255] /\
  (length [192; 168; 0; 255] = 4%nat ->
   ipv4_packed_of_str (ipv4_str_of_packed [192; 168; 0; 255]) = Ok [192; 168; 0; 255]) /\
  (length [192; 168; 0; 255] = 16%nat ->
   ipv6_packed_of_str (ipv6_str_of_packed [192; 168; 0; 255]) = Ok [192; 168; 0; 255]).
Proof.
  assert (Hb : Forall (fun x => 0 <= x <= 255) [192; 168; 0; 255]).
  { repeat (apply Forall_cons; [lia|]). apply Forall_nil. }
  split; [exact Hb|].
  exact (ip_packed_text_roundtrip _ Hb).
Defined.

(** X10: strict UTF-8. When [bytes.decode()] accepts a byte string,
    [str.encode()] of the decoded text succeeds and gives the same bytes
    back. *)
Theorem utf8_decode_then_encode (bs : list Z) (h : pystr) :
  Forall (fun x => 0 <= x <= 255) bs -> utf8_decode bs = Ok h ->
  utf8_encode h = Ok bs.
Proof. intros Hb Hd. exact (utf8_decode_encode bs h Hb Hd). Qed.

Lemma utf8_decode_then_encode_witness :
  Forall (fun x => 0 <= x <= 255) [104; 195; 169; 226; 130; 172] /\
  utf8_decode [104; 195; 169; 226; 130; 172] = Ok [104; 233; 8364] /\
  utf8_encode [104; 233; 8364] = Ok [104; 195; 169; 226; 130; 172].
Proof.
  assert (Hb : Forall (fun x => 0 <= x <= 255) [104; 195; 169; 226; 130; 172]).
  { repeat (apply Forall_cons; [lia|]). apply Forall_nil. }
  assert (Hd : utf8_decode [104; 195; 169; 226; 130; 172] = Ok [104; 233; 8364]).
  { vm_compute. reflexivity. }
  split; [exact Hb|]. split; [exact Hd|].
  exact (utf8_decode_then_encode _ _ Hb Hd).
Defined.

(** ** Codecs: lookups in the alphabets *)

Lemma find_absent (t : list Z) (c : Z) : ~ In c t -> find t c = -1.
Proof.
  induction t as [|x t IH]; intros H; [reflexivity|]. cbn [find].
  destruct (Z.eqb_spec x c) as [->|]; [exfalso; apply H; now left|].
  rewrite IH by (intros Hc; apply H; now right). reflexivity.
Qed.

Lemma a2b_value_absent (c : Z) : ~ In c b64_alphabet -> a2b_value c = 255.
Proof. intros H. unfold a2b_value. rewrite (find_absent _ _ H). reflexivity. Qed.

Lemma b64_alpha_value (c : Z) :
  In c b64_alphabet -> c <> 61 /\ 0 <= a2b_value c < 64.
Proof.
  intros H. unfold b64_alphabet in H. cbn in H.
  repeat (destruct H as [<-|H];
    [split; [discriminate|];
     match goal with |- 0 <= a2b_value ?c < 64 =>
       let v := eval vm_compute in (a2b_value c) in change (a2b_value c) with v
     end; lia|]).
  destruct H.
Qed.

Lemma a2b_skip (x y : list Z) (c : Z) :
  ~ In c b64_alphabet -> c <> 61 ->
  forall q lc p,
  a2b_base64_loop (x ++ c :: y) q lc p = a2b_base64_loop (x ++ y) q lc p.
Proof.
  intros Hc Hc61. induction x as [|h x IH]; intros q lc p.
  - cbn [app a2b_base64_loop]. rewrite (proj2 (Z.eqb_neq c 61) Hc61).
    rewrite (a2b_value_absent c Hc). reflexivity.
  - cbn [app a2b_base64_loop]. rewrite !IH. reflexivity.
Qed.

Lemma a2b_alpha (s : list Z) :
  Forall (fun c => In c b64_alphabet) s ->
  forall q lc p, 0 <= q <= 3 ->
  ((q + Z.of_nat (length s)) mod 4 <> 0 -> a2b_base64_loop s q lc p = Err BinasciiError) /\
  ((q + Z.of_nat (length s)) mod 4 = 0 -> exists d, a2b_base64_loop s q lc p = Ok d /\
     Z.of_nat (length d)
       = Z.of_nat (length s) - ((q + Z.of_nat (length s) + 3) / 4 - (q + 3) / 4)).
Proof.
  induction 1 as [|ch s Hch Hs IH]; intros q lc p Hq.
  - cbn [a2b_base64_loop length]. split.
    + intros H. destruct (Z.eqb_spec q 0); [subst; cbn in H; congruence|reflexivity].
    + intros H. assert (q = 0) by zlia. subst. exists []. split; reflexivity.
  - destruct (b64_alpha_value ch Hch) as [H61 Hv].
    cbn [a2b_base64_loop]. rewrite (proj2 (Z.eqb_neq ch 61) H61).
    rewrite (proj2 (Z.leb_gt 64 (a2b_value ch))) by lia.
    rewrite length_cons, Nat2Z.inj_succ.
    assert (Hq4 : q = 0 \/ q = 1 \/ q = 2 \/ q = 3) by lia.
    destruct Hq4 as [-> | [-> | [-> | ->]]]; cbn [Z.eqb].
    + destruct (IH 1 (a2b_value ch) 0 ltac:(lia)) as [E O].
      split; [intros H; apply E; zlia|].
      intros H. destruct (O ltac:(zlia)) as (d & Ed & Ld). exists d. split; [exact Ed|zlia].
    + destruct (IH 2 (Z.land (a2b_value ch) 15) 0 ltac:(lia)) as [E O].
      split; [intros H; rewrite E by zlia; reflexivity|].
      intros H. destruct (O ltac:(zlia)) as (d & Ed & Ld). rewrite Ed.
      eexists. split; [reflexivity|]. rewrite length_cons, Nat2Z.inj_succ. zlia.
    + destruct (IH 3 (Z.land (a2b_value ch) 3) 0 ltac:(lia)) as [E O].
      split; [intros H; rewrite E by zlia; reflexivity|].
      intros H. destruct (O ltac:(zlia)) as (d & Ed & Ld). rewrite Ed.
      eexists. split; [reflexivity|]. rewrite length_cons, Nat2Z.inj_succ. zlia.
    + destruct (IH 0 0 0 ltac:(lia)) as [E O].
      split; [intros H; rewrite E by zlia; reflexivity|].
      intros H. destruct (O ltac:(zlia)) as (d & Ed & Ld). rewrite Ed.
      eexists. split; [reflexivity|]. rewrite length_cons, Nat2Z.inj_succ. zlia.
Qed.

Lemma contains_In (c : Z) (l : list Z) : contains c l = true <-> In c l.
Proof.
  unfold contains. rewrite existsb_exists. split.
  - intros (x & Hx & E). apply Z.eqb_eq in E. now subst.
  - intros H. exists c. split; [exact H|apply Z.eqb_refl].
Qed.

Lemma b16_alpha_digit (c : Z) : In c b16_alphabet -> exists x, digit_value 16 c = Some x.
Proof.
  intros H. unfold b16_alphabet in H. cbn in H.
  repeat (destruct H as [<-|H]; [eexists; reflexivity|]). destruct H.
Qed.

Lemma unhexlify_err (s : list Z) (e : error) : unhexlify s = Err e -> e = BinasciiError.
Proof.
  remember (length s) as n eqn:Hn. revert s Hn.
  induction n as [n IH] using lt_wf_ind. intros s -> H.
  destruct s as [|a [|b r]]; cbn [unhexlify] in H; try discriminate.
  - injection H as <-. reflexivity.
  - destruct (digit_value 16 a), (digit_value 16 b); try (injection H as <-; reflexivity).
    destruct (unhexlify r) eqn:Er; cbn [bind] in H; [discriminate|].
    injection H as <-. apply (IH (length r) ltac:(cbn; lia) r eq_refl Er).
Qed.

Lemma unhexlify_ok (s d : list Z) : unhexlify s = Ok d -> length s = (2 * length d)%nat.
Proof.
  remember (length s) as n eqn:Hn. revert s d Hn.
  induction n as [n IH] using lt_wf_ind. intros s d -> H.
  destruct s as [|a [|b r]]; cbn [unhexlify] in H; try discriminate.
  - injection H as <-. reflexivity.
  - destruct (digit_value 16 a), (digit_value 16 b); try discriminate.
    destruct (unhexlify r) as [d'|] eqn:Er; cbn [bind] in H; [|discriminate].
    injection H as <-. cbn [length].
    rewrite (IH (length r) ltac:(cbn; lia) r d' eq_refl Er). lia.
Qed.

Lemma unhexlify_alpha (s : list Z) :
  Forall (fun c => In c b16_alphabet) s -> Nat.Even (length s) ->
  exists d, unhexlify s = Ok d.
Proof.
  remember (length s) as n eqn:Hn. revert s Hn.
  induction n as [n IH] using lt_wf_ind. intros s -> Hs He.
  destruct s as [|a [|b r]].
  - exists []. reflexivity.
  - destruct He as [k Hk]. cbn in Hk. lia.
  - inversion Hs as [|? ? Ha Hs1]; subst. inversion Hs1 as [|? ? Hb Hr]; subst.
    destruct (b16_alpha_digit a Ha) as [x Ex]. destruct (b16_alpha_digit b Hb) as [y Ey].
    destruct (IH (length r) ltac:(cbn; lia) r eq_refl Hr) as [d Ed].
    { destruct He as [k Hk]. exists (k - 1)%nat. cbn in Hk. lia. }
    cbn [unhexlify]. rewrite Ex, Ey, Ed. eexists. reflexivity.
Qed.

Lemma b16encode_cons (b : Z) (r : list Z) :
  b16encode (b :: r) =
  ascii_upper (at_ hexlify_lower (Z.shiftr b 4))
  :: ascii_upper (at_ hexlify_lower (Z.land b 15)) :: b16encode r.
Proof. reflexivity. Qed.



Ltac nat_lit n := lazymatch n with O => idtac | S ?m => nat_lit m end.

(** [lia] for goals over [nat] with [/] and [mod] by constants. *)
Ltac nlia :=
  repeat match goal with
  | H : @eq nat _ _ |- _ => apply (f_equal Z.of_nat) in H
  | H : (_ <= _)%nat |- _ => apply Nat2Z.inj_le in H
  | H : (_ < _)%nat |- _ => apply Nat2Z.inj_lt in H
  end;
  first
    [ apply Nat2Z.inj | apply (proj2 (Nat2Z.inj_le _ _))
    | apply (proj2 (Nat2Z.inj_lt _ _)) | idtac ];
  repeat first
    [ progress rewrite ?Nat2Z.inj_mod, ?Nat2Z.inj_div, ?Nat2Z.inj_add,
        ?Nat2Z.inj_mul, ?Nat2Z.inj_sub_max in *
    | match goal with
      | H : context [Z.of_nat (S ?n)] |- _ =>
          tryif nat_lit n then fail else rewrite (Nat2Z.inj_succ n) in H
      | |- context [Z.of_nat (S ?n)] =>
          tryif nat_lit n then fail else rewrite (Nat2Z.inj_succ n)
      end ];
  cbn [Z.of_nat Pos.of_succ_nat Pos.succ] in *; zlia.

Lemma at_In (t : list Z) (i : Z) :
  0 <= i < Z.of_nat (length t) -> In (at_ t i) t.
Proof. intros Hi. unfold at_. apply nth_In. lia. Qed.

Lemma b64_at_In (i : Z) : 0 <= i < 64 -> In (at_ b64_alphabet i) b64_alphabet.
Proof. intros Hi. apply at_In. exact Hi. Qed.

Lemma b64encode_groups (n : nat) (d : list Z) :
  (length d <= n)%nat -> Forall (fun b => 0 <= b <= 255) d ->
  exists body,
    b64encode d = body ++ repeat 61 ((3 - length d mod 3) mod 3) /\
    Forall (fun c => In c b64_alphabet) body /\
    length (b64encode d) = (4 * ((length d + 2) / 3))%nat.
Proof.
  revert d. induction n as [|n IH]; intros d Hn Hd.
  - destruct d; [|cbn in Hn; lia]. exists []. repeat split; constructor.
  - destruct d as [|a [|b [|c r]]].
    + exists []. repeat split; constructor.
    + inversion Hd as [|? ? Ha _]; subst.
      exists [at_ b64_alphabet (Z.shiftr a 2); at_ b64_alphabet (Z.shiftl (Z.land a 3) 4)].
      split; [reflexivity|]. split; [|reflexivity].
      repeat (apply Forall_cons; [apply b64_at_In; bits_to_arith; zlia|]).
      apply Forall_nil.
    + inversion Hd as [|? ? Ha Hd']; inversion Hd' as [|? ? Hb _]; subst.
      exists [at_ b64_alphabet (Z.shiftr a 2);
              at_ b64_alphabet (Z.lor (Z.shiftl (Z.land a 3) 4) (Z.shiftr b 4));
              at_ b64_alphabet (Z.shiftl (Z.land b 15) 2)].
      split; [reflexivity|]. split; [|reflexivity].
      repeat (apply Forall_cons; [apply b64_at_In; bits_to_arith; zlia|]).
      apply Forall_nil.
    + inversion Hd as [|? ? Ha Hd1]; inversion Hd1 as [|? ? Hb Hd2];
        inversion Hd2 as [|? ? Hc Hr]; subst.
      destruct (IH r ltac:(cbn in Hn; lia) Hr) as (body & E & Hbody & Hl).
      exists (at_ b64_alphabet (Z.shiftr a 2)
              :: at_ b64_alphabet (Z.lor (Z.shiftl (Z.land a 3) 4) (Z.shiftr b 4))
              :: at_ b64_alphabet (Z.lor (Z.shiftl (Z.land b 15) 2) (Z.shiftr c 6))
              :: at_ b64_alphabet (Z.land c 63) :: body).
      change (b64encode (a :: b :: c :: r)) with
        (at_ b64_alphabet (Z.shiftr a 2)
         :: at_ b64_alphabet (Z.lor (Z.shiftl (Z.land a 3) 4) (Z.shiftr b 4))
         :: at_ b64_alphabet (Z.lor (Z.shiftl (Z.land b 15) 2) (Z.shiftr c 6))
         :: at_ b64_alphabet (Z.land c 63) :: b64encode r).
      cbn [length]. split; [|split].
      * rewrite E. replace (S (S (S (length r))) mod 3)%nat with (length r mod 3)%nat
          by nlia. reflexivity.
      * repeat (apply Forall_cons; [apply b64_at_In; bits_to_arith; zlia|]).
        exact Hbody.
      * cbn [length]. rewrite Hl. nlia.
Qed.

Lemma index_In (t : list Z) (i x : Z) : index t i = Ok x -> In x t.
Proof.
  unfold index, raise. destruct (i <? 0); [discriminate|].
  destruct (nth_error t (Z.to_nat i)) as [y|] eqn:E; [|discriminate].
  intros H. injection H as <-. exact (nth_error_In _ _ E).
Qed.

Lemma xx_encode_groups_shape (table : list Z) (n : nat) (data chars : list Z) :
  (length data <= n)%nat ->
  xx_encode_groups table data = Ok chars ->
  (length data mod 3 = 0)%nat /\ length chars = (4 * (length data / 3))%nat /\
  Forall (fun c => In c table) chars.
Proof.
  revert data chars. induction n as [|n IH]; intros data chars Hn H.
  - destruct data; [|cbn in Hn; lia]. cbn in H. injection H as <-.
    repeat split; constructor.
  - destruct data as [|a [|b [|c r]]]; try discriminate.
    + cbn in H. injection H as <-. repeat split; constructor.
    + cbn [xx_encode_groups] in H.
      destruct (negb _); [discriminate|].
      bind_inv H. injection H as <-.
      destruct (IH r _ ltac:(cbn in Hn; lia) E3) as (Hm & Hl & Hf).
      cbn [length]. split; [|split].
      * nlia.
      * cbn [length]. rewrite Hl. nlia.
      * bind_inv E. bind_inv E0. bind_inv E1. bind_inv E2.
        repeat (apply Forall_cons; [eapply index_In; eassumption|]). exact Hf.
Qed.

Lemma Forall_firstn' {A} (P : A -> Prop) (n : nat) (l : list A) :
  Forall P l -> Forall P (firstn n l).
Proof.
  intros H. rewrite <- (firstn_skipn n l) in H. now apply Forall_app in H as [H _].
Qed.

Lemma Forall_at_In (t qs : list Z) :
  Forall (fun q => 0 <= q < Z.of_nat (length t)) qs ->
  Forall (fun c => In c t) (map (at_ t) qs).
Proof.
  intros H. apply Forall_map. eapply Forall_impl; [|exact H].
  intros q Hq. now apply at_In.
Qed.

Lemma b32_quanta_shape (n : nat) (s : list Z) :
  (length s <= n)%nat -> Forall (fun b => 0 <= b <= 255) s ->
  length (b32_quanta s) = (8 * (length s / 5))%nat /\
  Forall (fun c => In c b32_alphabet) (b32_quanta s).
Proof.
  revert s. induction n as [|n IH]; intros s Hn Hs.
  - destruct s; [|cbn in Hn; lia]. split; [reflexivity|constructor].
  - destruct s as [|a [|b [|c [|d [|e r]]]]];
      try (split; [reflexivity|constructor]).
    inversion Hs as [|? ? Ha Hs1]; inversion Hs1 as [|? ? Hb Hs2];
      inversion Hs2 as [|? ? Hc Hs3]; inversion Hs3 as [|? ? Hd Hs4];
      inversion Hs4 as [|? ? He Hr]; subst.
    rewrite b32_quanta_cons by assumption.
    destruct (IH r ltac:(cbn in Hn; lia) Hr) as [Hl Hf].
    split.
    + rewrite length_app, length_map, Hl. cbn [length b32_digits]. nlia.
    + apply Forall_app. split; [|exact Hf].
      apply Forall_at_In. eapply Forall_impl; [|apply b32_digits_range].
      intros q Hq. cbv beta in *. change (Z.of_nat (length b32_alphabet)) with 32. lia.
Qed.

Lemma pad_tail_shape (t : list Z) (p : nat) (e : list Z) :
  (p <= length e)%nat -> Forall (fun c => In c t) e ->
  Forall (fun c => In c t) (firstn (length e - p) e) /\
  pad_tail p e = firstn (length e - p) e ++ repeat 61 p /\
  length (pad_tail p e) = length e.
Proof.
  intros Hp He. split; [now apply Forall_firstn'|]. split; [reflexivity|].
  unfold pad_tail. rewrite length_app, length_firstn, repeat_length. lia.
Qed.

Lemma b85_chunks_shape (n : nat) (s : list Z) :
  (length s <= n)%nat -> Forall (fun b => 0 <= b <= 255) s ->
  length (b85_chunks s) = (length s / 4)%nat /\ Forall chunk5_ok (b85_chunks s).
Proof.
  revert s. induction n as [|n IH]; intros s Hn Hs.
  - destruct s; [|cbn in Hn; lia]. split; [reflexivity|constructor].
  - destruct s as [|a [|b [|c [|d r]]]]; try (split; [reflexivity|constructor]).
    inversion Hs as [|? ? Ha Hs1]; inversion Hs1 as [|? ? Hb Hs2];
      inversion Hs2 as [|? ? Hc Hs3]; inversion Hs3 as [|? ? Hd Hr]; subst.
    destruct (IH r ltac:(cbn in Hn; lia) Hr) as [Hl Hf].
    cbn [b85_chunks]. cbv zeta. rewrite b85_chunk_digits.
    split.
    + cbn [length]. rewrite Hl. nlia.
    + constructor; [|exact Hf]. split; [reflexivity|].
      apply Forall_at_In.
      pose proof (from_bytes4 a b c d Ha Hb Hc Hd) as Hw.
      set (w := from_bytes [a; b; c; d]) in *.
      change (Z.of_nat (length b85_alphabet)) with 85.
      repeat constructor; zlia.
Qed.

Lemma concat_chunk5 (l : list (list Z)) :
  Forall chunk5_ok l ->
  length (concat l) = (5 * length l)%nat /\
  Forall (fun c => In c b85_alphabet) (concat l).
Proof.
  induction 1 as [|ch l [Hl Hf] _ [IHl IHf]]; [split; [reflexivity|constructor]|].
  cbn [concat length]. rewrite length_app, Hl, IHl. split; [lia|].
  now apply Forall_app.
Qed.


Section Reject.
Variable fnd : Z -> Z.
Variable E : error.
Variable f : Z -> Z -> Z.

Let lookup_step (acc : result Z) (c : Z) : result Z :=
  a <- acc ;;
  let v := fnd c in
  if v =? -1 then raise E else Ok (f a v).

Lemma fold_lookup_Err (q : list Z) (e : error) :
  fold_left lookup_step q (Err e) = Err e.
Proof. induction q as [|c q IH]; [reflexivity|]. exact IH. Qed.

Lemma fold_lookup_reject (q : list Z) (c : Z) :
  In c q -> fnd c = -1 -> forall a, fold_left lookup_step q (Ok a) = Err E.
Proof.
  intros Hin Hc. induction q as [|x q IH]; [destruct Hin|]; intros a.
  cbn [fold_left]. destruct Hin as [->|Hin].
  - unfold lookup_step at 2. cbn [bind]. rewrite Hc. cbn. apply fold_lookup_Err.
  - unfold lookup_step at 2. cbn [bind].
    destruct (fnd x =? -1); [apply fold_lookup_Err|apply IH; exact Hin].
Qed.

Lemma fold_lookup_err (q : list Z) (a : Z) (e : error) :
  fold_left lookup_step q (Ok a) = Err e -> e = E.
Proof.
  revert a. induction q as [|x q IH]; intros a H; [discriminate|].
  cbn [fold_left] in H. unfold lookup_step at 2 in H. cbn [bind] in H.
  destruct (fnd x =? -1).
  - rewrite fold_lookup_Err in H. congruence.
  - exact (IH _ H).
Qed.
End Reject.

Lemma mapM_reject {A B} (g : A -> result B) (E : error) (l : list A) (x : A) :
  (forall y e, g y = Err e -> e = E) -> In x l -> g x = Err E -> mapM g l = Err E.
Proof.
  intros Hg Hin Hx. induction l as [|y l IH]; [destruct Hin|].
  cbn [mapM]. destruct Hin as [->|Hin].
  - rewrite Hx. reflexivity.
  - destruct (g y) as [b|e] eqn:Ey; cbn [bind].
    + rewrite (IH Hin). reflexivity.
    + rewrite (Hg _ _ Ey). reflexivity.
Qed.

Lemma concat_chunks5 (n : nat) (l : list Z) :
  (length l <= n)%nat -> concat (chunks5 l) = l.
Proof.
  revert l. induction n as [|n IH]; intros l Hn.
  - destruct l; [reflexivity|cbn in Hn; lia].
  - destruct l as [|a [|b [|c [|d [|e r]]]]]; try reflexivity.
    cbn [chunks5 concat]. rewrite IH by (cbn in Hn; lia). reflexivity.
Qed.

Lemma concat_chunks8 (n : nat) (l : list Z) :
  (length l <= n)%nat -> concat (chunks8 l) = l.
Proof.
  revert l. induction n as [|n IH]; intros l Hn.
  - destruct l; [reflexivity|cbn in Hn; lia].
  - destruct l as [|a [|b [|c [|d [|e [|f [|g [|h r]]]]]]]];
      try (cbn; now rewrite ?app_nil_r).
    cbn [chunks8 concat]. rewrite IH by (cbn in Hn; lia). reflexivity.
Qed.

Lemma In_chunk {A} (c : A) (ls : list (list A)) :
  In c (concat ls) -> exists q, In q ls /\ In c q.
Proof. intros H. apply in_concat in H as (q & Hq & Hc). now exists q. Qed.

Lemma b85_decode_chunk_err (ch : list Z) (e : error) :
  b85_decode_chunk ch = Err e -> e = ValueError.
Proof.
  unfold b85_decode_chunk.
  destruct (fold_left _ ch (Ok 0)) as [a|e'] eqn:Ef; cbn [bind].
  - unfold raise. destruct (4294967295 <? a); congruence.
  - intros [= <-].
    exact (fold_lookup_err (find b85_alphabet) ValueError (fun a v => a * 85 + v)
             ch 0 e' Ef).
Qed.

Lemma skip_while_In (g : Z -> bool) (l : list Z) (c : Z) :
  In c l -> g c = false -> In c (skip_while g l).
Proof.
  intros Hin Hg. induction l as [|x l IH]; [destruct Hin|]. cbn [skip_while].
  destruct Hin as [->|Hin].
  - rewrite Hg. now left.
  - destruct (g x); [exact (IH Hin)|now right].
Qed.

Lemma rstrip_pad_In (s : list Z) (c : Z) :
  In c s -> c <> 61 -> In c (rstrip_pad s).
Proof.
  intros Hin Hc. unfold rstrip_pad. apply (proj1 (in_rev _ _)).
  apply skip_while_In; [exact (proj1 (in_rev s c) Hin)|]. now apply Z.eqb_neq.
Qed.

Lemma b32_decode_quanta_reject (qs : list (list Z)) (q : list Z) (c acc : Z) :
  In q qs -> In c q -> ~ In c b32_alphabet ->
  b32_decode_quanta qs acc = Err BinasciiError.
Proof.
  intros Hq Hcq Hc. revert acc. induction qs as [|q' qs IH]; intros acc; [destruct Hq|].
  rewrite b32_decode_quanta_cons.
  destruct Hq as [->|Hq].
  - pose proof (fold_lookup_reject (find b32_alphabet) BinasciiError
                  (fun a v => Z.shiftl a 5 + v) q c Hcq (find_absent _ _ Hc) 0) as R.
    cbv beta in R. rewrite R. reflexivity.
  - pose proof (fold_lookup_err (find b32_alphabet) BinasciiError
                  (fun a v => Z.shiftl a 5 + v) q' 0) as R.
    cbv beta in R.
    destruct (fold_left _ q' (Ok 0)) as [a|e] eqn:Ef; cbn [bind].
    + rewrite (IH Hq a). reflexivity.
    + rewrite (R e eq_refl). reflexivity.
Qed.

Lemma find_range (t : list Z) (b : Z) : -1 <= find t b < Z.of_nat (length t).
Proof.
  induction t as [|x t IH]; cbn [find length]; [lia|].
  destruct (x =? b); [lia|].
  destruct (Z.eqb_spec (find t b) (-1)); lia.
Qed.

Lemma digits_fold_reject (base : Z) (s : list Z) (c : Z) :
  In c s -> digit_value base c = None -> forall a,
  fold_left
    (fun acc c =>
       a <- acc ;;
       match digit_value base c with
       | Some d => Ok (a * base + d)
       | None => raise ValueError
       end) s (Ok a) = Err ValueError.
Proof.
  intros Hin Hc. induction s as [|x s IH]; [destruct Hin|]; intros a.
  cbn [fold_left bind]. destruct Hin as [->|Hin].
  - rewrite Hc. apply int_fold_err.
  - destruct (digit_value base x); [apply IH; exact Hin|apply int_fold_err].
Qed.

Lemma digits_fold_err (base : Z) (s : list Z) (a : Z) (e : error) :
  fold_left
    (fun acc c =>
       a <- acc ;;
       match digit_value base c with
       | Some d => Ok (a * base + d)
       | None => raise ValueError
       end) s (Ok a) = Err e -> e = ValueError.
Proof.
  revert a. induction s as [|x s IH]; intros a H; [discriminate|].
  cbn [fold_left bind] in H. destruct (digit_value base x).
  - exact (IH _ H).
  - rewrite int_fold_err in H. congruence.
Qed.

Lemma bit2byte_err (bits : pystr) (e : error) : bit2byte bits = Err e -> e = ValueError.
Proof.
  unfold bit2byte, int_of_digits. destruct bits as [|x r].
  - intros [= <-]. reflexivity.
  - apply digits_fold_err.
Qed.

Lemma bit2byte_reject (bits : pystr) :
  In 98 bits -> bit2byte bits = Err ValueError.
Proof.
  intros Hin. unfold bit2byte, int_of_digits. destruct bits as [|x r]; [destruct Hin|].
  apply (digits_fold_reject 2 (x :: r) 98 Hin eq_refl).
Qed.

Section XxReject.
Variable table : list Z.
Hypothesis Hlen : (length table <= 256)%nat.

Lemma xx_char_bits (b : Z) : length (skipn 2 (byte2bit (find table b))) = 6%nat.
Proof.
  pose proof (find_range table b) as Hr.
  destruct (Z.eqb_spec (find table b) (-1)) as [->|Hn]; [reflexivity|].
  rewrite length_skipn, (proj1 (byte_bits (find table b) ltac:(lia))). reflexivity.
Qed.

Lemma xx_bits_length (data : list Z) :
  length (flat_map (fun b => skipn 2 (byte2bit (find table b))) data)
  = (6 * length data)%nat.
Proof.
  induction data as [|b data IH]; [reflexivity|].
  cbn [flat_map length]. rewrite length_app, IH, xx_char_bits. lia.
Qed.
End XxReject.

Lemma a2b_filter (s : list Z) :
  forall q lc p,
  a2b_base64_loop s q lc p =
  a2b_base64_loop (filter (fun c => contains c b64_alphabet || (c =? 61)) s) q lc p.
Proof.
  induction s as [|c s IH]; intros q lc p; [reflexivity|].
  cbn [filter].
  destruct (contains c b64_alphabet || (c =? 61)) eqn:Ek.
  - cbn [a2b_base64_loop]. rewrite !IH. reflexivity.
  - apply orb_false_iff in Ek as [Ea E61].
    assert (Hc : ~ In c b64_alphabet) by (rewrite <- contains_In; congruence).
    rewrite <- IH. exact (a2b_skip [] s c Hc (proj1 (Z.eqb_neq c 61) E61) q lc p).
Qed.


(** X11: [base64.b64decode] without [validate] discards every character
    that is neither in the Base64 alphabet nor the pad [=]: decoding [s]
    gives the same result, value or error, as decoding [s] with those
    characters removed. *)
Theorem b64decode_ignores_foreign (s : list Z) :
  b64decode s =
  b64decode (filter (fun c => contains c b64_alphabet || (c =? 61)) s).
Proof. unfold b64decode. apply a2b_filter. Qed.

(** X12: [base64.b64decode] of text made only of Base64 alphabet characters
    (no pad) fails with [binascii.Error] when the length is not a multiple
    of 4, and otherwise returns three bytes per four characters. *)
Theorem b64decode_unpadded (s : list Z) :
  Forall (fun c => In c b64_alphabet) s ->
  ((length s mod 4 <> 0)%nat -> b64decode s = Err BinasciiError) /\
  ((length s mod 4 = 0)%nat ->
   exists d, b64decode s = Ok d /\ length d = (3 * (length s / 4))%nat).
Proof.
  intros Hs. destruct (a2b_alpha s Hs 0 0 0 ltac:(lia)) as [E O]. split.
  - intros H. apply E. intros H'. apply H. apply Nat2Z.inj.
    rewrite Nat2Z.inj_mod. cbn. zlia.
  - intros H. destruct O as (d & Ed & Ld).
    + apply (f_equal Z.of_nat) in H. rewrite Nat2Z.inj_mod in H. cbn in H. zlia.
    + exists d. split; [exact Ed|]. apply Nat2Z.inj. rewrite Nat2Z.inj_mul, Nat2Z.inj_div.
      apply (f_equal Z.of_nat) in H. rewrite Nat2Z.inj_mod in H. cbn [Z.of_nat Pos.of_succ_nat Pos.succ] in H |- *. zlia.
Qed.

Lemma b64decode_unpadded_witness :
  Forall (fun c => In c b64_alphabet) (s_ "QUJDRA") /\
  ((length (s_ "QUJDRA") mod 4 <> 0)%nat ->
   b64decode (s_ "QUJDRA") = Err BinasciiError) /\
  ((length (s_ "QUJDRA") mod 4 = 0)%nat ->
   exists d, b64decode (s_ "QUJDRA") = Ok d /\
             length d = (3 * (length (s_ "QUJDRA") / 4))%nat).
Proof.
  assert (Hs : Forall (fun c => In c b64_alphabet) (s_ "QUJDRA")).
  { change (s_ "QUJDRA") with [81; 85; 74; 68; 82; 65].
    repeat (apply Forall_cons; [apply contains_In; reflexivity|]).
    apply Forall_nil. }
  split; [exact Hs|].
  exact (b64decode_unpadded _ Hs).
Defined.

(** X13: [base64.b16decode] succeeds only on text made of the characters
    [0-9A-F], and then returns one byte per two characters; every such text
    of even length is accepted; and its only error is [binascii.Error]. *)
Theorem b16decode_accepts (s : list Z) :
  (forall d, b16decode s = Ok d ->
     Forall (fun c => In c b16_alphabet) s /\ length s = (2 * length d)%nat) /\
  (Forall (fun c => In c b16_alphabet) s -> Nat.Even (length s) ->
     exists d, b16decode s = Ok d) /\
  (forall e, b16decode s = Err e -> e = BinasciiError).
Proof.
  unfold b16decode.
  destruct (existsb (fun c => negb (contains c b16_alphabet)) s) eqn:Ex.
  - apply existsb_exists in Ex as (c & Hc & Hn). apply negb_true_iff in Hn.
    split; [discriminate|]. split; [|intros e H; injection H as <-; reflexivity].
    intros Hs. rewrite Forall_forall in Hs. apply Hs, contains_In in Hc. congruence.
  - assert (Hs : Forall (fun c => In c b16_alphabet) s).
    { apply Forall_forall. intros c Hc. apply contains_In.
      destruct (contains c b16_alphabet) eqn:E; [reflexivity|].
      assert (existsb (fun c => negb (contains c b16_alphabet)) s = true)
        by (apply existsb_exists; exists c; rewrite E; auto).
      congruence. }
    split; [intros d Hd; split; [exact Hs|now apply unhexlify_ok]|].
    split; [intros _ He; now apply unhexlify_alpha|apply unhexlify_err].
Qed.

(** X14: [base64.b16encode] of a byte string writes two characters per
    byte, all of them in [0-9A-F]. *)
Theorem b16encode_shape (d : list Z) :
  Forall (fun b => 0 <= b <= 255) d ->
  length (b16encode d) = (2 * length d)%nat /\
  Forall (fun c => In c b16_alphabet) (b16encode d).
Proof.
  induction 1 as [|b d Hb Hd IH]; [split; [reflexivity|constructor]|].
  destruct (b16_byte b Hb) as (H1 & H2 & _).
  rewrite b16encode_cons. destruct IH as [IHl IHf]. split.
  - cbn [length]. rewrite IHl. lia.
  - constructor; [now apply contains_In|]. constructor; [now apply contains_In|exact IHf].
Qed.

Lemma b16encode_shape_witness :
  Forall (fun b => 0 <= b <= 255) [0; 171; 255] /\
  length (b16encode [0; 171; 255]) = (2 * length [0; 171; 255])%nat /\
  Forall (fun c => In c b16_alphabet) (b16encode [0; 171; 255]).
Proof.
  assert (Hd : Forall (fun b => 0 <= b <= 255) [0; 171; 255]).
  { repeat (apply Forall_cons; [lia|]). apply Forall_nil. }
  split; [exact Hd|].
  exact (b16encode_shape _ Hd).
Defined.

(** X15: [base64.b64encode] of a byte string of length [n] is Base64
    alphabet characters followed by [(3 - n mod 3) mod 3] pad characters
    [=], [4 * ceil(n / 3)] characters in all. *)
Theorem b64encode_shape (d : list Z) :
  Forall (fun b => 0 <= b <= 255) d ->
  exists body,
    b64encode d = body ++ repeat 61 ((3 - length d mod 3) mod 3) /\
    Forall (fun c => In c b64_alphabet) body /\
    length (b64encode d) = (4 * ((length d + 2) / 3))%nat.
Proof. intros Hd. exact (b64encode_groups (length d) d (le_n _) Hd). Qed.

Lemma b64encode_shape_witness :
  Forall (fun b => 0 <= b <= 255) [104; 105] /\
  exists body,
    b64encode [104; 105] = body ++ repeat 61 ((3 - length [104; 105] mod 3) mod 3) /\
    Forall (fun c => In c b64_alphabet) body /\
    length (b64encode [104; 105]) = (4 * ((length [104; 105] + 2) / 3))%nat.
Proof.
  assert (Hd : Forall (fun b => 0 <= b <= 255) [104; 105]).
  { repeat (apply Forall_cons; [lia|]). apply Forall_nil. }
  split; [exact Hd|].
  exact (b64encode_shape _ Hd).
Defined.

(** X16: [base64.b32encode] of a byte string of length [n] is Base32
    alphabet characters followed by 0, 6, 4, 3 or 1 pad characters [=] as
    [n mod 5] is 0, 1, 2, 3 or 4, [8 * ceil(n / 5)] characters in all. *)
Theorem b32encode_shape (d : list Z) :
  Forall (fun b => 0 <= b <= 255) d ->
  exists body,
    b32encode d = body ++ repeat 61 (nth (length d mod 5) [0; 6; 4; 3; 1] 0)%nat /\
    Forall (fun c => In c b32_alphabet) body /\
    length (b32encode d) = (8 * ((length d + 4) / 5))%nat.
Proof.
  intros Hd. unfold b32encode. cbv zeta.
  assert (Hr : forall k, Forall (fun b => 0 <= b <= 255) (d ++ repeat 0 k)).
  { intros k. apply Forall_app. split; [exact Hd|].
    apply Forall_forall. intros x Hx. apply repeat_spec in Hx. lia. }
  assert (Hm : 0 <= Z.of_nat (length d) mod 5 < 5) by zlia.
  destruct (Z.of_nat (length d) mod 5 =? 0) eqn:E0.
  - apply Z.eqb_eq in E0. rewrite E0. cbn [Z.eqb].
    destruct (b32_quanta_shape _ d (le_n _) Hd) as [Hl Hf].
    replace (length d mod 5)%nat with 0%nat by nlia.
    exists (b32_quanta d). rewrite app_nil_r. split; [reflexivity|]. split; [exact Hf|].
    rewrite Hl. nlia.
  - apply Z.eqb_neq in E0.
    remember (Z.of_nat (length d) mod 5) as k eqn:Ek.
    destruct (b32_quanta_shape _ _ (le_n _) (Hr (Z.to_nat (5 - k)))) as [Hl Hf].
    rewrite length_app, repeat_length in Hl.
    assert (Hk : k = 1 \/ k = 2 \/ k = 3 \/ k = 4) by lia.
    assert (Hn5 : Z.of_nat (length d mod 5) = Z.of_nat (length d) mod 5)
      by (rewrite Nat2Z.inj_mod; reflexivity).
    destruct Hk as [Hk|[Hk|[Hk|Hk]]]; subst k; rewrite Hk in *;
      cbn [Z.eqb Pos.eqb];
      match goal with |- context [Z.to_nat (5 - ?k)] =>
        let v := eval vm_compute in (Z.to_nat (5 - k)) in
        change (Z.to_nat (5 - k)) with v in *
      end;
      match goal with |- exists _, pad_tail ?p ?e = _ /\ _ =>
        destruct (pad_tail_shape b32_alphabet p e ltac:(rewrite Hl; nlia) Hf)
          as (Hb & Ep & Lp)
      end;
      match type of Hn5 with _ = ?v =>
        let w := eval vm_compute in (Z.to_nat v) in
        replace (length d mod 5)%nat with w
          by (apply Nat2Z.inj; rewrite Hn5; reflexivity)
      end;
      eexists; (split; [rewrite Ep; reflexivity|]);
      (split; [exact Hb|]); rewrite Lp, Hl; nlia.
Qed.

Lemma b32encode_shape_witness :
  Forall (fun b => 0 <= b <= 255) [104; 105; 33] /\
  exists body,
    b32encode [104; 105; 33]
      = body ++ repeat 61 (nth (length [104; 105; 33] mod 5) [0; 6; 4; 3; 1] 0)%nat /\
    Forall (fun c => In c b32_alphabet) body /\
    length (b32encode [104; 105; 33]) = (8 * ((length [104; 105; 33] + 4) / 5))%nat.
Proof.
  assert (Hd : Forall (fun b => 0 <= b <= 255) [104; 105; 33]).
  { repeat (apply Forall_cons; [lia|]). apply Forall_nil. }
  split; [exact Hd|].
  exact (b32encode_shape _ Hd).
Defined.

(** X17: [base64.b85encode] of a byte string of length [n] writes
    [n + ceil(n / 4)] characters, all of them in the Base85 alphabet (no
    padding is kept). *)
Theorem b85encode_shape (d : list Z) :
  Forall (fun b => 0 <= b <= 255) d ->
  length (b85encode d) = (length d + (length d + 3) / 4)%nat /\
  Forall (fun c => In c b85_alphabet) (b85encode d).
Proof.
  intros Hd. unfold b85encode. cbv zeta.
  set (p := (- Z.of_nat (length d)) mod 4).
  assert (Hp : 0 <= p < 4 /\ (Z.of_nat (length d) + p) mod 4 = 0) by (unfold p; zlia).
  assert (Hs : Forall (fun b => 0 <= b <= 255) (d ++ repeat 0 (Z.to_nat p))).
  { apply Forall_app. split; [exact Hd|].
    apply Forall_forall. intros x Hx. apply repeat_spec in Hx. lia. }
  destruct (b85_chunks_shape _ _ (le_n _) Hs) as [Hl Hf].
  rewrite length_app, repeat_length in Hl.
  set (chunks := b85_chunks (d ++ repeat 0 (Z.to_nat p))) in *.
  destruct (Z.eqb_spec p 0) as [H0|H0]; cbn [negb].
  - destruct (concat_chunk5 chunks Hf) as [Lc Fc]. split; [|exact Fc].
    rewrite Lc, Hl, H0. cbn [Z.to_nat]. clear -Hp H0. nlia.
  - assert (Hne : chunks <> []).
    { intros E. rewrite E in Hl. cbn [length] in Hl. nlia. }
    pose proof (app_removelast_last [] Hne) as Ech.
    rewrite Ech in Hf. apply Forall_app in Hf as [Hf1 Hf2].
    inversion Hf2 as [|? ? [Hlast Flast] _]; subst.
    destruct (concat_chunk5 _ Hf1) as [Lc Fc].
    assert (Hlr : length chunks = S (length (removelast chunks))).
    { rewrite Ech at 1. rewrite length_app. cbn. lia. }
    rewrite concat_app. cbn [concat]. rewrite app_nil_r. split.
    + rewrite length_app, Lc, length_firstn, Hlast.
      clear -Hp H0 Hl Hlr. nlia.
    + apply Forall_app. split; [exact Fc|]. now apply Forall_firstn'.
Qed.

Lemma b85encode_shape_witness :
  Forall (fun b => 0 <= b <= 255) [104; 105; 33; 0; 255] /\
  length (b85encode [104; 105; 33; 0; 255])
    = (length [104; 105; 33; 0; 255] + (length [104; 105; 33; 0; 255] + 3) / 4)%nat /\
  Forall (fun c => In c b85_alphabet) (b85encode [104; 105; 33; 0; 255]).
Proof.
  assert (Hd : Forall (fun b => 0 <= b <= 255) [104; 105; 33; 0; 255]).
  { repeat (apply Forall_cons; [lia|]). apply Forall_nil. }
  split; [exact Hd|].
  exact (b85encode_shape _ Hd).
Defined.

(** X18: [XXencode.encode] and [UUencode.encode] of a byte string of length
    [n] write the padding count [(3 - n mod 3) mod 3] as the first byte,
    followed by [4 * ceil(n / 3)] characters of the codec's table. *)
Theorem xx_encode_shape (table d : list Z) :
  table = xx_table \/ table = uu_table ->
  Forall (fun b => 0 <= b <= 255) d ->
  exists chars,
    xx_encode table d = Ok (Z.of_nat ((3 - length d mod 3) mod 3) :: chars) /\
    length chars = (4 * ((length d + 2) / 3))%nat /\
    Forall (fun c => In c table) chars.
Proof.
  intros Ht Hd.
  assert (Hok : forallb (xx_word_ok table) (words 6) = true)
    by (destruct Ht as [->| ->]; [exact xx_table_ok | exact uu_table_ok]).
  destruct (xx_roundtrip table Hok d Hd) as (e & He & _).
  pose proof He as He'.
  unfold xx_encode in He'. cbv zeta in He'. bind_inv He'. apply Ok_inj in He'.
  subst e.
  destruct (xx_encode_groups_shape table _ _ _ (le_n _) E) as (_ & Hl & Hf).
  exists x. rewrite He. split; [|split; [|exact Hf]].
  - f_equal. f_equal. clear -Hd.
    destruct (Z.eqb_spec (Z.of_nat (length d) mod 3) 0) as [H0|H0]; nlia.
  - rewrite Hl, length_app, repeat_length. clear -Hd.
    destruct (Z.eqb_spec (Z.of_nat (length d) mod 3) 0) as [H0|H0];
      rewrite ?Z2Nat.inj_sub by lia; nlia.
Qed.

Lemma xx_encode_shape_witness :
  (uu_table = xx_table \/ uu_table = uu_table) /\
  Forall (fun b => 0 <= b <= 255) [104; 105] /\
  exists chars,
    xx_encode uu_table [104; 105]
      = Ok (Z.of_nat ((3 - length [104; 105] mod 3) mod 3) :: chars) /\
    length chars = (4 * ((length [104; 105] + 2) / 3))%nat /\
    Forall (fun c => In c uu_table) chars.
Proof.
  assert (Ht : uu_table = xx_table \/ uu_table = uu_table) by (right; reflexivity).
  assert (Hd : Forall (fun b => 0 <= b <= 255) [104; 105]).
  { repeat (apply Forall_cons; [lia|]). apply Forall_nil. }
  split; [exact Ht|]. split; [exact Hd|].
  exact (xx_encode_shape _ _ Ht Hd).
Defined.

(** X19: [base64.b32decode] of text that contains a character outside the
    Base32 alphabet, other than the pad [=], fails with [binascii.Error]. *)
Theorem b32decode_rejects (s : list Z) (c : Z) :
  In c s -> ~ In c b32_alphabet -> c <> 61 -> b32decode s = Err BinasciiError.
Proof.
  intros Hin Hc H61. unfold b32decode.
  destruct (negb (Z.of_nat (length s) mod 8 =? 0)); [reflexivity|].
  cbv zeta.
  assert (Hs : In c (concat (chunks8 (rstrip_pad s)))).
  { rewrite (concat_chunks8 _ _ (le_n _)). now apply rstrip_pad_In. }
  apply In_chunk in Hs as (q & Hq & Hcq).
  rewrite (b32_decode_quanta_reject _ q c 0 Hq Hcq Hc). reflexivity.
Qed.

Lemma b32decode_rejects_witness :
  In 33 (s_ "MZXW6YQ!") /\ ~ In 33 b32_alphabet /\ 33 <> 61 /\
  b32decode (s_ "MZXW6YQ!") = Err BinasciiError.
Proof.
  assert (Hin : In 33 (s_ "MZXW6YQ!")) by (apply contains_In; reflexivity).
  assert (Hc : ~ In 33 b32_alphabet).
  { intros H. apply contains_In in H. vm_compute in H. discriminate. }
  assert (H61 : 33 <> 61) by discriminate.
  split; [exact Hin|]. split; [exact Hc|]. split; [exact H61|].
  exact (b32decode_rejects _ _ Hin Hc H61).
Defined.

(** X20: [base64.b85decode] of text that contains a character outside the
    Base85 alphabet fails with [ValueError]. *)
Theorem b85decode_rejects (s : list Z) (c : Z) :
  In c s -> ~ In c b85_alphabet -> b85decode s = Err ValueError.
Proof.
  intros Hin Hc. unfold b85decode. cbv zeta.
  set (b := s ++ repeat 126 (Z.to_nat ((- Z.of_nat (length s)) mod 5))).
  assert (Hb : In c (concat (chunks5 b))).
  { rewrite (concat_chunks5 _ b (le_n _)). apply in_or_app. now left. }
  apply In_chunk in Hb as (q & Hq & Hcq).
  rewrite (mapM_reject b85_decode_chunk ValueError _ q b85_decode_chunk_err Hq).
  - reflexivity.
  - unfold b85_decode_chunk.
    pose proof (fold_lookup_reject (find b85_alphabet) ValueError
                  (fun a v => a * 85 + v) q c Hcq (find_absent _ _ Hc) 0) as R.
    cbv beta zeta in R. rewrite R. reflexivity.
Qed.

Lemma b85decode_rejects_witness :
  In 44 (s_ "Xk~0,") /\ ~ In 44 b85_alphabet /\
  b85decode (s_ "Xk~0,") = Err ValueError.
Proof.
  assert (Hin : In 44 (s_ "Xk~0,")) by (apply contains_In; reflexivity).
  assert (Hc : ~ In 44 b85_alphabet).
  { intros H. apply contains_In in H. vm_compute in H. discriminate. }
  split; [exact Hin|]. split; [exact Hc|].
  exact (b85decode_rejects _ _ Hin Hc).
Defined.

(** X21: [XXencode.decode] (and [UUencode.decode]) of data whose body holds a
    byte missing from the table does not decode it: [table.find] gives -1,
    whose [bin] text ['b1'] puts a [b] in the bit string, so the call fails
    with [ValueError] from [int(..., base=2)], or with [AssertionError]
    when the bit count is not a multiple of 8. *)
Theorem xx_decode_rejects (table data : list Z) (p c : Z) :
  (length table <= 256)%nat -> In c data -> ~ In c table ->
  xx_decode table (p :: data) =
    Err (if Nat.eqb ((6 * length data) mod 8) 0 then ValueError else AssertionError).
Proof.
  intros Hlen Hin Hc. unfold xx_decode. cbv zeta.
  rewrite (xx_bits_length table Hlen data).
  destruct (Nat.eqb ((6 * length data) mod 8) 0) eqn:Hm; cbn [negb]; [|reflexivity].
  set (bits := flat_map (fun b => skipn 2 (byte2bit (find table b))) data).
  assert (H98 : In 98 (concat (chunks8 bits))).
  { rewrite (concat_chunks8 _ _ (le_n _)). apply in_flat_map. exists c.
    split; [exact Hin|]. rewrite (find_absent _ _ Hc). cbn. tauto. }
  apply In_chunk in H98 as (q & Hq & H98).
  rewrite (mapM_reject bit2byte ValueError _ q bit2byte_err Hq (bit2byte_reject q H98)).
  reflexivity.
Qed.

Lemma xx_decode_rejects_witness :
  (length xx_table <= 256)%nat /\ In 33 [43; 43; 43; 33] /\ ~ In 33 xx_table /\
  xx_decode xx_table (0 :: [43; 43; 43; 33]) =
    Err (if Nat.eqb ((6 * length [43; 43; 43; 33]) mod 8) 0
         then ValueError else AssertionError).
Proof.
  assert (Hl : (length xx_table <= 256)%nat) by (apply Nat.leb_le; reflexivity).
  assert (Hin : In 33 [43; 43; 43; 33]) by (cbn; tauto).
  assert (Hc : ~ In 33 xx_table).
  { intros H. apply contains_In in H. vm_compute in H. discriminate. }
  split; [exact Hl|]. split; [exact Hin|]. split; [exact Hc|].
  exact (xx_decode_rejects _ _ 0 _ Hl Hin Hc).
Defined.

